(** * A shallow embedding of the WhatsApp bot's session lifecycle

    The development follows the Python sources of the repository:
    - [app/utils/session_manager.py] (class [SessionManager]): the per-user
      session store, the expiration sweeper and the snapshot persister;
    - [app/utils/whatsapp_utils.py]: keyword intent detection, text
      post-processing and the message router [process_whatsapp_message];
    - [app/services/ai_service.py]: the assistant polling routine
      [generate_assistant_response];
    - [app/whatsapp/handlers.py]: the subscription check [verify_webhook].

    Conventions of the embedding.
    - A Python [str] is a Rocq [string] holding its UTF-8 bytes.  UTF-8 is
      self-synchronising, so the substring test [kw in s] on code points and
      on bytes agree.
    - A Python [int] is a [Z].
    - A Python [dict] used as a map is a [gmap].  Iteration then follows
      [map_to_list] instead of insertion order; only the relative order of
      notices sent to different users within one sweep depends on it.
    - [datetime.now()] reads an external wall clock.  The clock is a function
      [wall : nat -> datetime] from the number of readings made so far to the
      value read; the store carries the number of readings.
    - Threads are not modelled: every operation of the store runs under the
      store's re-entrant lock, and the operations here are the atomic steps
      of a sequential history. *)

From Stdlib Require Import ZArith String Ascii List Lia Eqdep_dec QArith.
From stdpp Require Import base gmap strings list fin_maps.

Close Scope Q_scope.

(** ** Python values used by the sources *)

(** *** Decimal formatting, as done by ["%0wd"] and by f-strings *)

Definition digit_of (d : Z) : ascii := ascii_of_nat (48 + Z.to_nat d).

Definition digit_val (c : ascii) : option Z :=
  let n := Z.of_nat (nat_of_ascii c) in
  if ((48 <=? n) && (n <=? 57))%Z then Some (n - 48)%Z else None.

(** [zfill w n]: the last [w] decimal digits of [n], most significant first
    (["%0wd" % n] for [0 <= n < 10^w]). *)
Fixpoint zfill (w : nat) (n : Z) : string :=
  match w with
  | O => EmptyString
  | S w' => String (digit_of ((n / 10 ^ Z.of_nat w') mod 10)%Z) (zfill w' n)
  end.

(** Reads exactly [w] decimal digits off the front of [s]. *)
Fixpoint take_digits (w : nat) (s : string) (acc : Z) : option (Z * string) :=
  match w with
  | O => Some (acc, s)
  | S w' =>
      match s with
      | EmptyString => None
      | String c r =>
          match digit_val c with
          | Some d => take_digits w' r (acc * 10 + d)%Z
          | None => None
          end
      end
  end.

Definition expect (c : ascii) (s : string) : option string :=
  match s with
  | String c' r => if Ascii.eqb c c' then Some r else None
  | EmptyString => None
  end.

(** [str(n)] for a non-negative [n] needs [fuel] at least the number of
    digits; [str_of_Z] supplies it. *)
Fixpoint str_of_pos_fuel (fuel : nat) (n : Z) (acc : string) : string :=
  match fuel with
  | O => acc
  | S f =>
      let acc' := String (digit_of (n mod 10)%Z) acc in
      if (n <? 10)%Z then acc' else str_of_pos_fuel f (n / 10)%Z acc'
  end.

Definition str_of_Z (n : Z) : string :=
  if (n <? 0)%Z
  then String "-"%char (str_of_pos_fuel (S (Z.to_nat (Z.log2 (- n)))) (- n)%Z EmptyString)
  else str_of_pos_fuel (S (Z.to_nat (Z.log2 n))) n EmptyString.

(** *** [datetime.datetime] (naive) *)

Record date_fields := DateFields {
  year : Z; month : Z; day : Z;
  hour : Z; minute : Z; second : Z; microsecond : Z }.

Definition is_leap (y : Z) : bool :=
  ((y mod 4 =? 0) && (negb (y mod 100 =? 0) || (y mod 400 =? 0)))%Z.

Definition days_in_month (y m : Z) : Z :=
  if ((m =? 1) || (m =? 3) || (m =? 5) || (m =? 7) || (m =? 8) || (m =? 10) || (m =? 12))%Z
  then 31%Z
  else if ((m =? 4) || (m =? 6) || (m =? 9) || (m =? 11))%Z then 30%Z
  else if (m =? 2)%Z then (if is_leap y then 29%Z else 28%Z)
  else 0%Z.

Definition between (lo x hi : Z) : bool := ((lo <=? x) && (x <=? hi))%Z.

(** The range checks of the [datetime] constructor. *)
Definition valid_fields (f : date_fields) : bool :=
  between 1 (year f) 9999 && between 1 (month f) 12 &&
  between 1 (day f) (days_in_month (year f) (month f)) &&
  between 0 (hour f) 23 && between 0 (minute f) 59 &&
  between 0 (second f) 59 && between 0 (microsecond f) 999999.

(** A [datetime] object always satisfies the constructor's checks. *)
Record datetime := Datetime {
  fields : date_fields;
  fields_valid : valid_fields fields = true }.

(** [datetime(y, m, d, hh, mm, ss, us)]; [None] stands for [ValueError]. *)
Definition datetime_of (f : date_fields) : option datetime :=
  match valid_fields f as b return valid_fields f = b -> option datetime with
  | true => fun H => Some (Datetime f H)
  | false => fun _ => None
  end eq_refl.

(** Proleptic Gregorian ordinal, as [datetime.toordinal]. *)
Definition days_before_year (y : Z) : Z :=
  ((y - 1) * 365 + (y - 1) / 4 - (y - 1) / 100 + (y - 1) / 400)%Z.

Fixpoint days_before_month_aux (y : Z) (m : nat) : Z :=
  match m with
  | O => 0%Z
  | S m' => (days_before_month_aux y m' + days_in_month y (Z.of_nat m))%Z
  end.

Definition days_before_month (y m : Z) : Z :=
  days_before_month_aux y (Z.to_nat (m - 1)).

Definition toordinal (f : date_fields) : Z :=
  (days_before_year (year f) + days_before_month (year f) (month f) + day f)%Z.

(** Microseconds since the start of day 0 of the proleptic calendar.  The
    difference of two datetimes is a [timedelta] whose total number of
    microseconds is the difference of their [to_us]; datetimes compare as
    their [to_us] do. *)
Definition to_us (d : datetime) : Z :=
  let f := fields d in
  ((((toordinal f * 24 + hour f) * 60 + minute f) * 60 + second f) * 1000000
   + microsecond f)%Z.

(** [datetime.min] and [datetime.max]. *)
Definition datetime_min : datetime :=
  Datetime (DateFields 1 1 1 0 0 0 0) eq_refl.

Definition datetime_max : datetime :=
  Datetime (DateFields 9999 12 31 23 59 59 999999) eq_refl.

(** [d + timedelta(seconds=n)] for an [int] [n], as the microseconds the
    sum counts ([to_us] of it).  [None] stands for the [OverflowError]
    raised when the sum leaves the range of [datetime]; the range of
    [timedelta] is wider, so a [timedelta(seconds=n)] that raises the same
    error has its sum outside as well. *)
Definition plus_seconds (d : datetime) (n : Z) : option Z :=
  let sum := (to_us d + n * 1000000)%Z in
  if ((to_us datetime_min <=? sum) && (sum <=? to_us datetime_max))%Z
  then Some sum else None.

(** *** [float]: the quotient of two integers *)

(** The integer nearest to [n / d], for [d > 0]; of two nearest integers
    the even one. *)
Definition round_half_even (n d : Z) : Z :=
  let q := (n / d)%Z in
  let r := (n mod d)%Z in
  if (2 * r <? d)%Z then q
  else if (d <? 2 * r)%Z then (q + 1)%Z
  else if Z.even q then q else (q + 1)%Z.

(** [floor (log2 (a / d))], for [a > 0] and [d > 0]. *)
Definition ilog2_ratio (a d : Z) : Z :=
  let l := (Z.log2 a - Z.log2 d)%Z in
  if (a * 2 ^ Z.max 0 (- l) <? d * 2 ^ Z.max 0 l)%Z then (l - 1)%Z else l.

(** A binary64 number, [mantissa * 2 ^ exponent]. *)
Record binary64 := Binary64 {
  mantissa : Z;
  exponent : Z }.

(** [n / d] for two [int]s with [d > 0]: the quotient rounded to 53
    significant bits, to nearest, ties to even.  The quotients taken here
    are 0 or lie between [10^-6] and [10^12] in absolute value, far from
    the subnormal numbers and from overflow, which are not modelled. *)
Definition true_div (n d : Z) : binary64 :=
  if (n =? 0)%Z then Binary64 0 0
  else
    let e := (ilog2_ratio (Z.abs n) d - 52)%Z in
    Binary64 (round_half_even (n * 2 ^ Z.max 0 (- e)) (d * 2 ^ Z.max 0 e)) e.

(** [x >= n] for a [float] [x] and an [int] [n], which Python compares
    exactly. *)
Definition float_ge_int (x : binary64) (n : Z) : bool :=
  (n * 2 ^ Z.max 0 (- exponent x) <=? mantissa x * 2 ^ Z.max 0 (exponent x))%Z.

(** The result of a call that may raise. *)
Inductive outcome (A : Type) :=
  | Ok (a : A)
  | Raise.
Arguments Ok {A} a.
Arguments Raise {A}.

(** [d.isoformat()] of a naive datetime: the fraction is left out when the
    microsecond is zero. *)
Definition isoformat (d : datetime) : string :=
  let f := fields d in
  zfill 4 (year f) +:+ "-" +:+ zfill 2 (month f) +:+ "-" +:+ zfill 2 (day f)
  +:+ "T" +:+ zfill 2 (hour f) +:+ ":" +:+ zfill 2 (minute f) +:+ ":"
  +:+ zfill 2 (second f)
  +:+ (if (microsecond f =? 0)%Z then EmptyString else "." +:+ zfill 6 (microsecond f)).

Definition bind_opt {A B} (o : option A) (k : A -> option B) : option B :=
  match o with Some a => k a | None => None end.

Notation "'let?' x ':=' o 'in' k" := (bind_opt o (fun x => k))
  (at level 10, x pattern, k at level 200).

(** [datetime.fromisoformat(s)], restricted to the two layouts [isoformat]
    produces for a naive datetime ([YYYY-MM-DDTHH:MM:SS] with or without a
    six-digit fraction).  [None] stands for [ValueError]; the other layouts
    Python's parser accepts are not modelled and are answered [None]. *)
Definition fromisoformat (s : string) : option datetime :=
  let? (y, s) := take_digits 4 s 0 in
  let? s := expect "-" s in
  let? (m, s) := take_digits 2 s 0 in
  let? s := expect "-" s in
  let? (d, s) := take_digits 2 s 0 in
  let? s := expect "T" s in
  let? (hh, s) := take_digits 2 s 0 in
  let? s := expect ":" s in
  let? (mi, s) := take_digits 2 s 0 in
  let? s := expect ":" s in
  let? (ss, s) := take_digits 2 s 0 in
  match s with
  | EmptyString => datetime_of (DateFields y m d hh mi ss 0)
  | _ =>
      let? s := expect "." s in
      let? (us, s) := take_digits 6 s 0 in
      match s with
      | EmptyString => datetime_of (DateFields y m d hh mi ss us)
      | _ => None
      end
  end.


(** ** [app/utils/session_manager.py] *)

(** One element of [message_history]; [entry_type] is the optional ['type']
    key, present (['system']) on the sweeper's notices only. *)
Record history_entry := HistoryEntry {
  role : string;
  content : string;
  timestamp : string;
  entry_type : option string }.

(** The ['meta'] dictionary.  Both keys are read with [.get(key, 0)], so a
    key may be absent ([None]). *)
Record meta_info := Meta {
  total_messages : option Z;
  session_restarts : option Z }.

Definition meta_get (o : option Z) : Z := default 0%Z o.

(** A session dictionary, with the nine keys [get_session] creates. *)
Record session := Session {
  created_at : datetime;
  last_activity : datetime;
  state : string;
  context : gmap string string;
  thread_id : option string;
  message_history : list history_entry;
  inactivity_warning_sent : bool;
  closing_notice_sent : bool;
  meta : meta_info }.

(** The function handed to [set_send_message_function]; the application
    registers [send_whatsapp_message_background]. *)
Inductive sender := send_whatsapp_message_background_ref.

(** The [SessionManager] object together with the two pieces of the outside
    world its methods act on: [outbox] lists the calls made to the delivery
    client, oldest first, as (recipient, text); [clock_reads] counts the
    calls made to [datetime.now()]. *)
Record SessionManager := Manager {
  sessions : gmap string session;
  session_timeout : Z;
  inactivity_warning : Z;
  send_message_func : option sender;
  outbox : list (string * string);
  clock_reads : nat }.

Definition with_sessions (f : gmap string session -> gmap string session)
    (w : SessionManager) : SessionManager :=
  Manager (f (sessions w)) (session_timeout w) (inactivity_warning w)
          (send_message_func w) (outbox w) (clock_reads w).

(** One delivery attempt through [send_whatsapp_message_background], which
    swallows every exception of its own and returns. *)
Definition deliver (recipient text : string) (w : SessionManager) : SessionManager :=
  Manager (sessions w) (session_timeout w) (inactivity_warning w)
          (send_message_func w) (outbox w ++ [(recipient, text)]) (clock_reads w).

Definition set_send_message_function (func : sender) (w : SessionManager)
    : SessionManager :=
  Manager (sessions w) (session_timeout w) (inactivity_warning w)
          (Some func) (outbox w) (clock_reads w).

(** [SessionManager(session_timeout, inactivity_warning)], without the
    background thread. *)
Definition init (session_timeout inactivity_warning : Z) : SessionManager :=
  Manager ∅ session_timeout inactivity_warning None [] 0.

Definition set_last_activity (t : datetime) (s : session) : session :=
  Session (created_at s) t (state s) (context s) (thread_id s)
          (message_history s) (inactivity_warning_sent s)
          (closing_notice_sent s) (meta s).

Definition set_inactivity_warning_sent (b : bool) (s : session) : session :=
  Session (created_at s) (last_activity s) (state s) (context s) (thread_id s)
          (message_history s) b (closing_notice_sent s) (meta s).

Definition set_closing_notice_sent (b : bool) (s : session) : session :=
  Session (created_at s) (last_activity s) (state s) (context s) (thread_id s)
          (message_history s) (inactivity_warning_sent s) b (meta s).

Definition set_message_history (h : list history_entry) (s : session) : session :=
  Session (created_at s) (last_activity s) (state s) (context s) (thread_id s)
          h (inactivity_warning_sent s) (closing_notice_sent s) (meta s).

Definition set_context (c : gmap string string) (s : session) : session :=
  Session (created_at s) (last_activity s) (state s) c (thread_id s)
          (message_history s) (inactivity_warning_sent s)
          (closing_notice_sent s) (meta s).

Definition set_state (st : string) (s : session) : session :=
  Session (created_at s) (last_activity s) st (context s) (thread_id s)
          (message_history s) (inactivity_warning_sent s)
          (closing_notice_sent s) (meta s).

Definition set_meta (m : meta_info) (s : session) : session :=
  Session (created_at s) (last_activity s) (state s) (context s) (thread_id s)
          (message_history s) (inactivity_warning_sent s)
          (closing_notice_sent s) m.

(** The three assignments every activity ends with: refresh
    [last_activity], clear both notification flags. *)
Definition touch (t : datetime) (s : session) : session :=
  set_closing_notice_sent false
    (set_inactivity_warning_sent false (set_last_activity t s)).

(** A keyword argument of [update_session].  [Kother key] is a keyword that
    names no key of the session. *)
Inductive kwarg :=
  | Kcreated_at (d : datetime)
  | Klast_activity (d : datetime)
  | Kstate (st : string)
  | Kcontext (c : gmap string string)
  | Kthread_id (t : option string)
  | Kmessage_history (h : list history_entry)
  | Kinactivity_warning_sent (b : bool)
  | Kclosing_notice_sent (b : bool)
  | Kmeta (m : meta_info)
  | Kother (key : string).

(** [if key in session: session[key] = value] *)
Definition apply_kwarg (s : session) (k : kwarg) : session :=
  match k with
  | Kcreated_at d =>
      Session d (last_activity s) (state s) (context s) (thread_id s)
              (message_history s) (inactivity_warning_sent s)
              (closing_notice_sent s) (meta s)
  | Klast_activity d => set_last_activity d s
  | Kstate st => set_state st s
  | Kcontext c => set_context c s
  | Kthread_id t =>
      Session (created_at s) (last_activity s) (state s) (context s) t
              (message_history s) (inactivity_warning_sent s)
              (closing_notice_sent s) (meta s)
  | Kmessage_history h => set_message_history h s
  | Kinactivity_warning_sent b => set_inactivity_warning_sent b s
  | Kclosing_notice_sent b => set_closing_notice_sent b s
  | Kmeta m => set_meta m s
  | Kother _ => s
  end.

Definition closing_message : string :=
  "Tu sesión ha sido cerrada debido a inactividad. Puedes iniciar una nueva conversación cuando lo necesites.".

Section Store.

(** The wall clock: [wall n] is what the [n]-th call of [datetime.now()]
    returns. *)
Variable wall : nat -> datetime.

Definition now (w : SessionManager) : datetime * SessionManager :=
  (wall (clock_reads w),
   Manager (sessions w) (session_timeout w) (inactivity_warning w)
           (send_message_func w) (outbox w) (S (clock_reads w))).

(** [get_session]: the returned dictionary is the one stored under
    [user_id], so the caller reads it back from the store. *)
Definition get_session (user_id : string) (w : SessionManager) : SessionManager :=
  match sessions w !! user_id with
  | None =>
      let '(t_created, w) := now w in
      let '(t_activity, w) := now w in
      with_sessions
        (insert user_id
           (Session t_created t_activity "INITIAL" ∅ None [] false false
                    (Meta (Some 0%Z) (Some 0%Z)))) w
  | Some s =>
      let '(t, w) := now w in
      with_sessions (insert user_id (touch t s)) w
  end.

Definition update_session (user_id : string) (kwargs : list kwarg)
    (w : SessionManager) : SessionManager :=
  match sessions w !! user_id with
  | Some s =>
      let s := fold_left apply_kwarg kwargs s in
      let '(t, w) := now w in
      with_sessions (insert user_id (touch t s)) w
  | None => w
  end.

Definition restart_session (user_id : string) (w : SessionManager) : SessionManager :=
  match sessions w !! user_id with
  | Some s =>
      let restarts := (meta_get (session_restarts (meta s)) + 1)%Z in
      let '(t_created, w) := now w in
      let '(t_activity, w) := now w in
      with_sessions
        (insert user_id
           (Session t_created t_activity "INITIAL" ∅ None [] false false
                    (Meta (Some (meta_get (total_messages (meta s))))
                          (Some restarts)))) w
  | None => w
  end.

Definition end_session (user_id : string) (w : SessionManager) : SessionManager :=
  match sessions w !! user_id with
  | Some _ => with_sessions (delete user_id) w
  | None => w
  end.

(** [is_session_active].  The expiration time
    [last_activity + timedelta(seconds=session_timeout)] is computed first
    and raises [OverflowError] outside the range of [datetime]; the clock
    is read after it, and the two datetimes are compared exactly. *)
Definition is_session_active (user_id : string) (w : SessionManager)
    : outcome bool * SessionManager :=
  match sessions w !! user_id with
  | None => (Ok false, w)
  | Some s =>
      match plus_seconds (last_activity s) (session_timeout w) with
      | None => (Raise, w)
      | Some expiration_time =>
          let '(t, w') := now w in
          (Ok (to_us t <? expiration_time)%Z, w')
      end
  end.

Definition add_message_to_history (user_id role content : string)
    (w : SessionManager) : SessionManager :=
  match sessions w !! user_id with
  | Some s =>
      let '(t_entry, w) := now w in
      let s := set_message_history
                 (message_history s ++
                    [HistoryEntry role content (isoformat t_entry) None]) s in
      let '(t, w) := now w in
      let s := touch t s in
      let total_msgs := (meta_get (total_messages (meta s)) + 1)%Z in
      let s := set_meta (Meta (Some total_msgs) (session_restarts (meta s))) s in
      with_sessions (insert user_id s) w
  | None => w
  end.

(** [l[start:]] *)
Definition py_slice_from {A} (start : Z) (l : list A) : list A :=
  let n := Z.of_nat (length l) in
  let i := if (start <? 0)%Z then Z.max (start + n) 0 else Z.min start n in
  drop (Z.to_nat i) l.

Definition get_message_history (user_id : string) (limit : Z)
    (w : SessionManager) : list history_entry :=
  match sessions w !! user_id with
  | Some s => py_slice_from (- limit) (message_history s)
  | None => []
  end.

End Store.

(** *** The expiration sweeper *)

(** The [message_history.append({...})] of both notices: an entry written by
    the assistant and tagged ['type': 'system']. *)
Definition system_entry (text : string) (t : datetime) : history_entry :=
  HistoryEntry "assistant" text (isoformat t) (Some "system").

Definition warning_message (w : SessionManager) : string :=
  let remaining_minutes := ((session_timeout w - inactivity_warning w) / 60)%Z in
  "¿Sigues ahí? Tu sesión se cerrará por inactividad en "
  +:+ str_of_Z remaining_minutes +:+ " minutos.".

(** The microseconds of the [timedelta]
    [current_time - session['last_activity']]. *)
Definition inactive_us (current_time : datetime) (s : session) : Z :=
  (to_us current_time - to_us (last_activity s))%Z.

(** [timedelta.total_seconds()] of a [timedelta] of [us] microseconds: the
    [float] [us / 10**6]. *)
Definition total_seconds (us : Z) : binary64 := true_div us 1000000.

(** [inactive_time >= threshold] for
    [inactive_time = (current_time - session['last_activity']).total_seconds()]
    and an [int] threshold in seconds. *)
Definition reached (threshold_seconds : Z) (current_time : datetime)
    (s : session) : bool :=
  float_ge_int (total_seconds (inactive_us current_time s)) threshold_seconds.

Section Sweeper.

Variable wall : nat -> datetime.

(** [if self.send_message_func: self.send_message_func(user_id, text)] *)
Definition notify (user_id text : string) (w : SessionManager) : SessionManager :=
  match send_message_func w with
  | Some send_whatsapp_message_background_ref => deliver user_id text w
  | None => w
  end.

(** The locked block both notice routines run after the delivery attempt:
    [if user_id in self.sessions: ...['message_history'].append(...)].
    Nothing but the history is assigned. *)
Definition record_notice (user_id text : string) (w : SessionManager)
    : SessionManager :=
  match sessions w !! user_id with
  | Some s =>
      let '(t, w) := now wall w in
      with_sessions
        (insert user_id
           (set_message_history (message_history s ++ [system_entry text t]) s))
        w
  | None => w
  end.

Definition _send_inactivity_warning (user_id : string) (w : SessionManager)
    : SessionManager :=
  record_notice user_id (warning_message w)
    (notify user_id (warning_message w) w).

(** [del self.sessions[user_id]], inside the same [if user_id in
    self.sessions] as the append before it. *)
Definition drop_session (user_id : string) (w : SessionManager) : SessionManager :=
  match sessions w !! user_id with
  | Some _ => with_sessions (delete user_id) w
  | None => w
  end.

Definition _close_inactive_session (user_id : string) (w : SessionManager)
    : SessionManager :=
  drop_session user_id
    (record_notice user_id closing_message
       (notify user_id closing_message w)).

(** The scan made under the lock: one step of
    [for user_id, session in list(self.sessions.items())].  The accumulator
    holds the store and the two lists [users_to_warn], [users_to_close]. *)
Definition scan_step (timeout warning : Z) (current_time : datetime)
    (acc : gmap string session * list string * list string)
    (item : string * session)
    : gmap string session * list string * list string :=
  let '(m, users_to_warn, users_to_close) := acc in
  let '(user_id, s) := item in
  if reached timeout current_time s && negb (closing_notice_sent s)
  then (<[user_id := set_closing_notice_sent true s]> m,
        users_to_warn, users_to_close ++ [user_id])
  else if reached warning current_time s && negb (inactivity_warning_sent s)
  then (<[user_id := set_inactivity_warning_sent true s]> m,
        users_to_warn ++ [user_id], users_to_close)
  else acc.

Definition scan (w : SessionManager) (current_time : datetime)
    : gmap string session * list string * list string :=
  fold_left (scan_step (session_timeout w) (inactivity_warning w) current_time)
            (map_to_list (sessions w)) (sessions w, [], []).

(** One pass of the [while True] loop of [_cleanup_expired_sessions], from
    the end of [time.sleep(30)] to the last closure.  The periodic
    [_auto_save_sessions] that may follow writes a file and leaves the
    store as it is. *)
Definition cleanup_pass (w : SessionManager) : SessionManager :=
  let '(current_time, w) := now wall w in
  let '(m, users_to_warn, users_to_close) := scan w current_time in
  let w := with_sessions (fun _ => m) w in
  let w := fold_left (fun w u => _send_inactivity_warning u w) users_to_warn w in
  fold_left (fun w u => _close_inactive_session u w) users_to_close w.

(** The first [n] passes of the sweeper thread. *)
Definition _cleanup_expired_sessions (n : nat) (w : SessionManager)
    : SessionManager :=
  Nat.iter n cleanup_pass w.

End Sweeper.

(** *** The snapshot persister *)

(** A session as it stands in the JSON file: the two datetimes are strings,
    and the three keys [load_sessions] supplies defaults for may be absent.
    [json.dump] followed by [json.load] returns an equal value for such data
    (strings, integers, booleans, [null], lists and string-keyed objects),
    so the file holds the value itself, as the list of the object's
    members. *)
Record json_session := JsonSession {
  js_created_at : string;
  js_last_activity : string;
  js_state : string;
  js_context : gmap string string;
  js_thread_id : option string;
  js_message_history : list history_entry;
  js_inactivity_warning_sent : option bool;
  js_closing_notice_sent : option bool;
  js_meta : option meta_info }.

Definition serializable_session (s : session) : json_session :=
  JsonSession (isoformat (created_at s)) (isoformat (last_activity s))
              (state s) (context s) (thread_id s) (message_history s)
              (Some (inactivity_warning_sent s)) (Some (closing_notice_sent s))
              (Some (meta s)).

(** [save_sessions]: the value handed to [json.dump].  The write itself is
    best effort and does not touch the store. *)
Definition save_sessions (w : SessionManager) : list (string * json_session) :=
  map_to_list (serializable_session <$> sessions w).

(** The body of the loop of [load_sessions] for one member of the file;
    [None] stands for the [ValueError] of [fromisoformat]. *)
Definition loaded_session (js : json_session) : option session :=
  let? c := fromisoformat (js_created_at js) in
  let? a := fromisoformat (js_last_activity js) in
  Some (Session c a (js_state js) (js_context js) (js_thread_id js)
                (js_message_history js)
                (default false (js_inactivity_warning_sent js))
                (default false (js_closing_notice_sent js))
                (default (Meta (Some (Z.of_nat (length (js_message_history js))))
                               (Some 0%Z))
                         (js_meta js))).

(** The loop of [load_sessions].  An exception leaves the loop (it is caught
    and logged by the method), and the sessions stored before it stay. *)
Fixpoint load_items (items : list (string * json_session))
    (m : gmap string session) : gmap string session :=
  match items with
  | [] => m
  | (user_id, js) :: rest =>
      match loaded_session js with
      | Some s => load_items rest (<[user_id := s]> m)
      | None => m
      end
  end.

Definition load_sessions (file : list (string * json_session))
    (w : SessionManager) : SessionManager :=
  with_sessions (load_items file) w.

(** ** [app/utils/whatsapp_utils.py] *)

(** *** String operations of Python used by the router *)

(** [Some r] when [s = p ++ r]. *)
Fixpoint strip_prefix (p s : string) : option string :=
  match p with
  | EmptyString => Some s
  | String a p' =>
      match s with
      | String b s' => if Ascii.eqb a b then strip_prefix p' s' else None
      | EmptyString => None
      end
  end.

(** [kw in s] *)
Fixpoint contains (kw s : string) : bool :=
  match strip_prefix kw s with
  | Some _ => true
  | None =>
      match s with
      | EmptyString => false
      | String _ r => contains kw r
      end
  end.

(** [x in [a, b, ...]] for strings. *)
Definition str_in (x : string) (l : list string) : bool :=
  existsb (String.eqb x) l.

(** [a == b] where either side may be [None]. *)
Definition opt_str_eqb (a b : option string) : bool :=
  match a, b with
  | Some x, Some y => String.eqb x y
  | None, None => true
  | _, _ => false
  end.

Definition newline : ascii := ascii_of_nat 10.

(** The regular-expression fragment [(.*?)] followed by the literal [close]:
    the shortest run of characters other than a newline after which [close]
    stands.  Returns the run and what follows [close]. *)
Fixpoint lazy_until (close s : string) : option (string * string) :=
  match strip_prefix close s with
  | Some r => Some (EmptyString, r)
  | None =>
      match s with
      | EmptyString => None
      | String c r =>
          if Ascii.eqb c newline then None
          else match lazy_until close r with
               | Some (x, r') => Some (String c x, r')
               | None => None
               end
      end
  end.

(** [re.sub] for a pattern that matches no empty string: [try s] answers the
    replacement and the rest when the pattern matches at the front of [s].
    Matches are searched left to right and do not overlap. *)
Fixpoint sub_scan (fuel : nat) (try : string -> option (string * string))
    (s : string) : string :=
  match fuel with
  | O => s
  | S fuel' =>
      match s with
      | EmptyString => EmptyString
      | String c r =>
          match try s with
          | Some (replacement, rest) => replacement +:+ sub_scan fuel' try rest
          | None => String c (sub_scan fuel' try r)
          end
      end
  end.

Definition re_sub (try : string -> option (string * string)) (s : string) : string :=
  sub_scan (S (String.length s)) try s.

Definition bytes (l : list nat) : string :=
  fold_right (fun n s => String (ascii_of_nat n) s) EmptyString l.

(** The UTF-8 encodings of the characters [str.isspace] accepts. *)
Definition whitespace : list string :=
  map bytes
    [ [9]; [10]; [11]; [12]; [13]; [28]; [29]; [30]; [31]; [32];
      [194; 133]; [194; 160]; [225; 154; 128];
      [226; 128; 128]; [226; 128; 129]; [226; 128; 130]; [226; 128; 131];
      [226; 128; 132]; [226; 128; 133]; [226; 128; 134]; [226; 128; 135];
      [226; 128; 136]; [226; 128; 137]; [226; 128; 138];
      [226; 128; 168]; [226; 128; 169]; [226; 128; 175]; [226; 129; 159];
      [227; 128; 128] ].

Fixpoint strip_any (prefixes : list string) (s : string) : option string :=
  match prefixes with
  | [] => None
  | p :: rest =>
      match strip_prefix p s with
      | Some r => Some r
      | None => strip_any rest s
      end
  end.

Fixpoint lstrip_fuel (fuel : nat) (prefixes : list string) (s : string) : string :=
  match fuel with
  | O => s
  | S fuel' =>
      match strip_any prefixes s with
      | Some r => lstrip_fuel fuel' prefixes r
      | None => s
      end
  end.

Definition str_rev (s : string) : string :=
  string_of_list_ascii (rev (list_ascii_of_string s)).

(** [s.strip()] *)
Definition str_strip (s : string) : string :=
  let s := lstrip_fuel (String.length s) whitespace s in
  str_rev (lstrip_fuel (String.length s) (map str_rev whitespace) (str_rev s)).

Definition is_control (c : ascii) : bool :=
  let n := nat_of_ascii c in (n <=? 31)%nat || (n =? 127)%nat.

Fixpoint remove_control (s : string) : string :=
  match s with
  | EmptyString => EmptyString
  | String c r => if is_control c then remove_control r else String c (remove_control r)
  end.

(** The pattern [【.*?】], replaced by nothing. *)
Definition match_brackets (s : string) : option (string * string) :=
  let? r := strip_prefix "【" s in
  let? (_, rest) := lazy_until "】" r in
  Some (EmptyString, rest).

(** The pattern [\*\*(.*?)\*\*], replaced by [*\1*]. *)
Definition match_bold (s : string) : option (string * string) :=
  let? r := strip_prefix "**" s in
  let? (inner, rest) := lazy_until "**" r in
  Some ("*" +:+ inner +:+ "*", rest).

(** The pattern [\[(.*?)\]\((.*?)\)], replaced by [\1: \2]. *)
Definition match_link (s : string) : option (string * string) :=
  let? r := strip_prefix "[" s in
  let? (label, r) := lazy_until "](" r in
  let? (url, rest) := lazy_until ")" r in
  Some (label +:+ ": " +:+ url, rest).

Definition process_text_for_whatsapp (text : string) : string :=
  match text with
  | EmptyString => EmptyString
  | _ =>
      let text := str_strip (re_sub match_brackets text) in
      let text := re_sub match_bold text in
      let text := re_sub match_link text in
      remove_control text
  end.

Definition ticket_keywords : list string :=
  [ "problema"; "error"; "falla"; "ticket"; "ayuda"; "soporte"; "no funciona";
    "issue"; "bug"; "help"; "support"; "not working"; "broken"; "doesn't work" ].

Definition ticket_prompt : string :=
  "Parece que necesitas ayuda con un problema. ¿Podrías proporcionar un breve título o asunto para tu ticket de soporte?".

(** The fields [process_whatsapp_message] takes out of the webhook body.
    [msg_type] is [message.get("type")]; [text_body] is
    [message["text"]["body"]], absent when the lookup raises [KeyError]. *)
Record inbound := Inbound {
  wa_id : string;
  name : string;
  msg_type : option string;
  text_body : option string }.

Section Router.

Variable wall : nat -> datetime.

(** [str.lower].  Python lower-cases by the Unicode tables, which are not
    reproduced here: the router is parametric in the function. *)
Variable str_lower : string -> string.

Definition detect_ticket_intent (message : string) : bool :=
  let message_lower := str_lower message in
  existsb (fun keyword => contains keyword message_lower) ticket_keywords.

(** The [if / elif / else] chain on the session state.  [session] is the
    dictionary [get_session] returned, which is the one in the store.
    [None] is the [NameError] of the last branch: it calls
    [generate_response], a name the module neither defines nor imports. *)
Definition route (m : inbound) (message_body : string) (session : session)
    (w : SessionManager) : option (string * SessionManager) :=
  if String.eqb (state session) "INITIAL"
     && str_in (str_lower message_body) ["hola"; "hi"; "hello"]
  then
    Some ("¡Hola " +:+ name m +:+ "! Bienvenido. ¿En qué puedo ayudarte hoy?",
          update_session wall (wa_id m) [Kstate "AWAITING_QUERY"] w)
  else if String.eqb (state session) "TICKET_CREATION" then
    match context session !! "ticket_subject" with
    | None =>
        let ctx := <["ticket_subject" := message_body]> (context session) in
        let w := with_sessions (insert (wa_id m) (set_context ctx session)) w in
        Some ("Gracias. Por favor describe el problema en detalle.",
              update_session wall (wa_id m) [Kcontext ctx] w)
    | Some subject =>
        Some ("¡Gracias! Tu ticket ha sido creado. Un agente de soporte te contactará pronto.",
              update_session wall (wa_id m) [Kstate "AWAITING_QUERY"; Kcontext ∅] w)
    end
  else if detect_ticket_intent message_body
          && negb (String.eqb (state session) "TICKET_CREATION")
  then
    Some (ticket_prompt,
          update_session wall (wa_id m) [Kstate "TICKET_CREATION"; Kcontext ∅] w)
  else None.

(** [process_whatsapp_message].  Every exception is caught and logged by
    the function itself, so a raising path ends with the store as the
    exception found it. *)
Definition process_whatsapp_message (m : inbound) (w : SessionManager)
    : SessionManager :=
  if negb (opt_str_eqb (msg_type m) (Some "text")) then
    deliver (wa_id m)
      "Lo siento, actualmente solo puedo procesar mensajes de texto." w
  else
    match text_body m with
    | None => w
    | Some message_body =>
        let w := get_session wall (wa_id m) w in
        let w := add_message_to_history wall (wa_id m) "user" message_body w in
        if str_in (str_lower message_body) ["/restart"; "/reiniciar"] then
          let w := restart_session wall (wa_id m) w in
          let response := "He reiniciado nuestra conversación. ¿En qué puedo ayudarte?" in
          let w := add_message_to_history wall (wa_id m) "assistant" response w in
          deliver (wa_id m) response w
        else
          match sessions w !! wa_id m with
          | None => w
          | Some session =>
              match route m message_body session w with
              | None => w
              | Some (response, w) =>
                  let response := process_text_for_whatsapp response in
                  let w := add_message_to_history wall (wa_id m) "assistant" response w in
                  deliver (wa_id m) response w
              end
          end
    end.

End Router.

(** [str.lower] on the ASCII letters, every other byte kept: a lower-casing
    to run the router with.  It agrees with Python on ASCII text. *)
Definition ascii_lower_char (c : ascii) : ascii :=
  let n := nat_of_ascii c in
  if (65 <=? n)%nat && (n <=? 90)%nat then ascii_of_nat (n + 32) else c.

Fixpoint ascii_lower (s : string) : string :=
  match s with
  | EmptyString => EmptyString
  | String c r => String (ascii_lower_char c) (ascii_lower r)
  end.

(** ** [app/services/ai_service.py] *)

(** One block of [msg.content] and one message of [messages.data]. *)
Record content_block := ContentBlock {
  block_type : string;
  text_value : string }.

Record thread_message := ThreadMessage {
  msg_role : string;
  msg_content : list content_block }.

(** What one turn of the polling loop observes: the clock read by the loop
    condition, the status [runs.retrieve] answers, and the listing
    [messages.list] answers if it is asked. *)
Record poll_obs := PollObs {
  poll_clock : Q;
  poll_retrieve : outcome string;
  poll_messages : outcome (list thread_message) }.

(** The outside world of one call of [generate_assistant_response]: the
    results of the calls to the assistant provider and the readings of
    [time.time()].  [time.time()] answers a float number of seconds; the
    readings are rationals and their difference is exact. *)
Record assistant_env := AssistantEnv {
  env_client : outcome unit;
  env_assistant_id : option string;
  env_thread : string -> outcome string;
  env_post_message : string -> string -> outcome unit;
  env_run : string -> string -> outcome string;
  env_start_time : Q;
  env_polls : list poll_obs }.

Definition timeout_apology : string :=
  "Lo siento, la respuesta está tomando demasiado tiempo.".

Definition failure_apology : string :=
  "Lo siento, hubo un problema al procesar tu mensaje.".

Definition error_apology : string :=
  "Lo siento, ha ocurrido un error inesperado. Por favor, inténtalo de nuevo más tarde.".

Definition max_wait_time : Q := 60.

(** The nested [for] loops over [messages.data] and [msg.content]: the first
    text block of an assistant message. *)
Fixpoint first_text_block (blocks : list content_block) : option string :=
  match blocks with
  | [] => None
  | b :: rest =>
      if String.eqb (block_type b) "text" then Some (text_value b)
      else first_text_block rest
  end.

Fixpoint first_assistant_text (data : list thread_message) : option string :=
  match data with
  | [] => None
  | msg :: rest =>
      if String.eqb (msg_role msg) "assistant" then
        match first_text_block (msg_content msg) with
        | Some v => Some v
        | None => first_assistant_text rest
        end
      else first_assistant_text rest
  end.

(** [while time.time() - start_time < max_wait_time: ...], one observation
    per turn.  [None]: the observations end before the loop does. *)
Fixpoint poll_loop (start_time : Q) (polls : list poll_obs)
    : option (outcome string) :=
  match polls with
  | [] => None
  | p :: rest =>
      if Qlt_le_dec (poll_clock p - start_time) max_wait_time then
        match poll_retrieve p with
        | Raise => Some Raise
        | Ok status =>
            if String.eqb status "completed" then
              match poll_messages p with
              | Raise => Some Raise
              | Ok data =>
                  Some (Ok (default "No se encontró una respuesta de texto."
                                    (first_assistant_text data)))
              end
            else if str_in status ["failed"; "cancelled"; "expired"] then
              Some (Ok failure_apology)
            else poll_loop start_time rest
        end
      else Some (Ok timeout_apology)
  end.

(** A turn of the loop that goes on to the next: the clock is within the
    wait and the status answered is none of the four that end the loop. *)
Definition still_waiting (start_time : Q) (p : poll_obs) : Prop :=
  (poll_clock p - start_time < max_wait_time)%Q /\
  exists status, poll_retrieve p = Ok status /\
    status <> "completed" /\ ~ In status ["failed"; "cancelled"; "expired"].

(** [user_context + message], where [user_context] names the user when a
    non-empty name is given. *)
Definition full_message (user_name : option string) (message : string) : string :=
  let user_context :=
    match user_name with
    | None | Some EmptyString => EmptyString
    | Some n => "The user's name is " +:+ n +:+ ". "
    end in
  user_context +:+ message.

(** The body of the [try] of [generate_assistant_response]. *)
Definition assistant_response_body (env : assistant_env)
    (message user_id : string) (user_name : option string)
    : option (outcome string) :=
  match env_client env with
  | Raise => Some Raise
  | Ok _ =>
      match env_assistant_id env with
      | None | Some EmptyString =>
          Some (Ok "Error: No se ha configurado un asistente. Contacta al administrador.")
      | Some assistant_id =>
          match env_thread env user_id with
          | Raise => Some Raise
          | Ok thread =>
              match env_post_message env thread (full_message user_name message) with
              | Raise => Some Raise
              | Ok _ =>
                  match env_run env thread assistant_id with
                  | Raise => Some Raise
                  | Ok run => poll_loop (env_start_time env) (env_polls env)
                  end
              end
          end
      end
  end.

(** [generate_assistant_response]: the [except Exception] clause turns every
    exception of the body into the generic apology. *)
Definition generate_assistant_response (env : assistant_env)
    (message user_id : string) (user_name : option string)
    : option (outcome string) :=
  match assistant_response_body env message user_id user_name with
  | Some Raise => Some (Ok error_apology)
  | r => r
  end.

(** ** [app/whatsapp/handlers.py] *)

(** The query parameters of the GET request ([request.args.get]) and the
    value of the environment variable [WHATSAPP_VERIFY_TOKEN]. *)
Record verify_request := VerifyRequest {
  hub_mode : option string;
  hub_verify_token : option string;
  hub_challenge : option string }.

(** Python's truth value of an optional string. *)
Definition truthy (o : option string) : bool :=
  match o with
  | None | Some EmptyString => false
  | Some _ => true
  end.

(** [verify_webhook]: the pair (body, status) the view returns. *)
Definition verify_webhook (verify_token : option string) (request : verify_request)
    : option string * Z :=
  let mode := hub_mode request in
  let token := hub_verify_token request in
  let challenge := hub_challenge request in
  if truthy mode && truthy token then
    if opt_str_eqb mode (Some "subscribe") && opt_str_eqb token verify_token
    then (challenge, 200%Z)
    else (Some "Forbidden", 403%Z)
  else (Some "Bad Request", 400%Z).

(** ** Histories of store operations *)

(** The operations of the store, as the router, the start-up code and the
    sweeper thread invoke them. *)
Inductive store_op :=
  | OpGetSession (user_id : string)
  | OpUpdateSession (user_id : string) (kwargs : list kwarg)
  | OpRestartSession (user_id : string)
  | OpEndSession (user_id : string)
  | OpIsSessionActive (user_id : string)
  | OpAddMessage (user_id role content : string)
  | OpGetMessageHistory (user_id : string) (limit : Z)
  | OpCleanupPass
  | OpSaveSessions
  | OpLoadSessions (file : list (string * json_session))
  | OpSetSendMessageFunction (func : sender).

Section Histories.

Variable wall : nat -> datetime.

Definition exec (w : SessionManager) (op : store_op) : SessionManager :=
  match op with
  | OpGetSession u => get_session wall u w
  | OpUpdateSession u kwargs => update_session wall u kwargs w
  | OpRestartSession u => restart_session wall u w
  | OpEndSession u => end_session u w
  | OpIsSessionActive u => snd (is_session_active wall u w)
  | OpAddMessage u r c => add_message_to_history wall u r c w
  | OpGetMessageHistory _ _ => w
  | OpCleanupPass => cleanup_pass wall w
  | OpSaveSessions => w
  | OpLoadSessions file => load_sessions file w
  | OpSetSendMessageFunction func => set_send_message_function func w
  end.

Definition run (ops : list store_op) (w : SessionManager) : SessionManager :=
  fold_left exec ops w.

Definition has_session (user_id : string) (w : SessionManager) : bool :=
  match sessions w !! user_id with Some _ => true | None => false end.

(** The session of [user_id] is in the store before, between and after
    the operations of [ops]. *)
Fixpoint survives (user_id : string) (ops : list store_op)
    (w : SessionManager) : bool :=
  has_session user_id w &&
  match ops with
  | [] => true
  | op :: rest => survives user_id rest (exec w op)
  end.

End Histories.

(** ** Start-up and the states of the running application *)

(** The part of [init_whatsapp_config] that sets the manager up: the first
    [SessionManager.get_instance(...)] builds the manager, the send function
    is registered, and the sessions file is loaded if it exists.
    [sessions_file] is the parsed content of the file, [None] when the file
    is absent or cannot be parsed. *)
Definition init_whatsapp_config (session_timeout warning_time : Z)
    (sessions_file : option (list (string * json_session))) : SessionManager :=
  let session_manager := init session_timeout warning_time in
  let session_manager :=
    set_send_message_function send_whatsapp_message_background_ref session_manager in
  match sessions_file with
  | Some file => load_sessions file session_manager
  | None => session_manager
  end.

Section Application.

Variable wall : nat -> datetime.
Variable str_lower : string -> string.

(** The managers the application can hold: the one start-up builds, and
    any manager obtained from such a one by an operation of the store or by
    the handling of an inbound message. *)
Inductive reachable : SessionManager -> Prop :=
  | reach_start (session_timeout warning_time : Z)
      (sessions_file : option (list (string * json_session))) :
      reachable (init_whatsapp_config session_timeout warning_time sessions_file)
  | reach_op (w : SessionManager) (op : store_op) :
      reachable w -> reachable (exec wall w op)
  | reach_message (w : SessionManager) (m : inbound) :
      reachable w -> reachable (process_whatsapp_message wall str_lower m w).

End Application.

Definition is_Kmeta (k : kwarg) : bool :=
  match k with Kmeta _ => true | _ => false end.

(** [op] assigns the ['meta'] key of [user_id]'s session from outside:
    an [update_session] with a [meta] keyword, or a [load_sessions] of a
    file that has a member for [user_id]. *)
Definition writes_meta (user_id : string) (op : store_op) : bool :=
  match op with
  | OpUpdateSession u kwargs => String.eqb u user_id && existsb is_Kmeta kwargs
  | OpLoadSessions file => existsb (fun item => String.eqb (fst item) user_id) file
  | _ => false
  end.

Definition is_append_for (user_id : string) (op : store_op) : bool :=
  match op with
  | OpAddMessage u _ _ => String.eqb u user_id
  | _ => false
  end.

(** The number of [add_message_to_history] calls made for [user_id]. *)
Definition count_appends (user_id : string) (ops : list store_op) : Z :=
  Z.of_nat (length (filter (fun op => is_append_for user_id op = true) ops)).

Definition message_count (user_id : string) (w : SessionManager) : option Z :=
  (fun s => meta_get (total_messages (meta s))) <$> sessions w !! user_id.

(** The notices delivered to [user_id], oldest first. *)
Definition sent_to (user_id : string) (box : list (string * string))
    : list (string * string) :=
  filter (fun p => fst p = user_id) box.

(** The two tests of the sweeper's scan, for one session. *)
Definition should_close (w : SessionManager) (t : datetime) (s : session) : bool :=
  reached (session_timeout w) t s && negb (closing_notice_sent s).

Definition should_warn (w : SessionManager) (t : datetime) (s : session) : bool :=
  negb (should_close w t s) &&
  (reached (inactivity_warning w) t s && negb (inactivity_warning_sent s)).

Definition marked (w : SessionManager) (t : datetime) (s : session) : session :=
  if should_close w t s then set_closing_notice_sent true s
  else if should_warn w t s then set_inactivity_warning_sent true s
  else s.

(** The settings of the manager, which no operation but
    [set_send_message_function] assigns. *)
Definition config (w : SessionManager) : Z * Z * option sender :=
  (session_timeout w, inactivity_warning w, send_message_func w).

(** A session with [extra] appended to its history and nothing else
    changed. *)
Definition with_notices (extra : list history_entry) (s : session) : session :=
  set_message_history (message_history s ++ extra) s.

Definition is_system (e : history_entry) : Prop :=
  role e = "assistant" /\ entry_type e = Some "system".

(** What the delivery client is asked to send when [users] are notified
    with [text], if a send function is set. *)
Definition notices (w : SessionManager) (text : string) (users : list string)
    : list (string * string) :=
  match send_message_func w with
  | Some _ => map (fun u => (u, text)) users
  | None => []
  end.

(** The two lists the scan of a pass collects. *)
Definition users_to_warn (w : SessionManager) (t : datetime) : list string :=
  (filter (fun item => should_warn w t item.2 = true) (map_to_list (sessions w))).*1.

Definition users_to_close (w : SessionManager) (t : datetime) : list string :=
  (filter (fun item => should_close w t item.2 = true) (map_to_list (sessions w))).*1.

(** ** Sample data *)

Definition noon : datetime := Datetime (DateFields 2025 2 28 12 0 0 0) eq_refl.

(** Noon plus [m] minutes and [sec] seconds (noon itself out of range). *)
Definition after_noon (m sec : Z) : datetime :=
  default noon (datetime_of (DateFields 2025 2 28 12 m sec 0)).

(** A clock that shows [t] at every reading. *)
Definition stopped_clock (t : datetime) : nat -> datetime := fun _ => t.

(** A clock that starts five minutes after noon and advances thirty
    seconds per reading, for the first hundred readings. *)
Definition sweeper_clock (k : nat) : datetime :=
  after_noon (5 + Z.of_nat k / 2) (30 * (Z.of_nat k mod 2)).

(** A clock that advances one second per reading and stops after a
    minute. *)
Definition sample_wall (k : nat) : datetime :=
  after_noon 0 (Z.min (Z.of_nat k) 59).

Definition sample_entries : list history_entry :=
  [ HistoryEntry "user" "hola" "2025-02-28T12:00:00" None;
    HistoryEntry "assistant" "¡Hola Ana! Bienvenido. ¿En qué puedo ayudarte hoy?"
                 "2025-02-28T12:00:00" None ].

(** A session last active at noon, with two messages exchanged. *)
Definition sample_session : session :=
  Session noon noon "AWAITING_QUERY" ∅ None sample_entries false false
          (Meta (Some 2%Z) (Some 0%Z)).

(** A manager with the default thresholds (600 s and 300 s), a send
    function and the sample session of user ["34600111222"]. *)
Definition sample_manager : SessionManager :=
  Manager {[ "34600111222" := sample_session ]} 600 300
          (Some send_whatsapp_message_background_ref) [] 0.

(** The sessions file holding a snapshot of the sample manager, and the
    manager start-up builds from it. *)
Definition sample_file : list (string * json_session) :=
  save_sessions sample_manager.

Definition sample_started : SessionManager :=
  init_whatsapp_config 600 300 (Some sample_file).

Definition sample_inbound : inbound :=
  Inbound "34600111222" "Ana" (Some "text") (Some "Tengo un ERROR en la factura").

Definition sample_poll (seconds : Z) (status : string) : poll_obs :=
  PollObs (inject_Z seconds) (Ok status) Raise.

(** A run that is still in progress when the minute is over. *)
Definition sample_env : assistant_env :=
  AssistantEnv (Ok tt) (Some "asst_1") (fun _ => Ok "thread_1")
               (fun _ _ => Ok tt) (fun _ _ => Ok "run_1") (inject_Z 100)
               [ sample_poll 100 "queued"; sample_poll 131 "in_progress";
                 sample_poll 161 "in_progress" ].

(** ** Further notions for histories of store operations *)

Definition is_Kmessage_history (k : kwarg) : bool :=
  match k with Kmessage_history _ => true | _ => false end.

(** [op] assigns the ['message_history'] key of [user_id]'s session anew:
    a restart, an [update_session] with a [message_history] keyword, or a
    [load_sessions] of a file that has a member for [user_id]. *)
Definition rewrites_history (user_id : string) (op : store_op) : bool :=
  match op with
  | OpRestartSession u => String.eqb u user_id
  | OpUpdateSession u kwargs =>
      String.eqb u user_id && existsb is_Kmessage_history kwargs
  | OpLoadSessions file => existsb (fun item => String.eqb (fst item) user_id) file
  | _ => false
  end.

(** The (role, content) pairs handed to [add_message_to_history] for
    [user_id], in call order. *)
Definition appended (user_id : string) (ops : list store_op)
    : list (string * string) :=
  flat_map
    (fun op =>
       match op with
       | OpAddMessage u r c => if String.eqb u user_id then [(r, c)] else []
       | _ => []
       end) ops.

(** The entries of a history that carry no ['type'] key, as (role, content):
    what the user and the assistant said, without the sweeper's notices. *)
Definition conversation (h : list history_entry) : list (string * string) :=
  map (fun e => (role e, content e)) (filter (fun e => entry_type e = None) h).

(** A clock that never goes back. *)
Definition clock_monotone (wall : nat -> datetime) : Prop :=
  forall i j, i <= j -> (to_us (wall i) <= to_us (wall j))%Z.

(** No session was last active later than the next reading of the clock. *)
Definition activity_in_past (wall : nat -> datetime) (w : SessionManager) : Prop :=
  forall u s, sessions w !! u = Some s ->
    (to_us (last_activity s) <= to_us (wall (clock_reads w)))%Z.

Definition is_ascii_letter (c : ascii) : bool :=
  let n := nat_of_ascii c in
  ((65 <=? n) && (n <=? 90) || (97 <=? n) && (n <=? 122))%nat.

(** A string that is empty or begins with a letter: no layout of
    [datetime.fromisoformat] accepts it, the call raises [ValueError]. *)
Definition no_timestamp (s : string) : bool :=
  match s with
  | EmptyString => true
  | String c _ => is_ascii_letter c
  end.

Definition is_load (op : store_op) : bool :=
  match op with OpLoadSessions _ => true | _ => false end.

(** The test that follows the closures in the sweeper's loop:
    [current_time.minute % 5 == 0 and current_time.second < 30]. *)
Definition save_due (current_time : datetime) : bool :=
  ((minute (fields current_time) mod 5 =? 0)
   && (second (fields current_time) <? 30))%Z.

(** ** Further sample data *)

(** The sample manager with a second user, who has a session of her own. *)
Definition sample_pair : SessionManager :=
  with_sessions (insert "34600999888" sample_session) sample_manager.

(** A clock that shows noon for three readings and ten past noon from then
    on. *)
Definition late_clock (k : nat) : datetime :=
  if (k <? 3)%nat then noon else after_noon 10 0.

(** The sample manager after a scan that marked the session for closing
    and before the closing step, as a snapshot taken in between shows it. *)
Definition sample_marked : SessionManager :=
  with_sessions (insert "34600111222" (set_closing_notice_sent true sample_session))
                sample_manager.

(** ** Further notions for the router *)

(** What [get_session] answers for a user: the value the stored session
    has, or the value of the session it creates. *)
Definition state_of (w : SessionManager) (user_id : string) : string :=
  from_option state "INITIAL" (sessions w !! user_id).

Definition context_of (w : SessionManager) (user_id : string) : gmap string string :=
  from_option context ∅ (sessions w !! user_id).

Definition history_of (w : SessionManager) (user_id : string) : list history_entry :=
  from_option message_history [] (sessions w !! user_id).

Definition meta_of (w : SessionManager) (user_id : string) : meta_info :=
  from_option meta (Meta (Some 0%Z) (Some 0%Z)) (sessions w !! user_id).

(** The replies the router writes itself. *)
Definition text_only_reply : string :=
  "Lo siento, actualmente solo puedo procesar mensajes de texto.".

Definition restart_reply : string :=
  "He reiniciado nuestra conversación. ¿En qué puedo ayudarte?".

Definition greeting_reply (name : string) : string :=
  "¡Hola " +:+ name +:+ "! Bienvenido. ¿En qué puedo ayudarte hoy?".

Definition describe_reply : string :=
  "Gracias. Por favor describe el problema en detalle.".

Definition ticket_created_reply : string :=
  "¡Gracias! Tu ticket ha sido creado. Un agente de soporte te contactará pronto.".

(** A history that ends with the entry [add_message_to_history] writes for
    [role] and [content]. *)
Definition ends_with (h : list history_entry) (role content : string) : Prop :=
  exists older ts, h = older ++ [HistoryEntry role content ts None].

(** The sample manager with the user's session in the ticket flow, before
    a subject was given. *)
Definition sample_ticket : SessionManager :=
  with_sessions (insert "34600111222" (set_state "TICKET_CREATION" sample_session))
                sample_manager.

Definition sample_text (user_id name body : string) : inbound :=
  Inbound user_id name (Some "text") (Some body).

(** ** Further notions for the text formatter *)

(** [P] holds of every byte of [s]. *)
Fixpoint all_bytes (P : ascii -> bool) (s : string) : bool :=
  match s with
  | EmptyString => true
  | String c r => P c && all_bytes P r
  end.

Definition not_byte (k : ascii) (c : ascii) : bool := negb (Ascii.eqb c k).

Definition printable (c : ascii) : bool := negb (is_control c).

(** A byte that is no control character and starts none of the three
    patterns of [process_text_for_whatsapp]: not [*], not [[], and not the
    first byte (227) of the UTF-8 encoding of the bracket that opens a
    citation. *)
Definition plain_byte (c : ascii) : bool :=
  printable c && not_byte "*" c && not_byte "[" c && not_byte (ascii_of_nat 227) c.

Definition plain (s : string) : bool := all_bytes plain_byte s.

(** ** [app/utils/security.py] *)

(** [text.replace(char, replacement)] for a pattern of one character. *)
Fixpoint str_replace_char (char : ascii) (replacement text : string) : string :=
  match text with
  | EmptyString => EmptyString
  | String c r =>
      if Ascii.eqb c char then replacement +:+ str_replace_char char replacement r
      else String c (str_replace_char char replacement r)
  end.

Definition double_quote : ascii := ascii_of_nat 34.

Definition backslash : ascii := ascii_of_nat 92.

(** The dictionary [replacements], in its insertion order, which is the
    order the loop of [sanitize_input] visits it in. *)
Definition replacements : list (ascii * string) :=
  [ ("<"%char, "&lt;"); (">"%char, "&gt;"); ("&"%char, "&amp;");
    (double_quote, "&quot;"); ("'"%char, "&#x27;"); ("/"%char, "&#x2F;");
    (backslash, "&#x5C;"); ("`"%char, "&#x60;") ].

Definition replace_all (table : list (ascii * string)) (text : string) : string :=
  fold_left (fun text item => str_replace_char (fst item) (snd item) text) table text.

Definition sanitize_input (text : string) : string :=
  match text with
  | EmptyString => EmptyString
  | _ => replace_all replacements text
  end.

(** What one character of the input has become when [sanitize_input]
    returns. *)
Definition escaped (c : ascii) : string :=
  if Ascii.eqb c "<" then "&amp;lt;"
  else if Ascii.eqb c ">" then "&amp;gt;"
  else if Ascii.eqb c "&" then "&amp;"
  else if Ascii.eqb c double_quote then "&quot;"
  else if Ascii.eqb c "'" then "&#x27;"
  else if Ascii.eqb c "/" then "&#x2F;"
  else if Ascii.eqb c backslash then "&#x5C;"
  else if Ascii.eqb c "`" then "&#x60;"
  else String c EmptyString.

Fixpoint escape_each (text : string) : string :=
  match text with
  | EmptyString => EmptyString
  | String c r => escaped c +:+ escape_each r
  end.

(** The characters [sanitize_input] is there to remove. *)
Definition harmful (c : ascii) : bool :=
  existsb (Ascii.eqb c) ["<"%char; ">"%char; double_quote; "'"%char; "/"%char;
                         backslash; "`"%char].

Definition harmless (c : ascii) : bool := negb (harmful c).

(** One value of the dictionary [rate_limit_check.store]. *)
Record rate_entry := RateEntry {
  rate_count : Z;
  rate_timestamp : Z }.

(** The entry is older than the window at [current_time]. *)
Definition expired (current_time window : Z) (entry : rate_entry) : bool :=
  (rate_timestamp entry <? current_time - window)%Z.

(** [rate_limit_check(ip_address, limit, window)], with the value
    [int(time.time())] reads and the dictionary kept on the function as
    arguments; the dictionary starts empty. *)
Definition rate_limit_check (current_time : Z) (ip_address : string)
    (limit window : Z) (store : gmap string rate_entry)
    : bool * gmap string rate_entry :=
  let store :=
    filter (fun item => expired current_time window (snd item) = false) store in
  match store !! ip_address with
  | None => (true, <[ip_address := RateEntry 1 current_time]> store)
  | Some entry =>
      let entry := RateEntry (rate_count entry + 1) (rate_timestamp entry) in
      (negb (limit <? rate_count entry)%Z, <[ip_address := entry]> store)
  end.

(** A sequence of calls, each given as the time and the address, all with
    the same limit and window: the addresses with the answers they got,
    and the dictionary left. *)
Fixpoint serve (limit window : Z) (requests : list (Z * string))
    (store : gmap string rate_entry)
    : list (string * bool) * gmap string rate_entry :=
  match requests with
  | [] => ([], store)
  | (current_time, ip_address) :: rest =>
      let '(answer, store) :=
        rate_limit_check current_time ip_address limit window store in
      let '(answers, store) := serve limit window rest store in
      ((ip_address, answer) :: answers, store)
  end.

Definition answers_to (ip_address : string) (answers : list (string * bool))
    : list bool :=
  map snd (filter (fun item => fst item = ip_address) answers).

Definition requests_of (ip_address : string) (requests : list (Z * string)) : nat :=
  length (filter (fun r => snd r = ip_address) requests).

(** ** [send_whatsapp_message_background] *)

(** What one [requests.post] followed by [raise_for_status] does: it
    answers a response, raises a [requests.RequestException] (which
    [Timeout] and [HTTPError] are), or raises another exception. *)
Inductive post_result :=
  | PostOk (response : string)
  | PostRequestException
  | PostException.

(** What a call of [send_whatsapp_message_background] did: the number of
    posts made, the arguments of [time.sleep] in order, and the value
    returned ([None] is the [return None] of the outer [except]). *)
Record send_trace := SendTrace {
  posts : nat;
  sleeps : list Z;
  returned : option string }.

(** The loop [for attempt in range(max_retries)], inside the outer [try].
    [post k] is the result of the post made after [k] earlier ones. *)
Fixpoint retry_loop (attempts : list nat) (max_retries : nat) (retry_delay : Z)
    (post : nat -> post_result) (made : nat) (slept : list Z) : send_trace :=
  match attempts with
  | [] => SendTrace made slept None
  | attempt :: rest =>
      match post made with
      | PostOk response => SendTrace (S made) slept (Some response)
      | PostRequestException =>
          if attempt <? max_retries - 1 then
            retry_loop rest max_retries (retry_delay * 2) post (S made)
                       (slept ++ [retry_delay])
          else SendTrace (S made) slept None
      | PostException => SendTrace (S made) slept None
      end
  end.

Definition send_whatsapp_message_background (post : nat -> post_result) : send_trace :=
  let max_retries := 3 in
  let retry_delay := 1%Z in
  retry_loop (seq 0 max_retries) max_retries retry_delay post 0 [].

(** ** [get_or_create_thread] *)

(** The file [threads.json] as the function finds it: absent; present but
    such that reading it raises (it cannot be opened, is no JSON, or is no
    JSON object); or an object from user ids to thread ids. *)
Inductive threads_file :=
  | FileAbsent
  | FileUnreadable
  | FileThreads (threads : gmap string string).

(** The result of a call, the file it leaves, and whether it created a
    thread at the provider. *)
Record thread_result := ThreadResult {
  thread_outcome : outcome string;
  threads_after : threads_file;
  thread_created : bool }.

(** [get_or_create_thread(user_id)].  [client] is the result of
    [create_openai_client()] and [create] that of
    [client.beta.threads.create()], asked for only when the file gives no
    thread; the write of the file is taken to succeed.  With the file
    absent the local [threads] is never bound, and the assignment
    [threads[user_id] = thread_id] raises. *)
Definition get_or_create_thread (client : outcome unit) (create : outcome string)
    (file : threads_file) (user_id : string) : thread_result :=
  match client with
  | Raise => ThreadResult Raise file false
  | Ok _ =>
      let '(threads, thread_id) :=
        match file with
        | FileAbsent => (None, None)
        | FileUnreadable => (Some ∅, None)
        | FileThreads threads => (Some threads, threads !! user_id)
        end in
      if truthy thread_id then ThreadResult (Ok (default EmptyString thread_id)) file false
      else
        match create with
        | Raise => ThreadResult Raise file false
        | Ok new_id =>
            match threads with
            | None => ThreadResult Raise file true
            | Some threads =>
                ThreadResult (Ok new_id) (FileThreads (<[user_id := new_id]> threads)) true
            end
        end
  end.

(** The sample environment of the assistant with the thread taken from
    [get_or_create_thread] on a machine without [threads.json]. *)
Definition sample_env_no_file : assistant_env :=
  AssistantEnv (Ok tt) (Some "asst_1")
               (fun user_id =>
                  thread_outcome
                    (get_or_create_thread (Ok tt) (Ok "thread_9") FileAbsent user_id))
               (fun _ _ => Ok tt) (fun _ _ => Ok "run_1") (inject_Z 100)
               [ sample_poll 100 "completed" ].

(** ** [app/openai/client.py] *)

(** The outside world of one call of [OpenAIClient.get_assistant_response]:
    the results of the calls to the provider.  [cl_run] is the status of
    the run as [runs.create] answers it and [cl_retrieve k] the status the
    [k]-th [runs.retrieve] answers. *)
Record client_env := ClientEnv {
  cl_client : outcome unit;
  cl_thread : outcome unit;
  cl_post_message : outcome unit;
  cl_run : outcome string;
  cl_retrieve : nat -> outcome string;
  cl_messages : outcome (list thread_message) }.

Definition client_failure_reply : string :=
  "Lo siento, tuve un problema al procesar tu mensaje.".

Definition client_no_reply : string := "No pude generar una respuesta.".

Definition client_error_reply : string :=
  "Lo siento, ocurrió un error al procesar tu mensaje.".

(** How the loop [while run.status != "completed"] ends. *)
Inductive wait_result :=
  | WaitCompleted
  | WaitFailed
  | WaitRaised.

(** The loop, at most [fuel] turns of it; [None]: the loop is still going
    after [fuel] turns.  [k] retrievals were made before and [status] is the
    last status seen. *)
Fixpoint client_wait (fuel : nat) (retrieve : nat -> outcome string) (k : nat)
    (status : string) : option wait_result :=
  if String.eqb status "completed" then Some WaitCompleted
  else
    match fuel with
    | O => None
    | S fuel' =>
        match retrieve k with
        | Raise => Some WaitRaised
        | Ok status' =>
            if String.eqb status' "failed" then Some WaitFailed
            else client_wait fuel' retrieve (S k) status'
        end
    end.

(** The loop over [messages.data]: the answer is
    [message.content[0].text.value] of the first assistant message, which
    raises when that message has no content or its first block is no text
    block. *)
Fixpoint first_assistant_reply (data : list thread_message) : outcome string :=
  match data with
  | [] => Ok client_no_reply
  | message :: rest =>
      if String.eqb (msg_role message) "assistant" then
        match msg_content message with
        | [] => Raise
        | block :: _ =>
            if String.eqb (block_type block) "text" then Ok (text_value block)
            else Raise
        end
      else first_assistant_reply rest
  end.

(** [get_assistant_response(query)]; [None]: the call has not returned
    after [fuel] turns of its loop. *)
Definition get_assistant_response (fuel : nat) (env : client_env) : option string :=
  match cl_client env, cl_thread env, cl_post_message env, cl_run env with
  | Ok _, Ok _, Ok _, Ok status =>
      match client_wait fuel (cl_retrieve env) 0 status with
      | None => None
      | Some WaitRaised => Some client_error_reply
      | Some WaitFailed => Some client_failure_reply
      | Some WaitCompleted =>
          match cl_messages env with
          | Raise => Some client_error_reply
          | Ok data =>
              match first_assistant_reply data with
              | Raise => Some client_error_reply
              | Ok reply => Some reply
              end
          end
      end
  | _, _, _, _ => Some client_error_reply
  end.

(** A status on which the loop goes on. *)
Definition keeps_waiting (r : outcome string) : Prop :=
  exists status, r = Ok status /\ status <> "completed" /\ status <> "failed".

(** A provider whose run was cancelled before the first retrieval. *)
Definition sample_cancelled : client_env :=
  ClientEnv (Ok tt) (Ok tt) (Ok tt) (Ok "queued") (fun _ => Ok "cancelled") Raise.

(** A provider whose run completes at the third retrieval. *)
Definition sample_completed : client_env :=
  ClientEnv (Ok tt) (Ok tt) (Ok tt) (Ok "queued")
            (fun k => if k <? 2 then Ok "in_progress" else Ok "completed")
            (Ok [ThreadMessage "assistant" [ContentBlock "text" "Son las tres."]]).

(** The sample manager with the session last active in the last
    microsecond of the year 9999. *)
Definition sample_last_day : SessionManager :=
  with_sessions (insert "34600111222" (set_last_activity datetime_max sample_session))
                sample_manager.

(** ** Operations that bring a session back or clear its warning flag *)

(** [op] puts a session under [user_id] where there was none: a
    [get_session] for that user, or a [load_sessions] of a file that has a
    member for [user_id]. *)
Definition brings_back (user_id : string) (op : store_op) : bool :=
  match op with
  | OpGetSession u => String.eqb u user_id
  | OpLoadSessions file => existsb (fun item => String.eqb (fst item) user_id) file
  | _ => false
  end.

(** The three calls that count as activity of [user_id]: [get_session],
    [update_session] and [add_message_to_history] for that user. *)
Definition is_activity (user_id : string) (op : store_op) : bool :=
  match op with
  | OpGetSession u | OpUpdateSession u _ | OpAddMessage u _ _ =>
      String.eqb u user_id
  | _ => false
  end.

(** [op] assigns ['inactivity_warning_sent'] of [user_id]'s session from
    outside the sweeper: the three activities, [restart_session] for that
    user, and a [load_sessions] of a file that has a member for
    [user_id]. *)
Definition rearms (user_id : string) (op : store_op) : bool :=
  is_activity user_id op ||
  match op with
  | OpRestartSession u => String.eqb u user_id
  | OpLoadSessions file => existsb (fun item => String.eqb (fst item) user_id) file
  | _ => false
  end.

(** The number of inactivity warnings among the messages handed to the
    send function for [user_id]. *)
Definition warnings_to (user_id : string) (w : SessionManager) : nat :=
  length (filter (fun p => snd p = warning_message w)
                 (sent_to user_id (outbox w))).

(** 1 while [user_id] has a session whose warning flag is clear, 0
    otherwise. *)
Definition armed (user_id : string) (w : SessionManager) : nat :=
  match sessions w !! user_id with
  | Some s => if inactivity_warning_sent s then 0 else 1
  | None => 0
  end.

(** * Properties *)

(** ** ISO-8601 round trip *)

Lemma digit_val_digit_of (d : Z) :
  (0 <= d < 10)%Z -> digit_val (digit_of d) = Some d.
Proof.
  intros Hd.
  assert (Hcases : d = 0%Z \/ d = 1%Z \/ d = 2%Z \/ d = 3%Z \/ d = 4%Z \/
                   d = 5%Z \/ d = 6%Z \/ d = 7%Z \/ d = 8%Z \/ d = 9%Z) by lia.
  repeat (destruct Hcases as [-> | Hcases]; [reflexivity |]).
  subst d. reflexivity.
Qed.

Lemma mod_pow10_succ (n : Z) (w : nat) :
  (n mod 10 ^ Z.of_nat (S w) =
   ((n / 10 ^ Z.of_nat w) mod 10) * 10 ^ Z.of_nat w + n mod 10 ^ Z.of_nat w)%Z.
Proof.
  rewrite Nat2Z.inj_succ, Z.pow_succ_r by lia.
  assert (Hpos : (0 < 10 ^ Z.of_nat w)%Z) by (apply Z.pow_pos_nonneg; lia).
  rewrite (Z.mul_comm 10).
  rewrite Z.rem_mul_r by lia.
  lia.
Qed.

Lemma append_cons (c : ascii) (x r : string) :
  String c x +:+ r = String c (x +:+ r).
Proof. reflexivity. Qed.

Lemma append_nil_l (r : string) : EmptyString +:+ r = r.
Proof. reflexivity. Qed.

Lemma append_nil_r (s : string) : s +:+ EmptyString = s.
Proof.
  induction s as [| c s IH]; [reflexivity |].
  rewrite append_cons, IH. reflexivity.
Qed.

Ltac str_norm := repeat (rewrite append_cons || rewrite append_nil_l).

Lemma take_digits_zfill (w : nat) : forall (n acc : Z) (rest : string),
  take_digits w (zfill w n +:+ rest) acc =
  Some ((acc * 10 ^ Z.of_nat w + n mod 10 ^ Z.of_nat w)%Z, rest).
Proof.
  induction w as [| w IH]; intros n acc rest.
  - simpl. rewrite Z.mod_1_r. do 2 f_equal. lia.
  - cbn [zfill]. rewrite append_cons. cbn [take_digits].
    rewrite digit_val_digit_of by (apply Z.mod_pos_bound; lia).
    rewrite IH. do 2 f_equal.
    rewrite (mod_pow10_succ n w).
    rewrite Nat2Z.inj_succ, Z.pow_succ_r by lia. lia.
Qed.

Lemma take_digits_zfill_small (w : nat) (n : Z) (rest : string) :
  (0 <= n < 10 ^ Z.of_nat w)%Z ->
  take_digits w (zfill w n +:+ rest) 0 = Some (n, rest).
Proof.
  intros Hn. rewrite take_digits_zfill, Z.mod_small by lia. reflexivity.
Qed.

Lemma datetime_eq (d1 d2 : datetime) : fields d1 = fields d2 -> d1 = d2.
Proof.
  destruct d1 as [f1 H1], d2 as [f2 H2]. simpl. intros ->.
  f_equal. apply UIP_dec, Bool.bool_dec.
Qed.

Lemma datetime_of_valid (f : date_fields) (H : valid_fields f = true) :
  datetime_of f = Some (Datetime f H).
Proof.
  unfold datetime_of.
  generalize (eq_refl (valid_fields f)).
  generalize (valid_fields f) at 2 3.
  intros b e. destruct b.
  - f_equal. apply datetime_eq. reflexivity.
  - congruence.
Qed.

Lemma datetime_of_fields (d : datetime) : datetime_of (fields d) = Some d.
Proof. destruct d as [f H]. apply datetime_of_valid. Qed.

Lemma between_spec (lo x hi : Z) : between lo x hi = true <-> (lo <= x <= hi)%Z.
Proof. unfold between. rewrite andb_true_iff, !Z.leb_le. tauto. Qed.

Lemma valid_fields_bounds (f : date_fields) :
  valid_fields f = true ->
  (1 <= year f <= 9999 /\ 1 <= month f <= 12 /\ 1 <= day f <= 31 /\
   0 <= hour f <= 23 /\ 0 <= minute f <= 59 /\ 0 <= second f <= 59 /\
   0 <= microsecond f <= 999999)%Z.
Proof.
  unfold valid_fields. rewrite !andb_true_iff, !between_spec.
  intros [[[[[[Hy Hm] Hd] Hh] Hmi] Hs] Hus].
  assert (days_in_month (year f) (month f) <= 31)%Z.
  { unfold days_in_month.
    repeat match goal with |- context [if ?b then _ else _] => destruct b end; lia. }
  lia.
Qed.

(** Parsing what [isoformat] printed gives the datetime back. *)
Lemma fromisoformat_isoformat (d : datetime) :
  fromisoformat (isoformat d) = Some d.
Proof.
  destruct (valid_fields_bounds (fields d) (fields_valid d))
    as (Hy & Hm & Hd & Hh & Hmi & Hs & Hus).
  unfold fromisoformat, isoformat.
  rewrite take_digits_zfill_small by (simpl; lia).
  str_norm. cbn [bind_opt expect Ascii.eqb Bool.eqb].
  rewrite take_digits_zfill_small by (simpl; lia).
  str_norm. cbn [bind_opt expect Ascii.eqb Bool.eqb].
  rewrite take_digits_zfill_small by (simpl; lia).
  str_norm. cbn [bind_opt expect Ascii.eqb Bool.eqb].
  rewrite take_digits_zfill_small by (simpl; lia).
  str_norm. cbn [bind_opt expect Ascii.eqb Bool.eqb].
  rewrite take_digits_zfill_small by (simpl; lia).
  str_norm. cbn [bind_opt expect Ascii.eqb Bool.eqb].
  rewrite take_digits_zfill_small by (simpl; lia).
  cbn [bind_opt].
  destruct (Z.eqb_spec (microsecond (fields d)) 0) as [Hz | Hnz].
  - rewrite <- Hz.
    replace (DateFields _ _ _ _ _ _ _) with (fields d) by (destruct (fields d); reflexivity).
    apply datetime_of_fields.
  - str_norm. cbn [expect Ascii.eqb Bool.eqb bind_opt].
    rewrite <- (append_nil_r (zfill 6 _)) at 1.
    rewrite take_digits_zfill_small by (simpl; lia).
    cbn [bind_opt].
    replace (DateFields _ _ _ _ _ _ _) with (fields d) by (destruct (fields d); reflexivity).
    apply datetime_of_fields.
Qed.

(** ** Snapshot and restore *)

Lemma loaded_serializable (s : session) :
  loaded_session (serializable_session s) = Some s.
Proof.
  unfold loaded_session, serializable_session. cbn [js_created_at js_last_activity].
  rewrite !fromisoformat_isoformat. cbn. destruct s; reflexivity.
Qed.

(** The loop of [load_sessions] over a file whose members all parse: the
    file's members override the store, the other users stay. *)
Lemma load_items_lookup (items : list (string * json_session)) :
  forall (m : gmap string session) (u : string),
  NoDup items.*1 ->
  (forall v js, (v, js) ∈ items -> is_Some (loaded_session js)) ->
  load_items items m !! u =
  match (list_to_map items : gmap string json_session) !! u with
  | Some js => loaded_session js
  | None => m !! u
  end.
Proof.
  induction items as [| [v js] rest IH]; intros m u Hnd Hok.
  - reflexivity.
  - cbn [load_items].
    destruct (Hok v js) as [s Hs]; [left |]. rewrite Hs.
    rewrite fmap_cons in Hnd. apply NoDup_cons in Hnd as [Hv Hnd].
    rewrite IH; [| exact Hnd | intros v' js' Hin; apply (Hok v' js'); right; exact Hin].
    cbn [list_to_map foldr]. change (foldr _ ∅ rest) with (list_to_map rest : gmap string json_session).
    destruct (decide (v = u)) as [-> | Hne].
    + rewrite (not_elem_of_list_to_map_1 _ u Hv).
      rewrite !lookup_insert_eq. exact (eq_sym Hs).
    + rewrite !(lookup_insert_ne _ v u) by exact Hne. reflexivity.
Qed.

Lemma load_saved_lookup (w target : SessionManager) (u : string) :
  sessions (load_sessions (save_sessions w) target) !! u =
  match sessions w !! u with
  | Some s => Some s
  | None => sessions target !! u
  end.
Proof.
  unfold load_sessions, save_sessions. cbn [sessions with_sessions].
  rewrite load_items_lookup.
  - rewrite list_to_map_to_list, lookup_fmap.
    destruct (sessions w !! u) as [s |]; cbn; [apply loaded_serializable | reflexivity].
  - apply NoDup_fst_map_to_list.
  - intros v js Hin. apply elem_of_map_to_list in Hin.
    rewrite lookup_fmap in Hin.
    destruct (sessions w !! v) as [s |]; cbn in Hin; [| discriminate].
    injection Hin as <-. rewrite loaded_serializable. eauto.
Qed.

(** C4. Restoring a snapshot, into a fresh store or into the store it was
    taken from, rebuilds the store: the restored map equals the original;
    in particular it has the same user identifiers and every user has the
    same state, the same number of history entries and the same
    [created_at] and [last_activity], each of which survives
    [isoformat] / [fromisoformat] unchanged. *)
Theorem C4_snapshot_round_trip (w : SessionManager) (timeout warning : Z) :
  let fresh := sessions (load_sessions (save_sessions w) (init timeout warning)) in
  let again := sessions (load_sessions (save_sessions w) w) in
  fresh = sessions w /\ again = sessions w /\
  dom fresh = dom (sessions w) /\
  (forall u s, sessions w !! u = Some s ->
     fromisoformat (isoformat (created_at s)) = Some (created_at s) /\
     fromisoformat (isoformat (last_activity s)) = Some (last_activity s) /\
     exists s', fresh !! u = Some s' /\
       state s' = state s /\
       length (message_history s') = length (message_history s) /\
       created_at s' = created_at s /\
       last_activity s' = last_activity s).
Proof.
  intros fresh again.
  assert (Hfresh : fresh = sessions w).
  { apply map_eq. intros u. unfold fresh. rewrite load_saved_lookup.
    destruct (sessions w !! u); reflexivity. }
  assert (Hagain : again = sessions w).
  { apply map_eq. intros u. unfold again. rewrite load_saved_lookup.
    destruct (sessions w !! u); reflexivity. }
  repeat split; try assumption.
  - rewrite Hfresh. reflexivity.
  - apply fromisoformat_isoformat.
  - apply fromisoformat_isoformat.
  - exists s. rewrite Hfresh. auto.
Qed.

(** ** Division of integers in [float] *)

Lemma round_half_even_cases (n d : Z) :
  round_half_even n d = (n / d)%Z \/ round_half_even n d = (n / d + 1)%Z.
Proof.
  unfold round_half_even. cbn zeta.
  destruct (2 * (n mod d) <? d)%Z; [auto |].
  destruct (d <? 2 * (n mod d))%Z; [auto |].
  destruct (Z.even (n / d)); auto.
Qed.

Lemma round_half_even_lower (n d N : Z) :
  (0 < d)%Z -> (N * d <= n)%Z -> (N <= round_half_even n d)%Z.
Proof.
  intros Hd Hn.
  assert (N <= n / d)%Z by (apply Z.div_le_lower_bound; lia).
  destruct (round_half_even_cases n d) as [-> | ->]; lia.
Qed.

Lemma round_half_even_upper (n d N : Z) :
  (0 < d)%Z -> (n <= N * d)%Z -> (round_half_even n d <= N)%Z.
Proof.
  intros Hd Hn. unfold round_half_even. cbn zeta.
  pose proof (Z.div_mod n d ltac:(lia)) as Hdm.
  pose proof (Z.mod_pos_bound n d Hd) as Hr.
  set (q := (n / d)%Z) in *. set (r := (n mod d)%Z) in *.
  assert (Hq : (q <= N)%Z) by nia.
  destruct (Z.ltb_spec (2 * r) d); [lia |].
  assert (Hlt : (q < N)%Z) by nia.
  destruct (d <? 2 * r)%Z; [lia |]. destruct (Z.even q); lia.
Qed.

(** Below [N - 1/2] the nearest integer is below [N]. *)
Lemma round_half_even_below (n d N : Z) :
  (0 < d)%Z -> (2 * n < (2 * N - 1) * d)%Z -> (round_half_even n d < N)%Z.
Proof.
  intros Hd Hn. unfold round_half_even. cbn zeta.
  pose proof (Z.div_mod n d ltac:(lia)) as Hdm.
  pose proof (Z.mod_pos_bound n d Hd) as Hr.
  set (q := (n / d)%Z) in *. set (r := (n mod d)%Z) in *.
  assert (Hq : (q < N)%Z) by nia.
  destruct (Z.ltb_spec (2 * r) d); [lia |].
  assert (Hlt : (q + 1 < N)%Z) by nia.
  destruct (d <? 2 * r)%Z; [lia |]. destruct (Z.even q); lia.
Qed.

Lemma ilog2_ratio_lower (a d : Z) :
  (0 < a)%Z -> (0 < d)%Z ->
  (d * 2 ^ Z.max 0 (ilog2_ratio a d) <= a * 2 ^ Z.max 0 (- ilog2_ratio a d))%Z.
Proof.
  intros Ha Hd. unfold ilog2_ratio. cbn zeta.
  set (l := (Z.log2 a - Z.log2 d)%Z).
  destruct (Z.ltb_spec (a * 2 ^ Z.max 0 (- l)) (d * 2 ^ Z.max 0 l)) as [Hlt | Hge];
    [| exact Hge].
  pose proof (Z.log2_spec a Ha) as [Hla _].
  pose proof (Z.log2_spec d Hd) as [_ Hld].
  pose proof (Z.log2_nonneg a) as Hna. pose proof (Z.log2_nonneg d) as Hnd.
  destruct (Z.le_gt_cases 1 l) as [Hpos | Hneg].
  - rewrite (Z.max_r 0 (l - 1)) by lia. rewrite (Z.max_l 0 (- (l - 1))) by lia.
    rewrite Z.pow_0_r, Z.mul_1_r.
    assert (Hpow : (2 ^ Z.succ (Z.log2 d) * 2 ^ (l - 1) = 2 ^ Z.log2 a)%Z).
    { rewrite <- Z.pow_add_r by lia. f_equal. unfold l. lia. }
    assert (0 < 2 ^ (l - 1))%Z by (apply Z.pow_pos_nonneg; lia).
    nia.
  - rewrite (Z.max_l 0 (l - 1)) by lia. rewrite (Z.max_r 0 (- (l - 1))) by lia.
    rewrite Z.pow_0_r, Z.mul_1_r.
    assert (Hpow : (2 ^ Z.log2 a * 2 ^ (- (l - 1)) = 2 ^ Z.succ (Z.log2 d))%Z).
    { rewrite <- Z.pow_add_r by lia. f_equal. unfold l. lia. }
    assert (0 < 2 ^ (- (l - 1)))%Z by (apply Z.pow_pos_nonneg; lia).
    nia.
Qed.

Lemma ilog2_ratio_below (a d B : Z) :
  (0 < a)%Z -> (0 < d)%Z -> (0 <= B)%Z -> (a < d * 2 ^ B)%Z ->
  (ilog2_ratio a d < B)%Z.
Proof.
  intros Ha Hd HB Hlt.
  pose proof (ilog2_ratio_lower a d Ha Hd) as Hlow.
  destruct (Z.lt_ge_cases (ilog2_ratio a d) B) as [H | H]; [exact H | exfalso].
  rewrite (Z.max_r 0 (ilog2_ratio a d)) in Hlow by lia.
  rewrite (Z.max_l 0 (- ilog2_ratio a d)) in Hlow by lia.
  rewrite Z.pow_0_r, Z.mul_1_r in Hlow.
  assert (2 ^ B <= 2 ^ ilog2_ratio a d)%Z by (apply Z.pow_le_mono_r; lia).
  nia.
Qed.

(** The quotient is at least every integer the exact quotient is at
    least, as long as it is below [2^53]. *)
Lemma true_div_ge (n d T : Z) :
  (0 < d)%Z -> (Z.abs n < d * 2 ^ 53)%Z -> (T * d <= n)%Z ->
  float_ge_int (true_div n d) T = true.
Proof.
  intros Hd Hbound Hn. unfold true_div, float_ge_int.
  destruct (Z.eqb_spec n 0) as [-> | Hne]; cbn [mantissa exponent].
  - apply Z.leb_le. cbn. nia.
  - set (e := (ilog2_ratio (Z.abs n) d - 52)%Z).
    assert (He : (e <= 0)%Z).
    { pose proof (ilog2_ratio_below (Z.abs n) d 53 ltac:(lia) Hd ltac:(lia) Hbound).
      unfold e. lia. }
    rewrite (Z.max_l 0 e) by lia. rewrite (Z.max_r 0 (- e)) by lia.
    rewrite Z.pow_0_r, !Z.mul_1_r. apply Z.leb_le.
    assert (0 < 2 ^ (- e))%Z by (apply Z.pow_pos_nonneg; lia).
    apply round_half_even_lower; [exact Hd | nia].
Qed.

(** Below a threshold under [2^34] the quotient of a number of
    microseconds by [10^6] is below the threshold too: the binary64
    numbers there are less than a microsecond apart. *)
Lemma true_div_lt (us T : Z) :
  (Z.abs us < 1000000 * 2 ^ 53)%Z -> (0 <= T < 2 ^ 34)%Z -> (us < T * 1000000)%Z ->
  float_ge_int (true_div us 1000000) T = false.
Proof.
  intros Hbound HT Hus. unfold true_div, float_ge_int.
  destruct (Z.eqb_spec us 0) as [-> | Hne]; cbn [mantissa exponent].
  - apply Z.leb_gt. cbn. lia.
  - set (a := Z.abs us) in *.
    set (e := (ilog2_ratio a 1000000 - 52)%Z).
    assert (Ha : (0 < a)%Z) by (unfold a; lia).
    assert (He : (e <= 0)%Z).
    { pose proof (ilog2_ratio_below a 1000000 53 Ha ltac:(lia) ltac:(lia) Hbound).
      unfold e. lia. }
    rewrite (Z.max_l 0 e) by lia. rewrite (Z.max_r 0 (- e)) by lia.
    rewrite Z.pow_0_r, !Z.mul_1_r. apply Z.leb_gt.
    assert (Hp : (0 < 2 ^ (- e))%Z) by (apply Z.pow_pos_nonneg; lia).
    destruct (Z.lt_ge_cases us 0) as [Hneg | Hpos].
    + (* a negative quotient rounds to a negative number *)
      pose proof (ilog2_ratio_lower a 1000000 Ha ltac:(lia)) as Hlow.
      assert (Hscale : (1000000 <= a * 2 ^ (- e))%Z).
      { set (l := ilog2_ratio a 1000000) in *.
        assert (H1 : (1 <= 2 ^ Z.max 0 l)%Z)
          by (apply (Z.pow_le_mono_r 2 0); lia).
        assert (H2 : (2 ^ Z.max 0 (- l) <= 2 ^ (- e))%Z)
          by (apply Z.pow_le_mono_r; unfold e; lia).
        nia. }
      assert (round_half_even (us * 2 ^ (- e)) 1000000 <= -1)%Z.
      { apply round_half_even_upper; [lia |]. unfold a in Hscale. nia. }
      nia.
    + assert (Hl : (ilog2_ratio a 1000000 < 34)%Z).
      { apply ilog2_ratio_below; [exact Ha | lia | lia |]. unfold a.
        assert (T * 1000000 < 1000000 * 2 ^ 34)%Z by nia. lia. }
      assert (Hk : (2 ^ 19 <= 2 ^ (- e))%Z)
        by (apply Z.pow_le_mono_r; unfold e; lia).
      apply round_half_even_below; [lia |].
      change (2 ^ 19)%Z with 524288%Z in Hk. nia.
Qed.

(** From [2^34] seconds on the rounding shows: one microsecond less than
    [2^35] seconds has the [float] [2^35]. *)
Lemma total_seconds_rounds_up :
  float_ge_int (total_seconds (2 ^ 35 * 1000000 - 1)) (2 ^ 35) = true /\
  (2 ^ 35 * 1000000 <=? 2 ^ 35 * 1000000 - 1)%Z = false.
Proof. split; vm_compute; reflexivity. Qed.

(** ** The range of [datetime] and the [float] of an idle time *)

Lemma days_in_month_bounds (y m : Z) : (0 <= days_in_month y m <= 31)%Z.
Proof.
  unfold days_in_month.
  repeat match goal with |- context [if ?b then _ else _] => destruct b end; lia.
Qed.

Lemma days_before_month_aux_bounds (y : Z) (m : nat) :
  (0 <= days_before_month_aux y m <= 31 * Z.of_nat m)%Z.
Proof.
  induction m as [| m IH]; [cbn; lia |].
  cbn [days_before_month_aux].
  pose proof (days_in_month_bounds y (Z.of_nat (S m))). lia.
Qed.

Lemma toordinal_bounds (f : date_fields) :
  valid_fields f = true -> (1 <= toordinal f <= 3660000)%Z.
Proof.
  intros H. apply valid_fields_bounds in H as (Hy & Hm & Hd & _).
  unfold toordinal, days_before_month, days_before_year.
  pose proof (days_before_month_aux_bounds (year f) (Z.to_nat (month f - 1))) as Hb.
  rewrite Z2Nat.id in Hb by lia.
  revert Hb. generalize (days_before_month_aux (year f) (Z.to_nat (month f - 1))).
  intros b Hb. Z.div_mod_to_equations. lia.
Qed.

Lemma to_us_bounds (d : datetime) : (0 <= to_us d < 400000000000000000)%Z.
Proof.
  pose proof (toordinal_bounds (fields d) (fields_valid d)) as Ho.
  destruct (valid_fields_bounds (fields d) (fields_valid d))
    as (_ & _ & _ & Hh & Hmi & Hs & Hus).
  unfold to_us. cbn zeta. lia.
Qed.

Lemma inactive_us_bounds (t : datetime) (s : session) :
  (Z.abs (inactive_us t s) < 1000000 * 2 ^ 53)%Z.
Proof.
  unfold inactive_us.
  pose proof (to_us_bounds t). pose proof (to_us_bounds (last_activity s)).
  change (2 ^ 53)%Z with 9007199254740992%Z. lia.
Qed.

(** An idle time of at least [T] seconds, counted exactly, has a [float]
    of at least [T]: rounding never takes a quotient below an integer it
    had reached. *)
Lemma reached_ge (T : Z) (t : datetime) (s : session) :
  (T * 1000000 <= inactive_us t s)%Z -> reached T t s = true.
Proof.
  intros H. unfold reached, total_seconds.
  apply true_div_ge; [lia | apply inactive_us_bounds | exact H].
Qed.

(** Below [2^34] seconds the test on the [float] is the exact one. *)
Lemma reached_exact (T : Z) (t : datetime) (s : session) :
  (0 <= T < 2 ^ 34)%Z ->
  reached T t s = (T * 1000000 <=? inactive_us t s)%Z.
Proof.
  intros HT. destruct (Z.leb_spec (T * 1000000) (inactive_us t s)) as [H | H].
  - apply reached_ge, H.
  - unfold reached, total_seconds.
    apply true_div_lt; [apply inactive_us_bounds | exact HT | exact H].
Qed.

(** [is_session_active] reads the clock at most once and changes nothing
    else, whether it returns or raises. *)
Lemma is_session_active_frame (wall : nat -> datetime) (v : string)
    (w : SessionManager) :
  let w' := snd (is_session_active wall v w) in
  sessions w' = sessions w /\ outbox w' = outbox w /\ config w' = config w /\
  clock_reads w <= clock_reads w' <= S (clock_reads w).
Proof.
  unfold is_session_active.
  destruct (sessions w !! v) as [s |]; [| cbn; auto with lia].
  destruct (plus_seconds (last_activity s) (session_timeout w)); cbn; auto with lia.
Qed.

(** ** The sweeper *)

Lemma with_notices_nil (s : session) : with_notices [] s = s.
Proof. unfold with_notices, set_message_history. rewrite app_nil_r. destruct s; reflexivity. Qed.

Lemma with_notices_app (e1 e2 : list history_entry) (s : session) :
  with_notices e2 (with_notices e1 s) = with_notices (e1 ++ e2) s.
Proof.
  unfold with_notices, set_message_history. cbn. rewrite app_assoc. reflexivity.
Qed.

Lemma sent_to_app (u : string) (l1 l2 : list (string * string)) :
  sent_to u (l1 ++ l2) = sent_to u l1 ++ sent_to u l2.
Proof. apply filter_app. Qed.

Lemma sent_to_map_notin (u text : string) (l : list string) :
  u ∉ l -> sent_to u (map (fun v => (v, text)) l) = [].
Proof.
  induction l as [| v l IH]; intros Hnotin; [reflexivity |].
  apply not_elem_of_cons in Hnotin as [Hne Hnotin].
  cbn [map]. unfold sent_to. rewrite filter_cons_False by (cbn; congruence).
  apply IH, Hnotin.
Qed.

Lemma sent_to_map_in (u text : string) (l : list string) :
  NoDup l -> u ∈ l -> sent_to u (map (fun v => (v, text)) l) = [(u, text)].
Proof.
  induction l as [| v l IH]; intros Hnd Hin; [inversion Hin |].
  apply NoDup_cons in Hnd as [Hv Hnd]. cbn [map]. unfold sent_to.
  destruct (decide (v = u)) as [-> | Hne].
  - rewrite filter_cons_True by reflexivity. f_equal.
    apply sent_to_map_notin, Hv.
  - rewrite filter_cons_False by (cbn; congruence).
    apply IH; [exact Hnd |]. apply elem_of_cons in Hin as [-> | Hin]; [congruence | exact Hin].
Qed.

Lemma sent_to_notices_notin (w : SessionManager) (u text : string) (l : list string) :
  u ∉ l -> sent_to u (notices w text l) = [].
Proof.
  intros H. unfold notices. destruct (send_message_func w); [| reflexivity].
  apply sent_to_map_notin, H.
Qed.

Section SweeperFacts.

Variable wall : nat -> datetime.

Lemma notify_spec (u text : string) (w : SessionManager) :
  sessions (notify u text w) = sessions w /\
  config (notify u text w) = config w /\
  clock_reads (notify u text w) = clock_reads w /\
  outbox (notify u text w) = outbox w ++ notices w text [u].
Proof.
  unfold notify, notices, config.
  destruct (send_message_func w) as [[] |] eqn:E; cbn; rewrite ?E.
  - auto.
  - rewrite app_nil_r. auto.
Qed.

Lemma record_notice_spec (u text : string) (w : SessionManager) :
  sessions (record_notice wall u text w) =
    alter (with_notices [system_entry text (wall (clock_reads w))]) u (sessions w) /\
  config (record_notice wall u text w) = config w /\
  clock_reads w <= clock_reads (record_notice wall u text w) /\
  outbox (record_notice wall u text w) = outbox w.
Proof.
  unfold record_notice, config.
  destruct (sessions w !! u) as [s |] eqn:Hs; cbn.
  - repeat split; try lia.
    apply map_eq. intros v. destruct (decide (u = v)) as [<- | Hne].
    + rewrite lookup_insert_eq, lookup_alter_eq, Hs. reflexivity.
    + rewrite lookup_insert_ne, lookup_alter_ne by exact Hne. reflexivity.
  - repeat split; try lia.
    apply map_eq. intros v. destruct (decide (u = v)) as [<- | Hne].
    + rewrite lookup_alter_eq, Hs. reflexivity.
    + rewrite lookup_alter_ne by exact Hne. reflexivity.
Qed.

Lemma drop_session_spec (u : string) (w : SessionManager) :
  sessions (drop_session u w) = delete u (sessions w) /\
  config (drop_session u w) = config w /\
  clock_reads (drop_session u w) = clock_reads w /\
  outbox (drop_session u w) = outbox w.
Proof.
  unfold drop_session, config.
  destruct (sessions w !! u) as [s |] eqn:Hs; cbn; repeat split.
  symmetry. apply delete_id, Hs.
Qed.

Lemma notices_config (w w' : SessionManager) (text : string) (l : list string) :
  config w' = config w -> notices w' text l = notices w text l.
Proof. unfold config, notices. intros [= _ _ ->]. reflexivity. Qed.

Lemma warning_message_config (w w' : SessionManager) :
  config w' = config w -> warning_message w' = warning_message w.
Proof. unfold config, warning_message. intros [= -> -> _]. reflexivity. Qed.

Lemma notices_cons (w : SessionManager) (text u : string) (l : list string) :
  notices w text (u :: l) = notices w text [u] ++ notices w text l.
Proof. unfold notices. destruct (send_message_func w); reflexivity. Qed.

Lemma warning_spec (u : string) (w : SessionManager) :
  let w' := _send_inactivity_warning wall u w in
  sessions w' =
    alter (with_notices [system_entry (warning_message w) (wall (clock_reads w))])
          u (sessions w) /\
  config w' = config w /\
  clock_reads w <= clock_reads w' /\
  outbox w' = outbox w ++ notices w (warning_message w) [u].
Proof.
  unfold _send_inactivity_warning.
  destruct (notify_spec u (warning_message w) w) as (Hs & Hc & Hk & Ho).
  destruct (record_notice_spec u (warning_message w) (notify u (warning_message w) w))
    as (Hs' & Hc' & Hk' & Ho').
  cbn zeta. rewrite Hs', Hc', Ho', Hs, Hc, Ho, Hk. rewrite Hk in Hk'. auto.
Qed.

Lemma close_spec (u : string) (w : SessionManager) :
  let w' := _close_inactive_session wall u w in
  sessions w' = delete u (sessions w) /\
  config w' = config w /\
  clock_reads w <= clock_reads w' /\
  outbox w' = outbox w ++ notices w closing_message [u].
Proof.
  unfold _close_inactive_session.
  destruct (notify_spec u closing_message w) as (Hs & Hc & Hk & Ho).
  destruct (record_notice_spec u closing_message (notify u closing_message w))
    as (Hs' & Hc' & Hk' & Ho').
  destruct (drop_session_spec u
              (record_notice wall u closing_message (notify u closing_message w)))
    as (Hs'' & Hc'' & Hk'' & Ho'').
  cbn zeta. rewrite Hs'', Hc'', Ho'', Hk'', Hs', Hc', Ho', Hs, Hc, Ho.
  rewrite Hk in Hk'. repeat split; try assumption.
  apply map_eq. intros v. destruct (decide (u = v)) as [<- | Hne].
  - rewrite !lookup_delete_eq. reflexivity.
  - rewrite !lookup_delete_ne, lookup_alter_ne by exact Hne. reflexivity.
Qed.

Lemma warn_all_spec (l : list string) : forall w : SessionManager,
  let w' := fold_left (fun w u => _send_inactivity_warning wall u w) l w in
  config w' = config w /\
  clock_reads w <= clock_reads w' /\
  outbox w' = outbox w ++ notices w (warning_message w) l /\
  (forall v,
     match sessions w !! v with
     | None => sessions w' !! v = None
     | Some s =>
         exists extra, sessions w' !! v = Some (with_notices extra s) /\
           Forall is_system extra /\ (v ∉ l -> extra = [])
     end).
Proof.
  induction l as [| u l IH]; intros w; cbn zeta.
  - cbn [fold_left]. split; [reflexivity |]. split; [lia |]. split.
    + unfold notices. destruct (send_message_func w); cbn; rewrite app_nil_r; reflexivity.
    + intros v. destruct (sessions w !! v) as [s |] eqn:Hs; [| reflexivity].
      exists []. rewrite with_notices_nil. auto.
  - cbn [fold_left].
    destruct (warning_spec u w) as (Hs1 & Hc1 & Hk1 & Ho1).
    specialize (IH (_send_inactivity_warning wall u w)).
    cbn zeta in IH. destruct IH as (Hc & Hk & Ho & Hs).
    split; [congruence |]. split; [lia |]. split.
    + rewrite Ho, Ho1, (notices_config _ _ _ _ Hc1), (warning_message_config _ _ Hc1).
      rewrite (notices_cons w _ u l), app_assoc. reflexivity.
    + intros v. specialize (Hs v). rewrite Hs1 in Hs.
      destruct (decide (u = v)) as [<- | Hne].
      * rewrite lookup_alter_eq in Hs.
        destruct (sessions w !! u) as [s |]; cbn in Hs; [| exact Hs].
        destruct Hs as (extra & Hlook & Hsys & _).
        rewrite with_notices_app in Hlook.
        eexists. split; [exact Hlook |]. split.
        -- apply Forall_app. split; [| exact Hsys].
           apply Forall_cons. split; [| constructor]. split; reflexivity.
        -- intros Hnotin. exfalso. apply Hnotin. left.
      * rewrite lookup_alter_ne in Hs by exact Hne.
        destruct (sessions w !! v) as [s |]; [| exact Hs].
        destruct Hs as (extra & Hlook & Hsys & Hnil).
        exists extra. repeat split; try assumption.
        intros Hnotin. apply Hnil. intros Hin. apply Hnotin. right. exact Hin.
Qed.

Lemma close_all_spec (l : list string) : forall w : SessionManager,
  let w' := fold_left (fun w u => _close_inactive_session wall u w) l w in
  config w' = config w /\
  clock_reads w <= clock_reads w' /\
  outbox w' = outbox w ++ notices w closing_message l /\
  (forall v, sessions w' !! v = if decide (v ∈ l) then None else sessions w !! v).
Proof.
  induction l as [| u l IH]; intros w; cbn zeta.
  - cbn [fold_left]. split; [reflexivity |]. split; [lia |]. split.
    + unfold notices. destruct (send_message_func w); cbn; rewrite app_nil_r; reflexivity.
    + intros v. destruct (decide (v ∈ [])) as [Hin | _]; [inversion Hin | reflexivity].
  - cbn [fold_left].
    destruct (close_spec u w) as (Hs1 & Hc1 & Hk1 & Ho1).
    specialize (IH (_close_inactive_session wall u w)).
    cbn zeta in IH. destruct IH as (Hc & Hk & Ho & Hs).
    split; [congruence |]. split; [lia |]. split.
    + rewrite Ho, Ho1, (notices_config _ _ _ _ Hc1).
      rewrite (notices_cons w _ u l), app_assoc. reflexivity.
    + intros v. rewrite Hs, Hs1.
      destruct (decide (v ∈ l)) as [Hin | Hnotin].
      * rewrite decide_True by (right; exact Hin). reflexivity.
      * destruct (decide (u = v)) as [<- | Hne].
        -- rewrite decide_True by left. apply lookup_delete_eq.
        -- rewrite lookup_delete_ne by exact Hne.
           rewrite decide_False; [reflexivity |].
           intros Hin. apply elem_of_cons in Hin as [-> | Hin]; [congruence | contradiction].
Qed.

Lemma scan_step_eq (w : SessionManager) (t : datetime)
    (m : gmap string session) (wl cl : list string) (u : string) (s : session) :
  scan_step (session_timeout w) (inactivity_warning w) t (m, wl, cl) (u, s) =
  (if should_close w t s || should_warn w t s then <[u := marked w t s]> m else m,
   if should_warn w t s then wl ++ [u] else wl,
   if should_close w t s then cl ++ [u] else cl).
Proof.
  unfold scan_step, marked, should_warn, should_close.
  destruct (reached (session_timeout w) t s && negb (closing_notice_sent s)); cbn;
    [reflexivity |].
  destruct (reached (inactivity_warning w) t s && negb (inactivity_warning_sent s));
    reflexivity.
Qed.

Lemma scan_fold (w : SessionManager) (t : datetime)
    (items : list (string * session)) :
  forall (m : gmap string session) (wl cl : list string),
  fold_left (scan_step (session_timeout w) (inactivity_warning w) t) items (m, wl, cl) =
  (fold_left
     (fun m item =>
        if should_close w t item.2 || should_warn w t item.2
        then <[item.1 := marked w t item.2]> m else m) items m,
   wl ++ (filter (fun item => should_warn w t item.2 = true) items).*1,
   cl ++ (filter (fun item => should_close w t item.2 = true) items).*1).
Proof.
  induction items as [| [u s] items IH]; intros m wl cl.
  - cbn. rewrite !app_nil_r. reflexivity.
  - cbn [fold_left]. rewrite scan_step_eq, IH. cbn [fst snd].
    f_equal; [f_equal |].
    + destruct (should_warn w t s) eqn:Hw.
      * rewrite filter_cons_True by exact Hw. rewrite fmap_cons, <- app_assoc. reflexivity.
      * rewrite filter_cons_False by (cbn; congruence). reflexivity.
    + destruct (should_close w t s) eqn:Hc.
      * rewrite filter_cons_True by exact Hc. rewrite fmap_cons, <- app_assoc. reflexivity.
      * rewrite filter_cons_False by (cbn; congruence). reflexivity.
Qed.

Lemma marked_id (w : SessionManager) (t : datetime) (s : session) :
  should_close w t s || should_warn w t s = false -> marked w t s = s.
Proof.
  unfold marked. intros H. apply orb_false_iff in H as [-> ->]. reflexivity.
Qed.

Lemma marks_lookup (w : SessionManager) (t : datetime)
    (items : list (string * session)) :
  forall (m : gmap string session) (v : string),
  NoDup items.*1 ->
  (forall u s, (u, s) ∈ items -> m !! u = Some s) ->
  fold_left
    (fun m item =>
       if should_close w t item.2 || should_warn w t item.2
       then <[item.1 := marked w t item.2]> m else m) items m !! v =
  match (list_to_map items : gmap string session) !! v with
  | Some s => Some (marked w t s)
  | None => m !! v
  end.
Proof.
  induction items as [| [u s] items IH]; intros m v Hnd Hin.
  - reflexivity.
  - rewrite fmap_cons in Hnd. apply NoDup_cons in Hnd as [Hu Hnd].
    cbn [fold_left fst snd].
    assert (Hm : (if should_close w t s || should_warn w t s
                  then <[u := marked w t s]> m else m) = <[u := marked w t s]> m).
    { destruct (should_close w t s || should_warn w t s) eqn:Hb; [reflexivity |].
      rewrite (marked_id _ _ _ Hb). symmetry. apply insert_id, Hin. left. }
    rewrite Hm, IH; [| exact Hnd |].
    + cbn [list_to_map foldr].
      change (foldr _ ∅ items) with (list_to_map items : gmap string session).
      destruct (decide (u = v)) as [<- | Hne].
      * rewrite (not_elem_of_list_to_map_1 _ u Hu), !lookup_insert_eq. reflexivity.
      * rewrite !(lookup_insert_ne _ u v) by exact Hne. reflexivity.
    + intros u' s' Hin'.
      rewrite lookup_insert_ne; [apply Hin; right; exact Hin' |].
      intros ->. apply Hu. apply list_elem_of_fmap. exists (u', s'). auto.
Qed.

Lemma scan_spec (w : SessionManager) (t : datetime) :
  exists m, scan w t = (m, users_to_warn w t, users_to_close w t) /\
    forall v, m !! v = marked w t <$> sessions w !! v.
Proof.
  unfold scan. rewrite scan_fold. eexists. split; [reflexivity |].
  intros v. rewrite marks_lookup.
  - rewrite list_to_map_to_list.
    destruct (sessions w !! v); reflexivity.
  - apply NoDup_fst_map_to_list.
  - intros u s Hin. apply elem_of_map_to_list, Hin.
Qed.

Lemma elem_users_to_close (w : SessionManager) (t : datetime) (v : string) :
  v ∈ users_to_close w t <->
  exists s, sessions w !! v = Some s /\ should_close w t s = true.
Proof.
  unfold users_to_close. rewrite list_elem_of_fmap. split.
  - intros [[u s] [-> Hin]]. apply list_elem_of_filter in Hin as [Hc Hin].
    apply elem_of_map_to_list in Hin. exists s. auto.
  - intros (s & Hs & Hc). exists (v, s). split; [reflexivity |].
    apply list_elem_of_filter. split; [exact Hc |]. apply elem_of_map_to_list, Hs.
Qed.

Lemma elem_users_to_warn (w : SessionManager) (t : datetime) (v : string) :
  v ∈ users_to_warn w t <->
  exists s, sessions w !! v = Some s /\ should_warn w t s = true.
Proof.
  unfold users_to_warn. rewrite list_elem_of_fmap. split.
  - intros [[u s] [-> Hin]]. apply list_elem_of_filter in Hin as [Hc Hin].
    apply elem_of_map_to_list in Hin. exists s. auto.
  - intros (s & Hs & Hc). exists (v, s). split; [reflexivity |].
    apply list_elem_of_filter. split; [exact Hc |]. apply elem_of_map_to_list, Hs.
Qed.

Lemma NoDup_filter_fst (P : string * session -> Prop) `{!forall x, Decision (P x)}
    (m : gmap string session) :
  NoDup (filter P (map_to_list m)).*1.
Proof.
  eapply sublist_NoDup; [apply (NoDup_fst_map_to_list m) |].
  apply fmap_sublist, sublist_filter.
Qed.

Lemma should_config (w w' : SessionManager) (t : datetime) (s : session) :
  config w' = config w ->
  should_close w' t s = should_close w t s /\ should_warn w' t s = should_warn w t s.
Proof.
  unfold config, should_warn, should_close. intros [= -> -> _]. auto.
Qed.

(** One pass of the sweeper, user by user. *)
Lemma pass_spec (w : SessionManager) :
  let t := wall (clock_reads w) in
  let w' := cleanup_pass wall w in
  config w' = config w /\
  clock_reads w < clock_reads w' /\
  outbox w' = outbox w ++ notices w (warning_message w) (users_to_warn w t)
                       ++ notices w closing_message (users_to_close w t) /\
  (forall v,
     match sessions w !! v with
     | None => sessions w' !! v = None
     | Some s =>
         if should_close w t s then sessions w' !! v = None
         else exists extra,
             sessions w' !! v = Some (with_notices extra (marked w t s)) /\
             Forall is_system extra /\
             (should_warn w t s = false -> extra = [])
     end).
Proof.
  intros t w'. subst w'. unfold cleanup_pass, now.
  set (wn := Manager (sessions w) (session_timeout w) (inactivity_warning w)
                     (send_message_func w) (outbox w) (S (clock_reads w))).
  fold t.
  destruct (scan_spec wn t) as (m & Hscan & Hm). rewrite Hscan.
  change (users_to_warn wn t) with (users_to_warn w t).
  change (users_to_close wn t) with (users_to_close w t).
  set (ws := with_sessions (fun _ => m) wn).
  destruct (warn_all_spec (users_to_warn w t) ws) as (Hc1 & Hk1 & Ho1 & Hs1).
  cbn zeta in Hc1, Hk1, Ho1, Hs1.
  set (ww := fold_left (fun w u => _send_inactivity_warning wall u w)
                       (users_to_warn w t) ws) in *.
  destruct (close_all_spec (users_to_close w t) ww) as (Hc2 & Hk2 & Ho2 & Hs2).
  cbn zeta in Hc2, Hk2, Ho2, Hs2.
  assert (Hcw : config ws = config w) by reflexivity.
  split; [congruence |].
  split; [change (clock_reads ws) with (S (clock_reads w)) in Hk1; lia |].
  split.
  - rewrite Ho2, Ho1, (notices_config _ _ _ _ Hc1), (notices_config _ _ _ _ Hcw),
      (notices_config _ _ _ _ Hcw), (warning_message_config _ _ Hcw).
    change (outbox ws) with (outbox w). rewrite app_assoc. reflexivity.
  - intros v. rewrite Hs2. specialize (Hs1 v).
    change (sessions ws) with m in Hs1. rewrite Hm in Hs1.
    change (sessions wn) with (sessions w) in Hs1.
    destruct (sessions w !! v) as [s |] eqn:Hv; cbn in Hs1.
    + destruct (should_close w t s) eqn:Hclose.
      * rewrite decide_True; [reflexivity |].
        apply elem_users_to_close. exists s. auto.
      * rewrite decide_False.
        -- destruct Hs1 as (extra & Hlook & Hsys & Hnil).
           exists extra. repeat split; try assumption.
           intros Hwarn. apply Hnil. intros Hin.
           apply elem_users_to_warn in Hin as (s' & Hs' & Hw').
           rewrite Hv in Hs'. injection Hs' as <-. congruence.
        -- intros Hin. apply elem_users_to_close in Hin as (s' & Hs' & Hc').
           rewrite Hv in Hs'. injection Hs' as <-. congruence.
    + rewrite Hs1. destruct (decide _); reflexivity.
Qed.

Lemma pass_unfold (w : SessionManager) :
  let t := wall (clock_reads w) in
  exists m,
    (forall v, m !! v = marked w t <$> sessions w !! v) /\
    cleanup_pass wall w =
    fold_left (fun w u => _close_inactive_session wall u w) (users_to_close w t)
      (fold_left (fun w u => _send_inactivity_warning wall u w) (users_to_warn w t)
         (Manager m (session_timeout w) (inactivity_warning w)
                  (send_message_func w) (outbox w) (S (clock_reads w)))).
Proof.
  intros t. unfold cleanup_pass, now.
  set (wn := Manager (sessions w) (session_timeout w) (inactivity_warning w)
                     (send_message_func w) (outbox w) (S (clock_reads w))).
  fold t. destruct (scan_spec wn t) as (m & Hscan & Hm). rewrite Hscan.
  exists m. split; [exact Hm | reflexivity].
Qed.

Lemma absent_pass (w : SessionManager) (u : string) :
  sessions w !! u = None ->
  sessions (cleanup_pass wall w) !! u = None /\
  sent_to u (outbox (cleanup_pass wall w)) = sent_to u (outbox w).
Proof.
  intros Hu. destruct (pass_spec w) as (_ & _ & Ho & Hs).
  specialize (Hs u). rewrite Hu in Hs. split; [exact Hs |].
  rewrite Ho, !sent_to_app, !sent_to_notices_notin, !app_nil_r; [reflexivity | |].
  - intros Hin. apply elem_users_to_close in Hin as (s & Hs' & _). congruence.
  - intros Hin. apply elem_users_to_warn in Hin as (s & Hs' & _). congruence.
Qed.

Lemma absent_passes (n : nat) (w : SessionManager) (u : string) :
  sessions w !! u = None ->
  sessions (_cleanup_expired_sessions wall n w) !! u = None /\
  sent_to u (outbox (_cleanup_expired_sessions wall n w)) = sent_to u (outbox w).
Proof.
  intros Hu. unfold _cleanup_expired_sessions.
  induction n as [| n [IHs IHo]]; [auto |].
  change (Nat.iter (S n) (cleanup_pass wall) w)
    with (cleanup_pass wall (Nat.iter n (cleanup_pass wall) w)).
  destruct (absent_pass _ u IHs) as [Hs Ho].
  split; [exact Hs | rewrite Ho; exact IHo].
Qed.

Lemma quiet_pass (w : SessionManager) (u : string) (s : session) :
  sessions w !! u = Some s ->
  should_close w (wall (clock_reads w)) s = false ->
  should_warn w (wall (clock_reads w)) s = false ->
  sessions (cleanup_pass wall w) !! u = Some s /\
  sent_to u (outbox (cleanup_pass wall w)) = sent_to u (outbox w).
Proof.
  intros Hu Hc Hw. destruct (pass_spec w) as (_ & _ & Ho & Hs).
  specialize (Hs u). rewrite Hu, Hc in Hs.
  destruct Hs as (extra & Hlook & _ & Hnil). rewrite (Hnil Hw) in Hlook.
  rewrite with_notices_nil in Hlook. unfold marked in Hlook. rewrite Hc, Hw in Hlook.
  split; [exact Hlook |].
  rewrite Ho, !sent_to_app, !sent_to_notices_notin, !app_nil_r; [reflexivity | |].
  - intros Hin. apply elem_users_to_close in Hin as (s' & Hs' & Hc').
    rewrite Hu in Hs'. injection Hs' as <-. congruence.
  - intros Hin. apply elem_users_to_warn in Hin as (s' & Hs' & Hw').
    rewrite Hu in Hs'. injection Hs' as <-. congruence.
Qed.

Lemma sent_to_notices_in (w : SessionManager) (f : sender) (u text : string)
    (l : list string) :
  send_message_func w = Some f -> NoDup l -> u ∈ l ->
  sent_to u (notices w text l) = [(u, text)].
Proof.
  intros Hf Hnd Hin. unfold notices. rewrite Hf. apply sent_to_map_in; assumption.
Qed.

(** One pass over a session idle for at least [session_timeout] seconds
    whose closing notice has not been sent, in a manager that has a send
    function. *)
Lemma sweeper_closure (w : SessionManager) (u : string) (s : session)
    (f : sender) :
  send_message_func w = Some f ->
  sessions w !! u = Some s ->
  closing_notice_sent s = false ->
  (session_timeout w * 1000000 <= inactive_us (wall (clock_reads w)) s)%Z ->
  let t := wall (clock_reads w) in
  let w' := cleanup_pass wall w in
  (exists new, outbox w' = outbox w ++ new /\
               sent_to u new = [(u, closing_message)]) /\
  (exists before after w_pre,
     users_to_close w t = before ++ u :: after /\
     w' = fold_left (fun w v => _close_inactive_session wall v w) after
            (_close_inactive_session wall u w_pre) /\
     sessions w_pre !! u = Some (set_closing_notice_sent true s) /\
     sessions (record_notice wall u closing_message
                 (notify u closing_message w_pre)) !! u =
       Some (with_notices
               [system_entry closing_message (wall (clock_reads w_pre))]
               (set_closing_notice_sent true s)) /\
     _close_inactive_session wall u w_pre =
       drop_session u (record_notice wall u closing_message
                         (notify u closing_message w_pre))) /\
  sessions w' !! u = None /\
  is_session_active wall u w' = (Ok false, w') /\
  (forall n,
     sessions (_cleanup_expired_sessions wall n w') !! u = None /\
     sent_to u (outbox (_cleanup_expired_sessions wall n w')) =
       sent_to u (outbox w')).
Proof.
  intros Hf Hu Hflag Hidle t w'.
  assert (Hclose : should_close w t s = true).
  { unfold should_close. rewrite Hflag.
    apply andb_true_iff. split; [apply reached_ge; exact Hidle | reflexivity]. }
  assert (Hwarn : should_warn w t s = false).
  { unfold should_warn. rewrite Hclose. reflexivity. }
  assert (Hin : u ∈ users_to_close w t).
  { apply elem_users_to_close. exists s. auto. }
  assert (Hnotin : u ∉ users_to_warn w t).
  { intros H. apply elem_users_to_warn in H as (s' & Hs' & Hw').
    rewrite Hu in Hs'. injection Hs' as <-. congruence. }
  destruct (pass_spec w) as (Hcfg & Hclk & Ho & Hs).
  fold t w' in Hcfg, Hclk, Ho, Hs.
  assert (Hgone : sessions w' !! u = None).
  { specialize (Hs u). rewrite Hu, Hclose in Hs. exact Hs. }
  split; [| split; [| split; [| split]]].
  - eexists. split; [exact Ho |].
    rewrite sent_to_app, (sent_to_notices_notin _ _ _ _ Hnotin).
    apply (sent_to_notices_in w f); [exact Hf | apply NoDup_filter_fst | exact Hin].
  - destruct (pass_unfold w) as (m & Hm & Hpass). fold t w' in Hm, Hpass.
    apply list_elem_of_split in Hin as (before & after & Hsplit).
    set (ws := Manager m (session_timeout w) (inactivity_warning w)
                       (send_message_func w) (outbox w) (S (clock_reads w))) in *.
    set (ww := fold_left (fun w u => _send_inactivity_warning wall u w)
                         (users_to_warn w t) ws) in *.
    exists before, after,
      (fold_left (fun w v => _close_inactive_session wall v w) before ww).
    set (w_pre := fold_left (fun w v => _close_inactive_session wall v w) before ww).
    assert (Hpre : sessions w_pre !! u = Some (set_closing_notice_sent true s)).
    { destruct (close_all_spec before ww) as (_ & _ & _ & Hb).
      cbn zeta in Hb. fold w_pre in Hb. rewrite Hb.
      assert (Hnd : NoDup (before ++ u :: after)).
      { rewrite <- Hsplit. apply NoDup_filter_fst. }
      apply NoDup_app in Hnd as (_ & Hdisj & _).
      rewrite decide_False by (intros Hb'; apply (Hdisj u Hb'); left).
      destruct (warn_all_spec (users_to_warn w t) ws) as (_ & _ & _ & Hw).
      cbn zeta in Hw. fold ww in Hw. specialize (Hw u).
      change (sessions ws) with m in Hw. rewrite Hm, Hu in Hw. cbn in Hw.
      destruct Hw as (extra & Hlook & _ & Hnil).
      rewrite (Hnil Hnotin), with_notices_nil in Hlook.
      unfold marked in Hlook. rewrite Hclose in Hlook. exact Hlook. }
    split; [exact Hsplit |]. split.
    { rewrite Hpass, Hsplit, fold_left_app. reflexivity. }
    split; [exact Hpre |]. split; [| reflexivity].
    destruct (notify_spec u closing_message w_pre) as (Hns & _ & Hnk & _).
    destruct (record_notice_spec u closing_message (notify u closing_message w_pre))
      as (Hrs & _).
    rewrite Hrs, Hns, Hnk, lookup_alter_eq, Hpre. reflexivity.
  - exact Hgone.
  - unfold is_session_active. rewrite Hgone. reflexivity.
  - intros n. apply absent_passes, Hgone.
Qed.

Lemma passes_clock_mono (n : nat) (w : SessionManager) :
  clock_reads w <= clock_reads (_cleanup_expired_sessions wall n w).
Proof.
  unfold _cleanup_expired_sessions. induction n as [| n IH]; [cbn; lia |].
  change (Nat.iter (S n) (cleanup_pass wall) w)
    with (cleanup_pass wall (Nat.iter n (cleanup_pass wall) w)).
  destruct (pass_spec (Nat.iter n (cleanup_pass wall) w)) as (_ & Hclk & _). lia.
Qed.

Lemma quiet_passes (n : nat) (w : SessionManager) (u : string) (s : session) :
  sessions w !! u = Some s ->
  inactivity_warning_sent s = true ->
  (0 <= session_timeout w < 2 ^ 34)%Z ->
  (forall k,
     clock_reads w <= k < clock_reads (_cleanup_expired_sessions wall n w) ->
     (inactive_us (wall k) s < session_timeout w * 1000000)%Z) ->
  let w' := _cleanup_expired_sessions wall n w in
  sessions w' !! u = Some s /\
  sent_to u (outbox w') = sent_to u (outbox w) /\
  config w' = config w.
Proof.
  intros Hu Hflag Hbound. unfold _cleanup_expired_sessions.
  induction n as [| n IH]; intros Hidle; cbn zeta.
  - cbn. auto.
  - change (Nat.iter (S n) (cleanup_pass wall) w)
      with (cleanup_pass wall (Nat.iter n (cleanup_pass wall) w)) in *.
    set (wn := Nat.iter n (cleanup_pass wall) w) in *.
    destruct (pass_spec wn) as (Hcfg & Hclk & _).
    pose proof (passes_clock_mono n w) as Hmono.
    unfold _cleanup_expired_sessions in Hmono. fold wn in Hmono.
    destruct IH as (IHs & IHo & IHc).
    { intros k Hk. apply Hidle. lia. }
    assert (Hc : should_close wn (wall (clock_reads wn)) s = false).
    { destruct (should_config w wn (wall (clock_reads wn)) s IHc) as [-> _].
      unfold should_close. rewrite (reached_exact _ _ _ Hbound).
      apply andb_false_iff. left. apply Z.leb_gt, Hidle. lia. }
    assert (Hw : should_warn wn (wall (clock_reads wn)) s = false).
    { unfold should_warn. rewrite Hflag, andb_false_r, andb_false_r. reflexivity. }
    destruct (quiet_pass wn u s IHs Hc Hw) as [Hs Ho].
    split; [exact Hs |]. split; [rewrite Ho; exact IHo | congruence].
Qed.

Lemma touch_flags (t : datetime) (s : session) :
  inactivity_warning_sent (touch t s) = false /\
  closing_notice_sent (touch t s) = false /\
  last_activity (touch t s) = t.
Proof. repeat split. Qed.

(** Passes over a session whose idle time stays between the two
    thresholds, in a manager that has a send function. *)
Lemma warning_once (w : SessionManager) (u : string) (s : session)
    (f : sender) (n : nat) :
  send_message_func w = Some f ->
  sessions w !! u = Some s ->
  (0 <= session_timeout w < 2 ^ 34)%Z ->
  (forall k,
     clock_reads w <= k < clock_reads (_cleanup_expired_sessions wall (S n) w) ->
     (inactivity_warning w * 1000000 <= inactive_us (wall k) s
      < session_timeout w * 1000000)%Z) ->
  (inactivity_warning_sent s = false ->
     sent_to u (outbox (_cleanup_expired_sessions wall (S n) w)) =
       sent_to u (outbox w) ++ [(u, warning_message w)] /\
     exists s', sessions (_cleanup_expired_sessions wall (S n) w) !! u = Some s' /\
       inactivity_warning_sent s' = true /\
       last_activity s' = last_activity s) /\
  (inactivity_warning_sent s = true ->
     sent_to u (outbox (_cleanup_expired_sessions wall n w)) = sent_to u (outbox w) /\
     sessions (_cleanup_expired_sessions wall n w) !! u = Some s) /\
  (exists s', sessions (get_session wall u w) !! u = Some s' /\
     inactivity_warning_sent s' = false) /\
  (forall kwargs, exists s',
     sessions (update_session wall u kwargs w) !! u = Some s' /\
     inactivity_warning_sent s' = false) /\
  (forall role content, exists s',
     sessions (add_message_to_history wall u role content w) !! u = Some s' /\
     inactivity_warning_sent s' = false).
Proof.
  intros Hf Hu Hbound Hidle.
  assert (Hsucc : _cleanup_expired_sessions wall (S n) w =
                  _cleanup_expired_sessions wall n (cleanup_pass wall w)).
  { unfold _cleanup_expired_sessions. apply Nat.iter_succ_r. }
  assert (Hlast : _cleanup_expired_sessions wall (S n) w =
                  cleanup_pass wall (_cleanup_expired_sessions wall n w))
    by reflexivity.
  split; [| split; [| split; [| split]]].
  - intros Hflag. rewrite Hsucc in *.
    set (t := wall (clock_reads w)).
    destruct (pass_spec w) as (Hcfg & Hclk & Ho & Hs). fold t in Ho, Hs.
    pose proof (passes_clock_mono n (cleanup_pass wall w)) as Hmono.
    assert (Hclose : should_close w t s = false).
    { unfold should_close. rewrite (reached_exact _ _ _ Hbound).
      apply andb_false_iff. left.
      apply Z.leb_gt. apply (Hidle (clock_reads w)). lia. }
    assert (Hwarn : should_warn w t s = true).
    { unfold should_warn. rewrite Hclose, Hflag. cbn.
      rewrite andb_true_r. apply reached_ge. apply (Hidle (clock_reads w)). lia. }
    specialize (Hs u). rewrite Hu, Hclose in Hs.
    destruct Hs as (extra & Hlook & _ & _).
    set (s1 := with_notices extra (marked w t s)) in *.
    assert (Hs1 : inactivity_warning_sent s1 = true /\ last_activity s1 = last_activity s).
    { unfold s1, marked. rewrite Hclose, Hwarn. split; reflexivity. }
    destruct Hs1 as [Hflag1 Hlast1].
    assert (Ht : session_timeout (cleanup_pass wall w) = session_timeout w).
    { unfold config in Hcfg. congruence. }
    destruct (quiet_passes n (cleanup_pass wall w) u s1 Hlook Hflag1)
      as (Hs' & Ho' & _).
    { rewrite Ht. exact Hbound. }
    { intros k Hk. unfold inactive_us. rewrite Hlast1.
      rewrite Ht. apply (Hidle k). lia. }
    split.
    + rewrite Ho', Ho, !sent_to_app. f_equal.
      rewrite (sent_to_notices_in w f u _ _ Hf).
      * rewrite sent_to_notices_notin; [reflexivity |].
        intros Hin. apply elem_users_to_close in Hin as (s' & Hs'' & Hc').
        rewrite Hu in Hs''. injection Hs'' as <-. congruence.
      * apply NoDup_filter_fst.
      * apply elem_users_to_warn. exists s. auto.
    + exists s1. auto.
  - intros Hflag.
    destruct (quiet_passes n w u s Hu Hflag Hbound) as (Hs' & Ho' & _).
    { intros k Hk. apply (Hidle k). rewrite Hlast.
      destruct (pass_spec (_cleanup_expired_sessions wall n w)) as (_ & Hclk & _).
      lia. }
    auto.
  - unfold get_session. rewrite Hu. cbn.
    rewrite lookup_insert_eq. eexists. split; [reflexivity | reflexivity].
  - intros kwargs. unfold update_session. rewrite Hu. cbn.
    rewrite lookup_insert_eq. eexists. split; [reflexivity | reflexivity].
  - intros role content. unfold add_message_to_history. rewrite Hu. cbn.
    rewrite lookup_insert_eq. eexists. split; [reflexivity | reflexivity].
Qed.

(** ** Frame of the sweeper's notices *)

(** C10. Both notices of the sweeper go through the same recording step,
    which appends one entry written by the assistant and tagged [system] to
    the history and assigns nothing else: [last_activity], both flags and
    [meta] (hence the message counter) are those of the session before.
    [add_message_to_history], in contrast, refreshes [last_activity], clears
    both flags and adds one to the counter. *)
Theorem C10_notice_frame (w : SessionManager) (u : string) (s : session) :
  sessions w !! u = Some s ->
  let warned := _send_inactivity_warning wall u w in
  let recorded :=
    record_notice wall u closing_message (notify u closing_message w) in
  (exists e s', sessions warned !! u = Some s' /\
     message_history s' = message_history s ++ [e] /\
     is_system e /\ content e = warning_message w /\
     last_activity s' = last_activity s /\
     inactivity_warning_sent s' = inactivity_warning_sent s /\
     closing_notice_sent s' = closing_notice_sent s /\
     meta s' = meta s /\ created_at s' = created_at s /\
     state s' = state s /\ context s' = context s) /\
  (_close_inactive_session wall u w = drop_session u recorded /\
   exists e s', sessions recorded !! u = Some s' /\
     message_history s' = message_history s ++ [e] /\
     is_system e /\ content e = closing_message /\
     last_activity s' = last_activity s /\
     inactivity_warning_sent s' = inactivity_warning_sent s /\
     closing_notice_sent s' = closing_notice_sent s /\
     meta s' = meta s /\ created_at s' = created_at s /\
     state s' = state s /\ context s' = context s) /\
  (forall role content, exists s',
     sessions (add_message_to_history wall u role content w) !! u = Some s' /\
     last_activity s' = wall (S (clock_reads w)) /\
     inactivity_warning_sent s' = false /\
     closing_notice_sent s' = false /\
     meta_get (total_messages (meta s')) =
       (meta_get (total_messages (meta s)) + 1)%Z).
Proof.
  intros Hu warned recorded. split; [| split].
  - destruct (warning_spec u w) as (Hs & _). fold warned in Hs.
    eexists _, _. rewrite Hs, lookup_alter_eq, Hu. cbn.
    split; [reflexivity |]. repeat split.
  - split; [reflexivity |].
    destruct (notify_spec u closing_message w) as (Hns & _ & Hnk & _).
    destruct (record_notice_spec u closing_message (notify u closing_message w))
      as (Hrs & _).
    fold recorded in Hrs.
    eexists _, _. rewrite Hrs, Hns, lookup_alter_eq, Hu. cbn.
    split; [reflexivity |]. repeat split.
  - intros r c. unfold add_message_to_history. rewrite Hu. cbn.
    rewrite lookup_insert_eq. eexists. split; [reflexivity |]. repeat split.
Qed.

(** ** Restart *)

(** C3. [restart_session] on a user who has a session stores a session
    whose message counter is the old one, whose restart counter is the old
    one plus 1, whose context is empty and whose state is [INITIAL]. *)
Theorem C3_restart_preserves_count (w : SessionManager) (u : string) (s : session) :
  sessions w !! u = Some s ->
  exists s', sessions (restart_session wall u w) !! u = Some s' /\
    meta_get (total_messages (meta s')) = meta_get (total_messages (meta s)) /\
    meta_get (session_restarts (meta s')) =
      (meta_get (session_restarts (meta s)) + 1)%Z /\
    context s' = ∅ /\
    state s' = "INITIAL".
Proof.
  intros Hu. unfold restart_session. rewrite Hu. cbn.
  rewrite lookup_insert_eq. eexists. split; [reflexivity |]. repeat split.
Qed.

(** ** The message counter *)

Lemma apply_kwargs_meta (kwargs : list kwarg) : forall s : session,
  existsb is_Kmeta kwargs = false ->
  meta (fold_left apply_kwarg kwargs s) = meta s.
Proof.
  induction kwargs as [| k kwargs IH]; intros s Hno; [reflexivity |].
  cbn [existsb] in Hno. apply orb_false_iff in Hno as [Hk Hno].
  cbn [fold_left]. rewrite IH by exact Hno.
  destruct k; try reflexivity. discriminate.
Qed.

Lemma load_items_other (items : list (string * json_session)) (u : string) :
  forall m : gmap string session,
  existsb (fun item => String.eqb (fst item) u) items = false ->
  load_items items m !! u = m !! u.
Proof.
  induction items as [| [v js] items IH]; intros m Hno; [reflexivity |].
  cbn [existsb fst] in Hno. apply orb_false_iff in Hno as [Hv Hno].
  apply String.eqb_neq in Hv. cbn [load_items].
  destruct (loaded_session js) as [s |]; [| reflexivity].
  rewrite IH by exact Hno. apply lookup_insert_ne, Hv.
Qed.

Lemma count_appends_cons (u : string) (op : store_op) (ops : list store_op) :
  count_appends u (op :: ops) =
  ((if is_append_for u op then 1 else 0) + count_appends u ops)%Z.
Proof.
  unfold count_appends. destruct (is_append_for u op) eqn:Ha.
  - rewrite filter_cons_True by exact Ha. cbn [length]. lia.
  - rewrite filter_cons_False by congruence. lia.
Qed.

(** One operation that leaves the session of [u] in the store and does not
    assign its ['meta'] key from outside: the counter moves by one if the
    operation is an [add_message_to_history] for [u], and stays otherwise. *)
Lemma exec_message_count (w : SessionManager) (op : store_op) (u : string)
    (s s' : session) :
  sessions w !! u = Some s ->
  sessions (exec wall w op) !! u = Some s' ->
  writes_meta u op = false ->
  meta_get (total_messages (meta s')) =
  (meta_get (total_messages (meta s)) + (if is_append_for u op then 1 else 0))%Z.
Proof.
  intros Hu Hu' Hw.
  destruct op as [v | v kwargs | v | v | v | v r c | v lim | | | file | func];
    cbn [exec is_append_for writes_meta] in *.
  - unfold get_session in Hu'.
    destruct (decide (v = u)) as [-> | Hne].
    + rewrite Hu in Hu'. cbn in Hu'. rewrite lookup_insert_eq in Hu'.
      injection Hu' as <-. cbn. lia.
    + destruct (sessions w !! v); cbn in Hu';
        rewrite lookup_insert_ne in Hu' by exact Hne;
        rewrite Hu in Hu'; injection Hu' as <-; lia.
  - unfold update_session in Hu'.
    destruct (decide (v = u)) as [-> | Hne].
    + rewrite String.eqb_refl in Hw. cbn in Hw.
      rewrite Hu in Hu'. cbn in Hu'. rewrite lookup_insert_eq in Hu'.
      injection Hu' as <-. cbn. rewrite (apply_kwargs_meta _ _ Hw). lia.
    + destruct (sessions w !! v); cbn in Hu';
        rewrite ?lookup_insert_ne in Hu' by exact Hne;
        rewrite Hu in Hu'; injection Hu' as <-; lia.
  - unfold restart_session in Hu'.
    destruct (decide (v = u)) as [-> | Hne].
    + rewrite Hu in Hu'. cbn in Hu'. rewrite lookup_insert_eq in Hu'.
      injection Hu' as <-. cbn. lia.
    + destruct (sessions w !! v); cbn in Hu';
        rewrite ?lookup_insert_ne in Hu' by exact Hne;
        rewrite Hu in Hu'; injection Hu' as <-; lia.
  - unfold end_session in Hu'.
    destruct (decide (v = u)) as [-> | Hne].
    + rewrite Hu in Hu'. cbn in Hu'. rewrite lookup_delete_eq in Hu'. discriminate.
    + destruct (sessions w !! v); cbn in Hu';
        rewrite ?lookup_delete_ne in Hu' by exact Hne;
        rewrite Hu in Hu'; injection Hu' as <-; lia.
  - destruct (is_session_active_frame wall v w) as (Hs & _).
    cbn zeta in Hs. rewrite Hs, Hu in Hu'. injection Hu' as <-. lia.
  - unfold add_message_to_history in Hu'.
    destruct (String.eqb_spec v u) as [-> | Hne].
    + rewrite Hu in Hu'. cbn in Hu'. rewrite lookup_insert_eq in Hu'.
      injection Hu' as <-. cbn. lia.
    + destruct (sessions w !! v); cbn in Hu';
        rewrite ?lookup_insert_ne in Hu' by exact Hne;
        rewrite Hu in Hu'; injection Hu' as <-; lia.
  - rewrite Hu in Hu'. injection Hu' as <-. lia.
  - destruct (pass_spec w) as (_ & _ & _ & Hs). specialize (Hs u).
    rewrite Hu in Hs. destruct (should_close w (wall (clock_reads w)) s) eqn:Hc.
    + congruence.
    + destruct Hs as (extra & Hlook & _). rewrite Hlook in Hu'.
      injection Hu' as <-. unfold marked. rewrite Hc.
      destruct (should_warn w (wall (clock_reads w)) s); cbn; lia.
  - rewrite Hu in Hu'. injection Hu' as <-. lia.
  - unfold load_sessions in Hu'. cbn in Hu'.
    rewrite (load_items_other _ _ _ Hw), Hu in Hu'. injection Hu' as <-. lia.
  - cbn in Hu'. rewrite Hu in Hu'. injection Hu' as <-. lia.
Qed.

(** C6, amended. Along any history of store operations during which the
    session of [u] stays in the store and none of which assigns its ['meta']
    key from outside (an [update_session] carrying [meta], or a
    [load_sessions] of a file with a member for [u]), the message counter
    grows by exactly the number of [add_message_to_history] calls made for
    [u]: each such call adds 1 and every other operation, the sweeper's
    passes included, leaves the counter as it is. *)
Theorem C6_message_count (ops : list store_op) :
  forall (w : SessionManager) (u : string) (c : Z),
  message_count u w = Some c ->
  survives wall u ops w = true ->
  forallb (fun op => negb (writes_meta u op)) ops = true ->
  message_count u (run wall ops w) = Some (c + count_appends u ops)%Z.
Proof.
  induction ops as [| op ops IH]; intros w u c Hc Hlive Hclean.
  - cbn. rewrite Hc. f_equal. unfold count_appends. cbn. lia.
  - cbn [survives] in Hlive. apply andb_true_iff in Hlive as [_ Hlive].
    cbn [forallb] in Hclean. apply andb_true_iff in Hclean as [Hop Hclean].
    apply negb_true_iff in Hop.
    unfold message_count in Hc.
    destruct (sessions w !! u) as [s |] eqn:Hu; [| discriminate].
    cbn in Hc. injection Hc as <-.
    assert (Hnext : exists s', sessions (exec wall w op) !! u = Some s').
    { destruct ops; cbn [survives] in Hlive;
        apply andb_true_iff in Hlive as [Hhas _];
        unfold has_session in Hhas;
        destruct (sessions (exec wall w op) !! u); eauto; discriminate. }
    destruct Hnext as [s' Hu'].
    cbn [run fold_left]. change (fold_left (exec wall) ops) with (run wall ops).
    rewrite (IH (exec wall w op) u (meta_get (total_messages (meta s')))).
    + rewrite (exec_message_count w op u s s' Hu Hu' Hop), count_appends_cons.
      f_equal. lia.
    + unfold message_count. rewrite Hu'. reflexivity.
    + exact Hlive.
    + exact Hclean.
Qed.

End SweeperFacts.

(** ** Recent history *)

Lemma get_message_history_absent (w : SessionManager) (u : string) (limit : Z) :
  sessions w !! u = None -> get_message_history u limit w = [].
Proof. intros Hu. unfold get_message_history. rewrite Hu. reflexivity. Qed.

(** For a positive [limit] the slice is the last [limit] entries, or the
    whole history when it is shorter. *)
Lemma get_message_history_positive (w : SessionManager) (u : string) (limit : Z)
    (s : session) :
  sessions w !! u = Some s -> (0 < limit)%Z ->
  get_message_history u limit w =
  drop (length (message_history s) - Z.to_nat limit) (message_history s).
Proof.
  intros Hu Hpos. unfold get_message_history, py_slice_from. rewrite Hu.
  destruct (Z.ltb_spec (- limit) 0) as [_ | Hge]; [| lia].
  f_equal. lia.
Qed.

Lemma get_message_history_zero (w : SessionManager) (u : string) :
  get_message_history u 0 w = default [] (message_history <$> sessions w !! u).
Proof.
  unfold get_message_history, py_slice_from.
  destruct (sessions w !! u) as [s |]; [| reflexivity].
  change (- 0 <? 0)%Z with false. cbn iota.
  rewrite Z.min_l by lia. reflexivity.
Qed.

(** C5 at [limit = 0]. The slice [message_history[-0:]] is the whole
    history: with a limit of zero [get_message_history] returns every entry
    of the session, not the last zero entries.  On the sample manager it
    returns both entries of the user's history. *)
Theorem C5_limit_zero_returns_all :
  (forall w u,
     get_message_history u 0 w = default [] (message_history <$> sessions w !! u)) /\
  get_message_history "34600111222" 0 sample_manager = sample_entries /\
  length (get_message_history "34600111222" 0 sample_manager) = 2.
Proof.
  split; [exact get_message_history_zero |]. split; reflexivity.
Qed.

(** ** The router *)

Lemma strip_prefix_spec (p s r : string) :
  strip_prefix p s = Some r <-> s = p +:+ r.
Proof.
  revert s. induction p as [| a p IH]; intros s.
  - cbn. rewrite append_nil_l. split; congruence.
  - cbn [strip_prefix]. rewrite append_cons. destruct s as [| b s].
    + split; discriminate.
    + destruct (Ascii.eqb_spec a b) as [<- | Hne].
      * rewrite IH. split; congruence.
      * split; [discriminate | congruence].
Qed.

(** [contains kw s] decides whether [kw] is a substring of [s]. *)
Lemma contains_spec (kw s : string) :
  contains kw s = true <-> exists a b, s = a +:+ kw +:+ b.
Proof.
  induction s as [| c s IH].
  - cbn [contains]. destruct (strip_prefix kw EmptyString) as [r |] eqn:Hp.
    + apply strip_prefix_spec in Hp. split; [| reflexivity].
      intros _. exists EmptyString, r. exact Hp.
    + split; [discriminate |]. intros (a & b & Hab).
      destruct a; [| discriminate].
      rewrite append_nil_l in Hab. apply strip_prefix_spec in Hab. congruence.
  - cbn [contains]. destruct (strip_prefix kw (String c s)) as [r |] eqn:Hp.
    + apply strip_prefix_spec in Hp. split; [| reflexivity].
      intros _. exists EmptyString, r. exact Hp.
    + rewrite IH. split.
      * intros (a & b & ->). exists (String c a), b. reflexivity.
      * intros (a & b & Hab). destruct a as [| c' a].
        -- rewrite append_nil_l in Hab. apply strip_prefix_spec in Hab. congruence.
        -- rewrite append_cons in Hab. injection Hab as _ ->. eauto.
Qed.

Lemma str_in_spec (x : string) (l : list string) :
  str_in x l = true <-> In x l.
Proof.
  unfold str_in. rewrite existsb_exists. split.
  - intros (y & Hin & Heq). apply String.eqb_eq in Heq. congruence.
  - intros Hin. exists x. split; [exact Hin | apply String.eqb_refl].
Qed.

Lemma process_ticket_prompt : process_text_for_whatsapp ticket_prompt = ticket_prompt.
Proof. vm_compute. reflexivity. Qed.

Section RouterFacts.

Variable wall : nat -> datetime.
Variable str_lower : string -> string.

Lemma detect_spec (body : string) :
  detect_ticket_intent str_lower body = true <->
  exists kw a b, In kw ticket_keywords /\ str_lower body = a +:+ kw +:+ b.
Proof.
  unfold detect_ticket_intent. rewrite existsb_exists. split.
  - intros (kw & Hin & Hc). apply contains_spec in Hc as (a & b & Hab). eauto.
  - intros (kw & a & b & Hin & Hab). exists kw. split; [exact Hin |].
    apply contains_spec. eauto.
Qed.

(** No command and no greeting contains a support keyword. *)
Lemma detect_excludes (body : string) :
  detect_ticket_intent str_lower body = true ->
  str_in (str_lower body) ["/restart"; "/reiniciar"] = false /\
  str_in (str_lower body) ["hola"; "hi"; "hello"] = false.
Proof.
  unfold detect_ticket_intent. intros Hd. split.
  - destruct (str_in _ _) eqn:Hin; [| reflexivity].
    apply str_in_spec in Hin. cbn in Hin.
    destruct Hin as [H | [H | []]]; rewrite <- H in Hd; vm_compute in Hd; discriminate.
  - destruct (str_in _ _) eqn:Hin; [| reflexivity].
    apply str_in_spec in Hin. cbn in Hin.
    destruct Hin as [H | [H | [H | []]]]; rewrite <- H in Hd; vm_compute in Hd;
      discriminate.
Qed.

Lemma add_message_keeps (w : SessionManager) (u r c : string) (s : session) :
  sessions w !! u = Some s ->
  exists s', sessions (add_message_to_history wall u r c w) !! u = Some s' /\
    state s' = state s /\ context s' = context s /\
    outbox (add_message_to_history wall u r c w) = outbox w.
Proof.
  intros Hu. unfold add_message_to_history. rewrite Hu. cbn.
  rewrite lookup_insert_eq. eexists. repeat split.
Qed.

Lemma get_session_state (w : SessionManager) (u : string) :
  exists s', sessions (get_session wall u w) !! u = Some s' /\
    state s' = match sessions w !! u with Some s => state s | None => "INITIAL" end /\
    outbox (get_session wall u w) = outbox w.
Proof.
  unfold get_session. destruct (sessions w !! u) as [s |]; cbn;
    rewrite lookup_insert_eq; eexists; repeat split.
Qed.

(** C7. A text message whose lower-cased body contains a support keyword,
    handled while the sender's session (if any) is not in
    [TICKET_CREATION], leaves the session in state [TICKET_CREATION] with an
    empty context, and the one message delivered is the request for a
    ticket subject. *)
Theorem C7_ticket_intent (w : SessionManager) (m : inbound) (body : string) :
  msg_type m = Some "text" ->
  text_body m = Some body ->
  (exists kw a b, In kw ticket_keywords /\ str_lower body = a +:+ kw +:+ b) ->
  (forall s, sessions w !! wa_id m = Some s -> state s <> "TICKET_CREATION") ->
  let w' := process_whatsapp_message wall str_lower m w in
  (exists s', sessions w' !! wa_id m = Some s' /\
     state s' = "TICKET_CREATION" /\ context s' = ∅) /\
  outbox w' = outbox w ++ [(wa_id m, ticket_prompt)].
Proof.
  intros Htype Hbody Hkw Hstate w'. subst w'.
  apply detect_spec in Hkw.
  destruct (detect_excludes body Hkw) as [Hcmd Hgreet].
  unfold process_whatsapp_message. rewrite Htype, Hbody, Hcmd.
  cbn [opt_str_eqb String.eqb Ascii.eqb Bool.eqb negb].
  destruct (get_session_state w (wa_id m)) as (s0 & Hs0 & Hst0 & Ho0).
  destruct (add_message_keeps _ (wa_id m) "user" body s0 Hs0)
    as (s1 & Hs1 & Hst1 & _ & Ho1).
  rewrite Hs1.
  assert (Hnot : String.eqb (state s1) "TICKET_CREATION" = false).
  { apply String.eqb_neq. rewrite Hst1, Hst0.
    destruct (sessions w !! wa_id m) as [s |] eqn:Hs; [apply (Hstate s eq_refl) | discriminate]. }
  unfold route. rewrite Hgreet, andb_false_r, Hnot, Hkw. cbn [andb negb].
  rewrite process_ticket_prompt.
  set (w1 := add_message_to_history wall (wa_id m) "user" body
               (get_session wall (wa_id m) w)) in *.
  set (w2 := update_session wall (wa_id m) [Kstate "TICKET_CREATION"; Kcontext ∅] w1).
  assert (Hs2 : exists s2, sessions w2 !! wa_id m = Some s2 /\
                  state s2 = "TICKET_CREATION" /\ context s2 = ∅ /\
                  outbox w2 = outbox w1).
  { unfold w2, update_session. rewrite Hs1. cbn. rewrite lookup_insert_eq.
    eexists. repeat split. }
  destruct Hs2 as (s2 & Hs2 & Hst2 & Hctx2 & Ho2).
  destruct (add_message_keeps w2 (wa_id m) "assistant" ticket_prompt s2 Hs2)
    as (s3 & Hs3 & Hst3 & Hctx3 & Ho3).
  split.
  - exists s3. split; [exact Hs3 |]. split; congruence.
  - cbn [outbox deliver]. rewrite Ho3, Ho2, Ho1, Ho0. reflexivity.
Qed.

End RouterFacts.

(** ** The sweeper in the running application *)

Section ApplicationFacts.

Variable wall : nat -> datetime.
Variable str_lower : string -> string.

Lemma exec_keeps_sender (w : SessionManager) (op : store_op) :
  is_Some (send_message_func w) -> is_Some (send_message_func (exec wall w op)).
Proof.
  intros Hf.
  destruct op as [v | v kwargs | v | v | v | v r c | v lim | | | file | func];
    cbn [exec].
  - unfold get_session. destruct (sessions w !! v); exact Hf.
  - unfold update_session. destruct (sessions w !! v); exact Hf.
  - unfold restart_session. destruct (sessions w !! v); exact Hf.
  - unfold end_session. destruct (sessions w !! v); exact Hf.
  - destruct (is_session_active_frame wall v w) as (_ & _ & Hc & _).
    unfold config in Hc. cbn zeta in Hc. congruence.
  - unfold add_message_to_history. destruct (sessions w !! v); exact Hf.
  - exact Hf.
  - destruct (pass_spec wall w) as (Hcfg & _). unfold config in Hcfg.
    injection Hcfg as _ _ ->. exact Hf.
  - exact Hf.
  - exact Hf.
  - cbn. eauto.
Qed.

Lemma process_keeps_sender (w : SessionManager) (m : inbound) :
  send_message_func (process_whatsapp_message wall str_lower m w) =
  send_message_func w.
Proof.
  assert (Hget : forall v w0, send_message_func (get_session wall v w0)
                              = send_message_func w0).
  { intros v w0. unfold get_session. destruct (sessions w0 !! v); reflexivity. }
  assert (Hadd : forall v r c w0,
            send_message_func (add_message_to_history wall v r c w0)
            = send_message_func w0).
  { intros v r c w0. unfold add_message_to_history.
    destruct (sessions w0 !! v); reflexivity. }
  assert (Hupd : forall v kw w0, send_message_func (update_session wall v kw w0)
                                 = send_message_func w0).
  { intros v kw w0. unfold update_session. destruct (sessions w0 !! v); reflexivity. }
  assert (Hres : forall v w0, send_message_func (restart_session wall v w0)
                              = send_message_func w0).
  { intros v w0. unfold restart_session. destruct (sessions w0 !! v); reflexivity. }
  unfold process_whatsapp_message.
  destruct (opt_str_eqb (msg_type m) (Some "text")); cbn [negb]; [| reflexivity].
  - destruct (text_body m) as [body |]; [| reflexivity].
    destruct (str_in (str_lower body) ["/restart"; "/reiniciar"]).
    + cbn [send_message_func deliver]. rewrite Hadd, Hres, Hadd, Hget. reflexivity.
    + destruct (sessions _ !! wa_id m) as [session |];
        [| rewrite Hadd, Hget; reflexivity].
      unfold route.
      destruct (String.eqb (state session) "INITIAL"
                && str_in (str_lower body) ["hola"; "hi"; "hello"]).
      { cbn [send_message_func deliver]. rewrite Hadd, Hupd, Hadd, Hget. reflexivity. }
      destruct (String.eqb (state session) "TICKET_CREATION").
      { destruct (context session !! "ticket_subject");
          cbn [send_message_func deliver]; rewrite Hadd, Hupd; cbn [send_message_func with_sessions];
          rewrite ?Hadd, Hget; reflexivity. }
      destruct (detect_ticket_intent str_lower body); cbn [andb negb].
      { cbn [send_message_func deliver]. rewrite Hadd, Hupd, Hadd, Hget. reflexivity. }
      rewrite Hadd, Hget. reflexivity.
Qed.

(** Every manager of the running application has its send function. *)
Lemma reachable_has_sender (w : SessionManager) :
  reachable wall str_lower w -> is_Some (send_message_func w).
Proof.
  induction 1 as [t wt file | w op _ IH | w m _ IH].
  - unfold init_whatsapp_config. destruct file; cbn; eauto.
  - apply exec_keeps_sender, IH.
  - rewrite process_keeps_sender. exact IH.
Qed.

(** *** A user without a session along a history *)

Lemma exec_absent (w : SessionManager) (op : store_op) (u : string) :
  sessions w !! u = None -> brings_back u op = false ->
  sessions (exec wall w op) !! u = None /\
  sent_to u (outbox (exec wall w op)) = sent_to u (outbox w).
Proof.
  intros Hu Hb.
  destruct op as [v | v kwargs | v | v | v | v r c | v lim | | | file | func];
    cbn [exec brings_back] in *.
  - apply String.eqb_neq in Hb. unfold get_session.
    destruct (sessions w !! v); cbn; rewrite lookup_insert_ne by exact Hb; auto.
  - unfold update_session. destruct (sessions w !! v) as [sv |] eqn:Hv; [| auto].
    cbn. rewrite lookup_insert_ne by congruence. auto.
  - unfold restart_session. destruct (sessions w !! v) as [sv |] eqn:Hv; [| auto].
    cbn. rewrite lookup_insert_ne by congruence. auto.
  - unfold end_session. destruct (sessions w !! v) as [sv |] eqn:Hv; [| auto].
    cbn. rewrite lookup_delete_ne by congruence. auto.
  - destruct (is_session_active_frame wall v w) as (Hs & Ho & _).
    cbn zeta in Hs, Ho. rewrite Hs, Ho. auto.
  - unfold add_message_to_history.
    destruct (sessions w !! v) as [sv |] eqn:Hv; [| auto].
    cbn. rewrite lookup_insert_ne by congruence. auto.
  - auto.
  - apply absent_pass, Hu.
  - auto.
  - unfold load_sessions. cbn. rewrite (load_items_other _ _ _ Hb). auto.
  - cbn. auto.
Qed.

Lemma run_absent (ops : list store_op) (w : SessionManager) (u : string) :
  sessions w !! u = None ->
  Forall (fun op => brings_back u op = false) ops ->
  sessions (run wall ops w) !! u = None /\
  sent_to u (outbox (run wall ops w)) = sent_to u (outbox w).
Proof.
  intros Hu Hops. revert w Hu.
  induction Hops as [| op ops Hop _ IH]; intros w Hu; [auto |].
  destruct (exec_absent w op u Hu Hop) as [Hu' Ho'].
  destruct (IH _ Hu') as [H1 H2].
  unfold run in *. cbn [fold_left]. split; [exact H1 | congruence].
Qed.

(** *** The warnings a history can deliver *)

Lemma exec_thresholds (w : SessionManager) (op : store_op) :
  session_timeout (exec wall w op) = session_timeout w /\
  inactivity_warning (exec wall w op) = inactivity_warning w.
Proof.
  destruct op as [v | v kwargs | v | v | v | v r c | v lim | | | file | func];
    cbn [exec].
  - unfold get_session. destruct (sessions w !! v); cbn; auto.
  - unfold update_session. destruct (sessions w !! v); cbn; auto.
  - unfold restart_session. destruct (sessions w !! v); cbn; auto.
  - unfold end_session. destruct (sessions w !! v); cbn; auto.
  - destruct (is_session_active_frame wall v w) as (_ & _ & Hc & _).
    unfold config in Hc. cbn zeta in Hc. split; congruence.
  - unfold add_message_to_history. destruct (sessions w !! v); cbn; auto.
  - auto.
  - destruct (pass_spec wall w) as (Hc & _).
    unfold config in Hc. cbn zeta in Hc. split; congruence.
  - auto.
  - cbn. auto.
  - cbn. auto.
Qed.

Lemma warning_message_thresholds (w w' : SessionManager) :
  session_timeout w' = session_timeout w ->
  inactivity_warning w' = inactivity_warning w ->
  warning_message w' = warning_message w.
Proof. unfold warning_message. intros -> ->. reflexivity. Qed.

Lemma warning_not_closing (w : SessionManager) :
  warning_message w <> closing_message.
Proof.
  intros H.
  apply (f_equal (fun x => match x with
                           | String c _ => nat_of_ascii c
                           | EmptyString => 0
                           end)) in H.
  unfold warning_message in H. rewrite append_cons in H.
  vm_compute in H. discriminate.
Qed.

Lemma sent_to_notices_at_most (w : SessionManager) (u text : string)
    (l : list string) :
  NoDup l ->
  sent_to u (notices w text l) = [] \/ sent_to u (notices w text l) = [(u, text)].
Proof.
  intros Hnd. destruct (send_message_func w) as [f |] eqn:Hf.
  - destruct (decide (u ∈ l)) as [Hin | Hnotin].
    + right. exact (sent_to_notices_in w f u text l Hf Hnd Hin).
    + left. apply sent_to_notices_notin, Hnotin.
  - left. unfold notices. rewrite Hf. reflexivity.
Qed.

Lemma armed_same (w w' : SessionManager) (u : string) :
  sessions w' !! u = sessions w !! u -> armed u w' <= armed u w.
Proof. unfold armed. intros ->. lia. Qed.

Lemma budget_frame (w w' : SessionManager) (u : string) :
  session_timeout w' = session_timeout w /\
  inactivity_warning w' = inactivity_warning w ->
  outbox w' = outbox w ->
  armed u w' <= armed u w ->
  warnings_to u w' + armed u w' <= warnings_to u w + armed u w.
Proof.
  intros [Ht Hi] Ho Ha. unfold warnings_to.
  rewrite (warning_message_thresholds _ _ Ht Hi), Ho. lia.
Qed.

(** A pass delivers a warning to a user only by spending a clear flag. *)
Lemma pass_warning_budget (w : SessionManager) (u : string) :
  warnings_to u (cleanup_pass wall w) + armed u (cleanup_pass wall w)
  <= warnings_to u w + armed u w.
Proof.
  destruct (pass_spec wall w) as (Hcfg & _ & Ho & Hs). cbn zeta in Hcfg, Ho, Hs.
  specialize (Hs u). set (t := wall (clock_reads w)) in *.
  assert (Hmsg : warning_message (cleanup_pass wall w) = warning_message w).
  { unfold config in Hcfg. apply warning_message_thresholds; congruence. }
  unfold warnings_to. rewrite Hmsg, Ho, !sent_to_app, !filter_app, !length_app.
  assert (Hcl : filter (fun p => snd p = warning_message w)
                  (sent_to u (notices w closing_message (users_to_close w t))) = []).
  { destruct (sent_to_notices_at_most w u closing_message (users_to_close w t))
      as [-> | ->]; [apply NoDup_filter_fst | reflexivity |].
    rewrite filter_cons_False; [reflexivity |].
    cbn. intros H. apply (warning_not_closing w). auto. }
  rewrite Hcl. cbn [length]. unfold armed.
  destruct (sessions w !! u) as [s |] eqn:Hu.
  - assert (Hnw : should_warn w t s = false ->
                  sent_to u (notices w (warning_message w) (users_to_warn w t)) = []).
    { intros Hw. apply sent_to_notices_notin. intros Hin.
      apply elem_users_to_warn in Hin as (s' & Hs' & Hw').
      rewrite Hu in Hs'. injection Hs' as <-. congruence. }
    destruct (should_close w t s) eqn:Hc.
    + rewrite Hs, Hnw by (unfold should_warn; rewrite Hc; reflexivity).
      cbn. lia.
    + destruct Hs as (extra & Hlook & _). rewrite Hlook.
      destruct (should_warn w t s) eqn:Hw.
      * assert (Hflag : inactivity_warning_sent s = false).
        { unfold should_warn in Hw. apply andb_true_iff in Hw as [_ Hw].
          apply andb_true_iff in Hw as [_ Hw]. apply negb_true_iff, Hw. }
        unfold marked. rewrite Hc, Hw, Hflag. cbn.
        destruct (sent_to_notices_at_most w u (warning_message w) (users_to_warn w t))
          as [-> | ->]; [apply NoDup_filter_fst | cbn; lia |].
        rewrite filter_cons_True by reflexivity. cbn. lia.
      * rewrite (Hnw eq_refl). unfold marked. rewrite Hc, Hw. cbn. lia.
  - rewrite Hs. rewrite sent_to_notices_notin; [cbn; lia |].
    intros Hin. apply elem_users_to_warn in Hin as (s' & Hs' & _). congruence.
Qed.

Lemma exec_warning_budget (w : SessionManager) (op : store_op) (u : string) :
  rearms u op = false ->
  warnings_to u (exec wall w op) + armed u (exec wall w op)
  <= warnings_to u w + armed u w.
Proof.
  intros Hr. pose proof (exec_thresholds w op) as Hth.
  unfold rearms, is_activity in Hr.
  destruct op as [v | v kwargs | v | v | v | v r c | v lim | | | file | func];
    cbn [exec] in *; rewrite ?orb_false_r in Hr; cbn [orb] in Hr.
  - apply String.eqb_neq in Hr.
    apply budget_frame; [exact Hth | |];
      [| apply armed_same]; unfold get_session;
      destruct (sessions w !! v); cbn; rewrite ?lookup_insert_ne by exact Hr;
      reflexivity.
  - apply String.eqb_neq in Hr.
    apply budget_frame; [exact Hth | |];
      [| apply armed_same]; unfold update_session;
      destruct (sessions w !! v); cbn; rewrite ?lookup_insert_ne by exact Hr;
      reflexivity.
  - apply String.eqb_neq in Hr.
    apply budget_frame; [exact Hth | |];
      [| apply armed_same]; unfold restart_session;
      destruct (sessions w !! v); cbn; rewrite ?lookup_insert_ne by exact Hr;
      reflexivity.
  - apply budget_frame; [exact Hth | |].
    + unfold end_session. destruct (sessions w !! v); reflexivity.
    + unfold armed, end_session. destruct (decide (v = u)) as [-> | Hne].
      * destruct (sessions w !! u) as [su |] eqn:Hu; cbn;
          [rewrite lookup_delete_eq; lia | rewrite Hu; lia].
      * destruct (sessions w !! v); cbn; rewrite ?lookup_delete_ne by exact Hne; lia.
  - destruct (is_session_active_frame wall v w) as (Hs & Ho & _).
    cbn zeta in Hs, Ho.
    apply budget_frame; [exact Hth | exact Ho | apply armed_same; rewrite Hs; reflexivity].
  - apply String.eqb_neq in Hr.
    apply budget_frame; [exact Hth | |];
      [| apply armed_same]; unfold add_message_to_history;
      destruct (sessions w !! v); cbn; rewrite ?lookup_insert_ne by exact Hr;
      reflexivity.
  - lia.
  - apply pass_warning_budget.
  - lia.
  - apply budget_frame; [exact Hth | reflexivity | apply armed_same].
    unfold load_sessions. cbn. apply load_items_other, Hr.
  - apply budget_frame; [exact Hth | reflexivity | apply armed_same; reflexivity].
Qed.

Lemma run_warning_budget (ops : list store_op) (w : SessionManager) (u : string) :
  Forall (fun op => rearms u op = false) ops ->
  warnings_to u (run wall ops w) + armed u (run wall ops w)
  <= warnings_to u w + armed u w.
Proof.
  intros Hops. revert w.
  induction Hops as [| op ops Hop _ IH]; intros w; [cbn; lia |].
  pose proof (exec_warning_budget w op u Hop) as H1.
  pose proof (IH (exec wall w op)) as H2.
  unfold run in *. cbn [fold_left]. lia.
Qed.

(** C1. In the running application, a session idle for at least
    [session_timeout] seconds whose closing notice has not been sent is
    closed by one pass of the sweeper: the pass delivers exactly one message
    to the user, the closing notice; the closing step finds the session in
    the store, appends the notice to its history and then deletes it; the
    user has no session afterwards, so [is_session_active] answers [False];
    however many passes follow, the user stays without a session and
    receives nothing more; and the same holds along every sequence of store
    operations that does not put a session under the user again, that is,
    one without a [get_session] for the user and without a [load_sessions]
    of a file that has a member for the user. *)
Theorem C1_sweeper_closure (w : SessionManager) (u : string) (s : session) :
  reachable wall str_lower w ->
  sessions w !! u = Some s ->
  closing_notice_sent s = false ->
  (session_timeout w * 1000000 <= inactive_us (wall (clock_reads w)) s)%Z ->
  let t := wall (clock_reads w) in
  let w' := cleanup_pass wall w in
  (exists new, outbox w' = outbox w ++ new /\
               sent_to u new = [(u, closing_message)]) /\
  (exists before after w_pre,
     users_to_close w t = before ++ u :: after /\
     w' = fold_left (fun w v => _close_inactive_session wall v w) after
            (_close_inactive_session wall u w_pre) /\
     sessions w_pre !! u = Some (set_closing_notice_sent true s) /\
     sessions (record_notice wall u closing_message
                 (notify u closing_message w_pre)) !! u =
       Some (with_notices
               [system_entry closing_message (wall (clock_reads w_pre))]
               (set_closing_notice_sent true s)) /\
     _close_inactive_session wall u w_pre =
       drop_session u (record_notice wall u closing_message
                         (notify u closing_message w_pre))) /\
  sessions w' !! u = None /\
  is_session_active wall u w' = (Ok false, w') /\
  (forall n,
     sessions (_cleanup_expired_sessions wall n w') !! u = None /\
     sent_to u (outbox (_cleanup_expired_sessions wall n w')) =
       sent_to u (outbox w')) /\
  (forall ops,
     Forall (fun op => brings_back u op = false) ops ->
     sessions (run wall ops w') !! u = None /\
     is_session_active wall u (run wall ops w') = (Ok false, run wall ops w') /\
     sent_to u (outbox (run wall ops w')) = sent_to u (outbox w')).
Proof.
  intros Hreach Hu Hflag Hidle.
  destruct (reachable_has_sender w Hreach) as [f Hf].
  pose proof (sweeper_closure wall w u s f Hf Hu Hflag Hidle) as H.
  cbn zeta in H. destruct H as (H1 & H2 & H3 & H4 & H5). cbn zeta.
  split; [exact H1 |]. split; [exact H2 |]. split; [exact H3 |].
  split; [exact H4 |]. split; [exact H5 |].
  intros ops Hops. destruct (run_absent ops _ u H3 Hops) as [Ha Hb].
  split; [exact Ha |]. split; [| exact Hb].
  unfold is_session_active. rewrite Ha. reflexivity.
Qed.

(** C2. In the running application with a timeout below [2^34] seconds,
    while a session's idle time lies between the warning threshold and the
    timeout at every reading of the clock the passes make, the sweeper
    delivers one inactivity warning whatever the number of passes: starting
    with the flag clear, [n + 1] passes deliver exactly one message to the
    user, the warning, and leave the flag set; starting with the flag set,
    [n] passes deliver nothing.  The flag is cleared by [get_session],
    [update_session] and [add_message_to_history] on that user.  Along
    every sequence of store operations without one of these three for the
    user, without a [restart_session] for the user and without a
    [load_sessions] of a file that has a member for the user, no warning is
    delivered to the user once the flag is set, and at most one while it is
    clear. *)
Theorem C2_warning_once (w : SessionManager) (u : string) (s : session) (n : nat) :
  reachable wall str_lower w ->
  sessions w !! u = Some s ->
  (0 <= session_timeout w < 2 ^ 34)%Z ->
  (forall k,
     clock_reads w <= k < clock_reads (_cleanup_expired_sessions wall (S n) w) ->
     (inactivity_warning w * 1000000 <= inactive_us (wall k) s
      < session_timeout w * 1000000)%Z) ->
  (inactivity_warning_sent s = false ->
     sent_to u (outbox (_cleanup_expired_sessions wall (S n) w)) =
       sent_to u (outbox w) ++ [(u, warning_message w)] /\
     exists s', sessions (_cleanup_expired_sessions wall (S n) w) !! u = Some s' /\
       inactivity_warning_sent s' = true /\
       last_activity s' = last_activity s) /\
  (inactivity_warning_sent s = true ->
     sent_to u (outbox (_cleanup_expired_sessions wall n w)) = sent_to u (outbox w) /\
     sessions (_cleanup_expired_sessions wall n w) !! u = Some s) /\
  (exists s', sessions (get_session wall u w) !! u = Some s' /\
     inactivity_warning_sent s' = false) /\
  (forall kwargs, exists s',
     sessions (update_session wall u kwargs w) !! u = Some s' /\
     inactivity_warning_sent s' = false) /\
  (forall role content, exists s',
     sessions (add_message_to_history wall u role content w) !! u = Some s' /\
     inactivity_warning_sent s' = false) /\
  (forall ops,
     Forall (fun op => rearms u op = false) ops ->
     warnings_to u (run wall ops w)
     <= warnings_to u w + (if inactivity_warning_sent s then 0 else 1)).
Proof.
  intros Hreach Hu Hbound Hidle.
  destruct (reachable_has_sender w Hreach) as [f Hf].
  destruct (warning_once wall w u s f n Hf Hu Hbound Hidle)
    as (H1 & H2 & H3 & H4 & H5).
  split; [exact H1 |]. split; [exact H2 |]. split; [exact H3 |].
  split; [exact H4 |]. split; [exact H5 |].
  intros ops Hops. pose proof (run_warning_budget ops w u Hops) as Hb.
  unfold armed in Hb at 2. rewrite Hu in Hb. lia.
Qed.

End ApplicationFacts.

(** ** The assistant's polling loop *)

Lemma no_exception_escapes (env : assistant_env) (message user_id : string)
    (user_name : option string) :
  generate_assistant_response env message user_id user_name <> Some Raise.
Proof.
  unfold generate_assistant_response.
  destruct (assistant_response_body env message user_id user_name) as [[a |] |];
    discriminate.
Qed.

Lemma poll_loop_timeout (start_time : Q) (waiting : list poll_obs)
    (late : poll_obs) (rest : list poll_obs) :
  Forall (still_waiting start_time) waiting ->
  (max_wait_time <= poll_clock late - start_time)%Q ->
  poll_loop start_time (waiting ++ late :: rest) = Some (Ok timeout_apology).
Proof.
  intros Hwait Hlate. induction Hwait as [| p waiting Hp _ IH].
  - cbn [app poll_loop].
    destruct (Qlt_le_dec (poll_clock late - start_time) max_wait_time) as [Hlt | _];
      [| reflexivity].
    exfalso. exact (Qlt_not_le _ _ Hlt Hlate).
  - destruct Hp as (Hclock & status & Hstatus & Hnc & Hnf).
    cbn [app poll_loop].
    destruct (Qlt_le_dec (poll_clock p - start_time) max_wait_time) as [_ | Hle].
    + rewrite Hstatus.
      destruct (String.eqb_spec status "completed") as [-> | _]; [congruence |].
      destruct (str_in status ["failed"; "cancelled"; "expired"]) eqn:Hin.
      * apply str_in_spec in Hin. contradiction.
      * exact IH.
    + exfalso. exact (Qlt_not_le _ _ Hclock Hle).
Qed.

(** C8. When the calls that set the run up succeed and every poll made
    within the 60 seconds answers a status that does not end the loop,
    [generate_assistant_response] returns the timeout apology; and on every
    execution whatsoever it returns a string, never an exception. *)
Theorem C8_polling_timeout (env : assistant_env) (message user_id : string)
    (user_name : option string) (assistant_id thread run_id : string)
    (waiting : list poll_obs) (late : poll_obs) (rest : list poll_obs) :
  env_client env = Ok tt ->
  env_assistant_id env = Some assistant_id ->
  assistant_id <> EmptyString ->
  env_thread env user_id = Ok thread ->
  env_post_message env thread (full_message user_name message) = Ok tt ->
  env_run env thread assistant_id = Ok run_id ->
  env_polls env = waiting ++ late :: rest ->
  Forall (still_waiting (env_start_time env)) waiting ->
  (max_wait_time <= poll_clock late - env_start_time env)%Q ->
  generate_assistant_response env message user_id user_name =
    Some (Ok timeout_apology) /\
  (forall env' message' user_id' user_name',
     generate_assistant_response env' message' user_id' user_name' <> Some Raise).
Proof.
  intros Hclient Hid Hne Hthread Hpost Hrun Hpolls Hwait Hlate.
  split; [| intros; apply no_exception_escapes].
  unfold generate_assistant_response, assistant_response_body.
  rewrite Hclient, Hid, Hthread, Hpost, Hrun, Hpolls.
  destruct assistant_id as [| c r]; [congruence |].
  rewrite (poll_loop_timeout _ _ _ _ Hwait Hlate). reflexivity.
Qed.

(** ** The subscription check *)

Lemma truthy_spec (o : option string) :
  truthy o = true <-> exists x, o = Some x /\ x <> EmptyString.
Proof.
  destruct o as [[| c r] |]; cbn; split; try discriminate.
  - intros (x & [= <-] & Hx). congruence.
  - intros _. eexists. split; [reflexivity | discriminate].
  - intros _. reflexivity.
  - intros (x & Hx & _). discriminate.
Qed.

(** C9, amended. [verify_webhook] answers the challenge with status 200
    when mode and token are both supplied and non-empty, the mode is
    [subscribe] and the token equals the configured secret; it answers 403
    when both are supplied and non-empty but the mode is another one or the
    token differs from the secret; and it answers 400 when the mode or the
    token is missing or empty. *)
Theorem C9_verify_webhook (verify_token : option string) (request : verify_request) :
  (forall mode token,
     hub_mode request = Some mode -> hub_verify_token request = Some token ->
     mode <> EmptyString -> token <> EmptyString ->
     (mode = "subscribe" /\ verify_token = Some token ->
        verify_webhook verify_token request = (hub_challenge request, 200%Z)) /\
     (~ (mode = "subscribe" /\ verify_token = Some token) ->
        verify_webhook verify_token request = (Some "Forbidden", 403%Z))) /\
  (truthy (hub_mode request) = false \/ truthy (hub_verify_token request) = false ->
     verify_webhook verify_token request = (Some "Bad Request", 400%Z)).
Proof.
  split.
  - intros mode token Hmode Htoken Hm Ht.
    assert (Htm : truthy (hub_mode request) = true)
      by (apply truthy_spec; eauto).
    assert (Htt : truthy (hub_verify_token request) = true)
      by (apply truthy_spec; eauto).
    unfold verify_webhook. rewrite Htm, Htt, Hmode, Htoken. cbn [andb opt_str_eqb].
    split.
    + intros [-> ->]. cbn [opt_str_eqb]. rewrite !String.eqb_refl. reflexivity.
    + intros Hno.
      destruct (String.eqb_spec mode "subscribe") as [-> | Hne]; [| reflexivity].
      destruct verify_token as [secret |]; cbn [andb opt_str_eqb]; [| reflexivity].
      destruct (String.eqb_spec token secret) as [-> | Hne]; [| reflexivity].
      exfalso. apply Hno. auto.
  - intros Hmissing. unfold verify_webhook.
    destruct Hmissing as [-> | ->]; [reflexivity |].
    rewrite andb_false_r. reflexivity.
Qed.

(** ** Counterexamples to the claims as first stated *)

(** C1 as stated fails: a closing notice is sent again for the same
    inactivity period when the session comes back from the sessions file.
    The file was written while the session was in the store; the pass
    closes the session and delivers the closing notice; [load_sessions]
    restores the session with the [last_activity] it had, and the next pass
    delivers a second closing notice. *)
Lemma C1_counterexample :
  let wall := stopped_clock (after_noon 10 0) in
  let u := "34600111222" in
  let w' := cleanup_pass wall sample_started in
  let restored := load_sessions sample_file w' in
  reachable wall ascii_lower sample_started /\
  sessions sample_started !! u = Some sample_session /\
  closing_notice_sent sample_session = false /\
  (session_timeout sample_started * 1000000
   <= inactive_us (wall (clock_reads sample_started)) sample_session)%Z /\
  sent_to u (outbox w') = [(u, closing_message)] /\
  last_activity <$> sessions restored !! u = Some (last_activity sample_session) /\
  sent_to u (outbox (cleanup_pass wall restored)) =
    [(u, closing_message); (u, closing_message)] /\
  sent_to u (outbox (cleanup_pass wall restored)) <> sent_to u (outbox w').
Proof.
  cbn zeta. split; [apply reach_start |].
  split; [vm_compute; reflexivity |]. split; [reflexivity |].
  split; [vm_compute; discriminate |]. split; [vm_compute; reflexivity |].
  split; [vm_compute; reflexivity |]. split; [vm_compute; reflexivity |].
  vm_compute. discriminate.
Qed.

(** C2 as stated fails: a second warning is delivered without any
    [get_session], [update_session] or [add_message_to_history] for the
    user.  In the first history the session is restored from the sessions
    file after the first warning, with the same [last_activity] and a clear
    flag, while the idle time is between the two thresholds at every reading
    of the clock; in the second the session is restarted after the first
    warning and reaches the warning threshold again. *)
Lemma C2_counterexample :
  let u := "34600111222" in
  let restore := [OpCleanupPass; OpLoadSessions sample_file; OpCleanupPass] in
  let restart := [OpCleanupPass; OpRestartSession u] ++ repeat OpCleanupPass 10 in
  let warning := (u, warning_message sample_started) in
  reachable sweeper_clock ascii_lower sample_started /\
  sessions sample_started !! u = Some sample_session /\
  inactivity_warning_sent sample_session = false /\
  forallb (fun op => negb (is_activity u op)) restore = true /\
  forallb (fun op => negb (is_activity u op)) restart = true /\
  clock_reads (run sweeper_clock restore sample_started) = 4 /\
  forallb (fun k =>
             (inactivity_warning sample_started * 1000000
              <=? inactive_us (sweeper_clock k) sample_session)%Z
             && (inactive_us (sweeper_clock k) sample_session
                 <? session_timeout sample_started * 1000000)%Z)
          (seq 0 4) = true /\
  sent_to u (outbox (run sweeper_clock restore sample_started)) =
    [warning; warning] /\
  last_activity <$> sessions (run sweeper_clock restore sample_started) !! u =
    Some (last_activity sample_session) /\
  warnings_to u (run sweeper_clock restore sample_started) = 2 /\
  sent_to u (outbox (run sweeper_clock restart sample_started)) =
    [warning; warning] /\
  warnings_to u (run sweeper_clock restart sample_started) = 2.
Proof.
  cbn zeta. split; [apply reach_start |].
  split; [vm_compute; reflexivity |]. split; [reflexivity |].
  split; [vm_compute; reflexivity |]. split; [vm_compute; reflexivity |].
  split; [vm_compute; reflexivity |]. split; [vm_compute; reflexivity |].
  split; [vm_compute; reflexivity |]. split; [vm_compute; reflexivity |].
  split; [vm_compute; reflexivity |]. split; [vm_compute; reflexivity |].
  vm_compute. reflexivity.
Qed.

(** C6 as stated fails: [update_session] assigns any key of the session, so
    a call carrying [meta] changes the counter.  The user's session is
    created, never removed and never appended to, and the counter reads 7. *)
Lemma C6_counterexample :
  let ops := [ OpGetSession "34600111222";
               OpUpdateSession "34600111222" [Kmeta (Meta (Some 7%Z) (Some 0%Z))] ] in
  let w := run sample_wall ops (init 600 300) in
  survives sample_wall "34600111222" (tail ops)
           (exec sample_wall (init 600 300) (OpGetSession "34600111222")) = true /\
  count_appends "34600111222" ops = 0%Z /\
  message_count "34600111222" w = Some 7%Z /\
  message_count "34600111222" w <> Some (count_appends "34600111222" ops).
Proof.
  cbn zeta. split; [reflexivity |]. split; [reflexivity |].
  split; [reflexivity | discriminate].
Qed.

(** C9 as stated fails: a request without a verify token does not match the
    secret, and the answer is 400, not 403. *)
Lemma C9_counterexample :
  let request := VerifyRequest (Some "subscribe") None (Some "1158201444") in
  hub_verify_token request <> Some "secret" /\
  verify_webhook (Some "secret") request = (Some "Bad Request", 400%Z) /\
  snd (verify_webhook (Some "secret") request) <> 403%Z.
Proof.
  cbn zeta. split; [discriminate |]. split; [reflexivity | discriminate].
Qed.

(** ** The theorems at sample inputs *)

Lemma C1_sweeper_closure_witness :
  let wall := stopped_clock (after_noon 10 0) in
  let u := "34600111222" in
  let w' := cleanup_pass wall sample_started in
  let ops := [ OpCleanupPass; OpAddMessage u "user" "hola";
               OpLoadSessions []; OpIsSessionActive u ] in
  (reachable wall ascii_lower sample_started /\
   sessions sample_started !! u = Some sample_session /\
   closing_notice_sent sample_session = false /\
   (session_timeout sample_started * 1000000
    <= inactive_us (wall (clock_reads sample_started)) sample_session)%Z) /\
  (exists new, outbox w' = outbox sample_started ++ new /\
               sent_to u new = [(u, closing_message)]) /\
  sessions w' !! u = None /\
  is_session_active wall u w' = (Ok false, w') /\
  Forall (fun op => brings_back u op = false) ops /\
  sessions (run wall ops w') !! u = None /\
  sent_to u (outbox (run wall ops w')) = sent_to u (outbox w').
Proof.
  cbn zeta.
  assert (H1 : reachable (stopped_clock (after_noon 10 0)) ascii_lower sample_started)
    by apply reach_start.
  assert (H2 : sessions sample_started !! "34600111222" = Some sample_session)
    by (vm_compute; reflexivity).
  assert (H3 : closing_notice_sent sample_session = false) by reflexivity.
  assert (H4 : (session_timeout sample_started * 1000000
                <= inactive_us (stopped_clock (after_noon 10 0)
                                  (clock_reads sample_started)) sample_session)%Z)
    by (vm_compute; discriminate).
  assert (H5 : Forall (fun op => brings_back "34600111222" op = false)
                 [ OpCleanupPass; OpAddMessage "34600111222" "user" "hola";
                   OpLoadSessions []; OpIsSessionActive "34600111222" ])
    by (repeat constructor).
  destruct (C1_sweeper_closure (stopped_clock (after_noon 10 0)) ascii_lower
              sample_started "34600111222" sample_session H1 H2 H3 H4)
    as (Hsent & _ & Hgone & Hactive & _ & Hlater).
  destruct (Hlater _ H5) as (Ha & _ & Hb).
  split; [split; [exact H1 | split; [exact H2 | split; [exact H3 | exact H4]]] |].
  split; [exact Hsent |]. split; [exact Hgone |]. split; [exact Hactive |].
  split; [exact H5 |]. split; [exact Ha | exact Hb].
Defined.

Lemma C2_warning_once_witness :
  let u := "34600111222" in
  let w_end := _cleanup_expired_sessions sweeper_clock 4 sample_started in
  let ops := [ OpCleanupPass; OpCleanupPass; OpIsSessionActive u;
               OpGetSession "34600999888"; OpCleanupPass ] in
  (reachable sweeper_clock ascii_lower sample_started /\
   sessions sample_started !! u = Some sample_session /\
   (0 <= session_timeout sample_started < 2 ^ 34)%Z /\
   (forall k, clock_reads sample_started <= k < clock_reads w_end ->
      (inactivity_warning sample_started * 1000000
       <= inactive_us (sweeper_clock k) sample_session
       < session_timeout sample_started * 1000000)%Z)) /\
  sent_to u (outbox w_end) =
    sent_to u (outbox sample_started) ++ [(u, warning_message sample_started)] /\
  Forall (fun op => rearms u op = false) ops /\
  warnings_to u (run sweeper_clock ops sample_started)
  <= warnings_to u sample_started + 1.
Proof.
  cbn zeta.
  assert (H1 : reachable sweeper_clock ascii_lower sample_started)
    by apply reach_start.
  assert (H2 : sessions sample_started !! "34600111222" = Some sample_session)
    by (vm_compute; reflexivity).
  assert (H0 : (0 <= session_timeout sample_started < 2 ^ 34)%Z)
    by (vm_compute; split; [discriminate | reflexivity]).
  assert (H3 : forall k,
            clock_reads sample_started
            <= k < clock_reads (_cleanup_expired_sessions sweeper_clock 4
                                  sample_started) ->
            (inactivity_warning sample_started * 1000000
             <= inactive_us (sweeper_clock k) sample_session
             < session_timeout sample_started * 1000000)%Z).
  { assert (Hend : clock_reads (_cleanup_expired_sessions sweeper_clock 4
                                  sample_started) = 5)
      by (vm_compute; reflexivity).
    rewrite Hend. intros k [_ Hk].
    do 5 (destruct k as [| k]; [vm_compute; split; [discriminate | reflexivity] |]).
    lia. }
  assert (H4 : Forall (fun op => rearms "34600111222" op = false)
                 [ OpCleanupPass; OpCleanupPass; OpIsSessionActive "34600111222";
                   OpGetSession "34600999888"; OpCleanupPass ])
    by (repeat constructor).
  destruct (C2_warning_once sweeper_clock ascii_lower sample_started
              "34600111222" sample_session 3 H1 H2 H0 H3)
    as (Hfirst & _ & _ & _ & _ & Hlater).
  destruct (Hfirst eq_refl) as [Hsent _].
  split; [split; [exact H1 | split; [exact H2 | split; [exact H0 | exact H3]]] |].
  split; [exact Hsent |]. split; [exact H4 |]. exact (Hlater _ H4).
Defined.

Lemma C3_restart_preserves_count_witness :
  sessions sample_manager !! "34600111222" = Some sample_session /\
  exists s', sessions (restart_session sample_wall "34600111222" sample_manager)
               !! "34600111222" = Some s' /\
    meta_get (total_messages (meta s')) = 2%Z /\
    meta_get (session_restarts (meta s')) = 1%Z /\
    context s' = ∅ /\ state s' = "INITIAL".
Proof.
  assert (H : sessions sample_manager !! "34600111222" = Some sample_session)
    by reflexivity.
  split; [exact H |].
  exact (C3_restart_preserves_count sample_wall sample_manager "34600111222"
           sample_session H).
Defined.

Lemma C6_message_count_witness :
  let u := "34600111222" in
  let ops := [ OpAddMessage u "user" "hola"; OpCleanupPass;
               OpUpdateSession u [Kstate "AWAITING_QUERY"];
               OpAddMessage u "assistant" "¡Hola!"; OpRestartSession u;
               OpIsSessionActive u; OpAddMessage u "user" "gracias" ] in
  let w := get_session sample_wall u (init 600 300) in
  (message_count u w = Some 0%Z /\
   survives sample_wall u ops w = true /\
   forallb (fun op => negb (writes_meta u op)) ops = true) /\
  message_count u (run sample_wall ops w) = Some 3%Z.
Proof.
  cbn zeta.
  split; [repeat split; vm_compute; reflexivity |].
  refine (C6_message_count sample_wall _ _ "34600111222" 0%Z _ _ _);
    vm_compute; reflexivity.
Defined.

Lemma C7_ticket_intent_witness :
  let w' := process_whatsapp_message sample_wall ascii_lower sample_inbound
              (init 600 300) in
  (msg_type sample_inbound = Some "text" /\
   text_body sample_inbound = Some "Tengo un ERROR en la factura" /\
   (exists kw a b, In kw ticket_keywords /\
      ascii_lower "Tengo un ERROR en la factura" = a +:+ kw +:+ b) /\
   (forall s, sessions (init 600 300) !! wa_id sample_inbound = Some s ->
      state s <> "TICKET_CREATION")) /\
  (exists s', sessions w' !! wa_id sample_inbound = Some s' /\
     state s' = "TICKET_CREATION" /\ context s' = ∅) /\
  outbox w' = outbox (init 600 300) ++ [(wa_id sample_inbound, ticket_prompt)].
Proof.
  cbn zeta.
  assert (H1 : msg_type sample_inbound = Some "text") by reflexivity.
  assert (H2 : text_body sample_inbound = Some "Tengo un ERROR en la factura")
    by reflexivity.
  assert (H3 : exists kw a b, In kw ticket_keywords /\
            ascii_lower "Tengo un ERROR en la factura" = a +:+ kw +:+ b).
  { exists "error", "tengo un ", " en la factura".
    split; [right; left; reflexivity | reflexivity]. }
  assert (H4 : forall s, sessions (init 600 300) !! wa_id sample_inbound = Some s ->
            state s <> "TICKET_CREATION").
  { intros s Hs. discriminate Hs. }
  split; [auto |].
  exact (C7_ticket_intent sample_wall ascii_lower (init 600 300) sample_inbound
           _ H1 H2 H3 H4).
Defined.

Lemma C8_polling_timeout_witness :
  let waiting := [sample_poll 100 "queued"; sample_poll 131 "in_progress"] in
  let late := sample_poll 161 "in_progress" in
  (env_client sample_env = Ok tt /\
   env_assistant_id sample_env = Some "asst_1" /\
   "asst_1" <> EmptyString /\
   env_thread sample_env "34600111222" = Ok "thread_1" /\
   env_post_message sample_env "thread_1" (full_message (Some "Ana") "hola") = Ok tt /\
   env_run sample_env "thread_1" "asst_1" = Ok "run_1" /\
   env_polls sample_env = waiting ++ late :: [] /\
   Forall (still_waiting (env_start_time sample_env)) waiting /\
   (max_wait_time <= poll_clock late - env_start_time sample_env)%Q) /\
  generate_assistant_response sample_env "hola" "34600111222" (Some "Ana") =
    Some (Ok timeout_apology).
Proof.
  cbn zeta.
  assert (Hne : "asst_1" <> EmptyString) by discriminate.
  assert (Hwait : Forall (still_waiting (env_start_time sample_env))
                    [sample_poll 100 "queued"; sample_poll 131 "in_progress"]).
  { repeat constructor.
    - eexists. split; [reflexivity |]. split; [discriminate |].
      cbn. intros [H | [H | [H | []]]]; discriminate.
    - eexists. split; [reflexivity |]. split; [discriminate |].
      cbn. intros [H | [H | [H | []]]]; discriminate. }
  assert (Hlate : (max_wait_time
                   <= poll_clock (sample_poll 161 "in_progress")
                      - env_start_time sample_env)%Q)
    by (vm_compute; discriminate).
  split; [repeat split; try reflexivity; assumption |].
  exact (proj1 (C8_polling_timeout sample_env "hola" "34600111222" (Some "Ana")
                  "asst_1" "thread_1" "run_1"
                  [sample_poll 100 "queued"; sample_poll 131 "in_progress"]
                  (sample_poll 161 "in_progress") [] eq_refl eq_refl Hne eq_refl
                  eq_refl eq_refl eq_refl Hwait Hlate)).
Defined.

Lemma C10_notice_frame_witness :
  let u := "34600111222" in
  sessions sample_manager !! u = Some sample_session /\
  exists e s', sessions (_send_inactivity_warning sample_wall u sample_manager) !! u
                 = Some s' /\
    message_history s' = message_history sample_session ++ [e] /\
    is_system e /\
    last_activity s' = last_activity sample_session /\
    inactivity_warning_sent s' = inactivity_warning_sent sample_session /\
    closing_notice_sent s' = closing_notice_sent sample_session /\
    meta s' = meta sample_session.
Proof.
  cbn zeta.
  assert (H : sessions sample_manager !! "34600111222" = Some sample_session)
    by reflexivity.
  split; [exact H |].
  destruct (C10_notice_frame sample_wall sample_manager "34600111222"
              sample_session H) as ((e & s' & Hs & Hh & Hsys & _ & Hl & Hw & Hc & Hm & _) & _).
  exists e, s'. repeat split; try assumption; apply Hsys.
Defined.

Lemma C9_verify_webhook_witness :
  let ok := VerifyRequest (Some "subscribe") (Some "secret") (Some "1158201444") in
  let wrong := VerifyRequest (Some "subscribe") (Some "guess") (Some "1158201444") in
  let bare := VerifyRequest None None (Some "1158201444") in
  verify_webhook (Some "secret") ok = (Some "1158201444", 200%Z) /\
  verify_webhook (Some "secret") wrong = (Some "Forbidden", 403%Z) /\
  verify_webhook (Some "secret") bare = (Some "Bad Request", 400%Z).
Proof.
  cbn zeta. split; [| split].
  - apply (proj1 (C9_verify_webhook (Some "secret")
                    (VerifyRequest (Some "subscribe") (Some "secret")
                                   (Some "1158201444")))
             "subscribe" "secret" eq_refl eq_refl); [discriminate | discriminate |].
    split; reflexivity.
  - apply (proj1 (C9_verify_webhook (Some "secret")
                    (VerifyRequest (Some "subscribe") (Some "guess")
                                   (Some "1158201444")))
             "subscribe" "guess" eq_refl eq_refl); [discriminate | discriminate |].
    intros [_ H]. discriminate H.
  - apply (proj2 (C9_verify_webhook (Some "secret")
                    (VerifyRequest None None (Some "1158201444")))).
    left. reflexivity.
Defined.

(** ** The definitions at sample inputs *)

Example isoformat_whole_second : isoformat noon = "2025-02-28T12:00:00".
Proof. reflexivity. Qed.

Example isoformat_with_fraction :
  isoformat <$> datetime_of (DateFields 2025 2 28 18 59 18 250) =
  Some "2025-02-28T18:59:18.000250".
Proof. reflexivity. Qed.

Example fromisoformat_rejects_february_30 :
  fromisoformat "2025-02-30T10:00:00" = None.
Proof. reflexivity. Qed.

Example seconds_between : (to_us (after_noon 10 0) - to_us noon = 600 * 1000000)%Z.
Proof. reflexivity. Qed.

Example warning_text :
  warning_message sample_manager =
  "¿Sigues ahí? Tu sesión se cerrará por inactividad en 5 minutos.".
Proof. reflexivity. Qed.

Example slice_last_one :
  get_message_history "34600111222" 1 sample_manager = drop 1 sample_entries.
Proof. reflexivity. Qed.

Example slice_more_than_held :
  get_message_history "34600111222" 10 sample_manager = sample_entries.
Proof. reflexivity. Qed.

Example process_text_sample :
  process_text_for_whatsapp "  ver **esto** en [la guía](https://e.x/g) 【4:0†src】 "
  = "ver *esto* en la guía: https://e.x/g".
Proof. vm_compute. reflexivity. Qed.

Example detect_upper_case : detect_ticket_intent ascii_lower "No Funciona nada" = true.
Proof. reflexivity. Qed.

Example detect_greeting : detect_ticket_intent ascii_lower "hello" = false.
Proof. reflexivity. Qed.

(** A pass ten minutes after the last activity closes the sample session. *)
Example pass_closes :
  let w' := cleanup_pass (stopped_clock (after_noon 10 0)) sample_manager in
  outbox w' = [("34600111222", closing_message)] /\ sessions w' = ∅.
Proof. split; vm_compute; reflexivity. Qed.

(** A manager built without start-up has no send function: the same pass
    closes the session silently. *)
Example pass_closes_silently :
  let w := Manager (sessions sample_manager) 600 300 None [] 0 in
  let w' := cleanup_pass (stopped_clock (after_noon 10 0)) w in
  outbox w' = [] /\ sessions w' = ∅.
Proof. split; vm_compute; reflexivity. Qed.

(** The last branch of the router raises: the message is recorded and no
    reply is delivered. *)
Example router_fallback :
  let m := Inbound "34600111222" "Ana" (Some "text") (Some "¿qué hora es?") in
  let w' := process_whatsapp_message sample_wall ascii_lower m sample_manager in
  outbox w' = [] /\
  (length <$> (message_history <$> sessions w' !! "34600111222")) = Some 3.
Proof. split; vm_compute; reflexivity. Qed.

(** * Further properties *)

(** ** Further properties of the session store *)

Section StoreMore.

Variable wall : nat -> datetime.
Variable str_lower : string -> string.

Lemma get_session_other (w : SessionManager) (u v : string) :
  u <> v -> sessions (get_session wall u w) !! v = sessions w !! v.
Proof.
  intros Hne. unfold get_session.
  destruct (sessions w !! u); cbn; apply lookup_insert_ne, Hne.
Qed.

Lemma update_session_other (w : SessionManager) (u v : string) (kwargs : list kwarg) :
  u <> v -> sessions (update_session wall u kwargs w) !! v = sessions w !! v.
Proof.
  intros Hne. unfold update_session.
  destruct (sessions w !! u); cbn; [apply lookup_insert_ne, Hne | reflexivity].
Qed.

Lemma restart_session_other (w : SessionManager) (u v : string) :
  u <> v -> sessions (restart_session wall u w) !! v = sessions w !! v.
Proof.
  intros Hne. unfold restart_session.
  destruct (sessions w !! u); cbn; [apply lookup_insert_ne, Hne | reflexivity].
Qed.

Lemma end_session_other (w : SessionManager) (u v : string) :
  u <> v -> sessions (end_session u w) !! v = sessions w !! v.
Proof.
  intros Hne. unfold end_session.
  destruct (sessions w !! u); cbn; [apply lookup_delete_ne, Hne | reflexivity].
Qed.

Lemma add_message_other (w : SessionManager) (u v r c : string) :
  u <> v -> sessions (add_message_to_history wall u r c w) !! v = sessions w !! v.
Proof.
  intros Hne. unfold add_message_to_history.
  destruct (sessions w !! u); cbn; [apply lookup_insert_ne, Hne | reflexivity].
Qed.

Lemma process_other (w : SessionManager) (m : inbound) (v : string) :
  wa_id m <> v ->
  sessions (process_whatsapp_message wall str_lower m w) !! v = sessions w !! v.
Proof.
  intros Hne. unfold process_whatsapp_message.
  destruct (opt_str_eqb (msg_type m) (Some "text")); cbn [negb]; [| reflexivity].
  destruct (text_body m) as [body |]; [| reflexivity].
  set (w1 := add_message_to_history wall (wa_id m) "user" body
               (get_session wall (wa_id m) w)).
  assert (H1 : sessions w1 !! v = sessions w !! v).
  { unfold w1. rewrite add_message_other, get_session_other by exact Hne. reflexivity. }
  destruct (str_in (str_lower body) ["/restart"; "/reiniciar"]).
  - cbn [sessions deliver].
    rewrite add_message_other, restart_session_other by exact Hne. exact H1.
  - destruct (sessions w1 !! wa_id m) as [session |]; [| exact H1].
    unfold route.
    destruct (String.eqb (state session) "INITIAL"
              && str_in (str_lower body) ["hola"; "hi"; "hello"]).
    { cbn [sessions deliver].
      rewrite add_message_other, update_session_other by exact Hne. exact H1. }
    destruct (String.eqb (state session) "TICKET_CREATION").
    { destruct (context session !! "ticket_subject");
        cbn [sessions deliver];
        rewrite add_message_other, update_session_other by exact Hne;
        cbn [sessions with_sessions]; rewrite ?lookup_insert_ne by exact Hne;
        exact H1. }
    destruct (detect_ticket_intent str_lower body); cbn [andb negb].
    { cbn [sessions deliver].
      rewrite add_message_other, update_session_other by exact Hne. exact H1. }
    exact H1.
Qed.

(** X1. The operations on one user's session, and the handling of an
    inbound message from that user, leave the session of every other user
    as it is. *)
Theorem X1_other_users_untouched (w : SessionManager) (u v : string) :
  u <> v ->
  sessions (get_session wall u w) !! v = sessions w !! v /\
  (forall kwargs, sessions (update_session wall u kwargs w) !! v = sessions w !! v) /\
  sessions (restart_session wall u w) !! v = sessions w !! v /\
  sessions (end_session u w) !! v = sessions w !! v /\
  (forall r c, sessions (add_message_to_history wall u r c w) !! v = sessions w !! v) /\
  (forall m, wa_id m = u ->
     sessions (process_whatsapp_message wall str_lower m w) !! v = sessions w !! v).
Proof.
  intros Hne. repeat split.
  - apply get_session_other, Hne.
  - intros kwargs. apply update_session_other, Hne.
  - apply restart_session_other, Hne.
  - apply end_session_other, Hne.
  - intros r c. apply add_message_other, Hne.
  - intros m <-. apply process_other, Hne.
Qed.

(** X2. [is_session_active] and the sweeper draw the same line while the
    timeout is below [2^34] seconds: for a user who has a session whose
    expiration time is a [datetime], the call reads the clock once and
    answers [True] exactly when a scan reading the same clock value would
    not find the session past [session_timeout].  When the expiration time
    lies outside the years 1 to 9999 the call raises [OverflowError] and
    does not read the clock.  A user without a session, in particular one
    whose session was ended, is not active. *)
Theorem X2_active_iff_not_timed_out (w : SessionManager) (u : string) :
  (forall s, sessions w !! u = Some s ->
     (plus_seconds (last_activity s) (session_timeout w) = None ->
        is_session_active wall u w = (Raise, w)) /\
     (is_Some (plus_seconds (last_activity s) (session_timeout w)) ->
      (0 <= session_timeout w < 2 ^ 34)%Z ->
        is_session_active wall u w =
          (Ok (negb (reached (session_timeout w) (wall (clock_reads w)) s)),
           snd (now wall w)))) /\
  (sessions w !! u = None -> is_session_active wall u w = (Ok false, w)) /\
  is_session_active wall u (end_session u w) = (Ok false, end_session u w).
Proof.
  split; [| split].
  - intros s Hu. unfold is_session_active. rewrite Hu. split.
    + intros ->. reflexivity.
    + intros [e He] Hbound. rewrite He. cbn. f_equal. f_equal.
      rewrite (reached_exact _ _ _ Hbound). unfold inactive_us.
      unfold plus_seconds in He.
      destruct ((to_us datetime_min <=? to_us (last_activity s) + session_timeout w * 1000000)%Z
                && (to_us (last_activity s) + session_timeout w * 1000000 <=? to_us datetime_max)%Z);
        [| discriminate].
      injection He as <-.
      destruct (Z.ltb_spec (to_us (wall (clock_reads w)))
                  (to_us (last_activity s) + session_timeout w * 1000000));
        destruct (Z.leb_spec (session_timeout w * 1000000)
                    (to_us (wall (clock_reads w)) - to_us (last_activity s)));
        cbn; try reflexivity; lia.
  - intros Hu. unfold is_session_active. rewrite Hu. reflexivity.
  - unfold is_session_active, end_session.
    destruct (sessions w !! u) eqn:Hu; cbn.
    + rewrite lookup_delete_eq. reflexivity.
    + rewrite Hu. reflexivity.
Qed.

(** X3. For a user without a session, [update_session], [restart_session],
    [end_session] and [add_message_to_history] do nothing at all: no session
    is created and the clock is not read.  A message appended before the
    session exists is therefore lost: the session [get_session] creates
    afterwards has an empty history and a counter of 0. *)
Theorem X3_absent_user_noop (w : SessionManager) (u : string) :
  sessions w !! u = None ->
  (forall kwargs, update_session wall u kwargs w = w) /\
  restart_session wall u w = w /\
  end_session u w = w /\
  (forall r c, add_message_to_history wall u r c w = w) /\
  (forall r c, exists s,
     sessions (get_session wall u (add_message_to_history wall u r c w)) !! u
       = Some s /\
     message_history s = [] /\ meta s = Meta (Some 0%Z) (Some 0%Z) /\
     state s = "INITIAL").
Proof.
  intros Hu.
  assert (Hadd : forall r c, add_message_to_history wall u r c w = w).
  { intros r c. unfold add_message_to_history. rewrite Hu. reflexivity. }
  repeat split.
  - intros kwargs. unfold update_session. rewrite Hu. reflexivity.
  - unfold restart_session. rewrite Hu. reflexivity.
  - unfold end_session. rewrite Hu. reflexivity.
  - exact Hadd.
  - intros r c. rewrite Hadd. unfold get_session. rewrite Hu. cbn.
    rewrite lookup_insert_eq. eexists. repeat split.
Qed.

End StoreMore.

Section HistoryMore.

Variable wall : nat -> datetime.

Lemma conversation_app (h1 h2 : list history_entry) :
  conversation (h1 ++ h2) = conversation h1 ++ conversation h2.
Proof. unfold conversation. rewrite filter_app, map_app. reflexivity. Qed.

Lemma conversation_system (extra : list history_entry) :
  Forall is_system extra -> conversation extra = [].
Proof.
  induction 1 as [| e extra [_ He] _ IH]; [reflexivity |].
  unfold conversation. rewrite filter_cons_False by (rewrite He; discriminate).
  exact IH.
Qed.

Lemma apply_kwargs_history (kwargs : list kwarg) : forall s : session,
  existsb is_Kmessage_history kwargs = false ->
  message_history (fold_left apply_kwarg kwargs s) = message_history s.
Proof.
  induction kwargs as [| k kwargs IH]; intros s Hno; [reflexivity |].
  cbn [existsb] in Hno. apply orb_false_iff in Hno as [Hk Hno].
  cbn [fold_left]. rewrite IH by exact Hno.
  destruct k; try reflexivity. discriminate.
Qed.

(** One operation that keeps the session of [u] and does not assign its
    history anew only adds entries at the end. *)
Lemma exec_history (w : SessionManager) (op : store_op) (u : string)
    (s s' : session) :
  sessions w !! u = Some s ->
  sessions (exec wall w op) !! u = Some s' ->
  rewrites_history u op = false ->
  exists extra, message_history s' = message_history s ++ extra /\
    conversation extra = appended u [op].
Proof.
  intros Hu Hu' Hw.
  assert (Hsame : s' = s -> appended u [op] = [] ->
            exists extra, message_history s' = message_history s ++ extra /\
              conversation extra = appended u [op]).
  { intros -> ->. exists []. rewrite app_nil_r. auto. }
  destruct op as [v | v kwargs | v | v | v | v r c | v lim | | | file | func];
    cbn [exec rewrites_history] in *.
  - unfold get_session in Hu'.
    destruct (decide (v = u)) as [-> | Hne].
    + rewrite Hu in Hu'. cbn in Hu'. rewrite lookup_insert_eq in Hu'.
      injection Hu' as <-. exists []. rewrite app_nil_r. auto.
    + apply Hsame; [| reflexivity].
      destruct (sessions w !! v); cbn in Hu';
        rewrite lookup_insert_ne in Hu' by exact Hne; congruence.
  - unfold update_session in Hu'.
    destruct (decide (v = u)) as [-> | Hne].
    + rewrite String.eqb_refl in Hw. cbn in Hw.
      rewrite Hu in Hu'. cbn in Hu'. rewrite lookup_insert_eq in Hu'.
      injection Hu' as <-. exists []. cbn.
      rewrite (apply_kwargs_history _ _ Hw), app_nil_r. auto.
    + apply Hsame; [| reflexivity].
      destruct (sessions w !! v); cbn in Hu';
        rewrite ?lookup_insert_ne in Hu' by exact Hne; congruence.
  - unfold restart_session in Hu'.
    destruct (decide (v = u)) as [-> | Hne].
    + rewrite String.eqb_refl in Hw. discriminate.
    + apply Hsame; [| reflexivity].
      destruct (sessions w !! v); cbn in Hu';
        rewrite ?lookup_insert_ne in Hu' by exact Hne; congruence.
  - unfold end_session in Hu'.
    destruct (decide (v = u)) as [-> | Hne].
    + rewrite Hu in Hu'. cbn in Hu'. rewrite lookup_delete_eq in Hu'. discriminate.
    + apply Hsame; [| reflexivity].
      destruct (sessions w !! v); cbn in Hu';
        rewrite ?lookup_delete_ne in Hu' by exact Hne; congruence.
  - apply Hsame; [| reflexivity].
    destruct (is_session_active_frame wall v w) as (Hs & _).
    cbn zeta in Hs. congruence.
  - unfold add_message_to_history in Hu'. cbn [appended flat_map].
    destruct (String.eqb_spec v u) as [-> | Hne].
    + rewrite Hu in Hu'. cbn in Hu'. rewrite lookup_insert_eq in Hu'.
      injection Hu' as <-. eexists. cbn. split; reflexivity.
    + exists []. rewrite app_nil_r. split; [| reflexivity].
      destruct (sessions w !! v); cbn in Hu';
        rewrite ?lookup_insert_ne in Hu' by exact Hne; congruence.
  - apply Hsame; [congruence | reflexivity].
  - destruct (pass_spec wall w) as (_ & _ & _ & Hs). specialize (Hs u).
    rewrite Hu in Hs.
    destruct (should_close w (wall (clock_reads w)) s) eqn:Hc; [congruence |].
    destruct Hs as (extra & Hlook & Hsys & _). rewrite Hlook in Hu'.
    injection Hu' as <-. exists extra. split.
    + unfold marked. rewrite Hc.
      destruct (should_warn w (wall (clock_reads w)) s); reflexivity.
    + rewrite (conversation_system _ Hsys). reflexivity.
  - apply Hsame; [congruence | reflexivity].
  - apply Hsame; [| reflexivity].
    unfold load_sessions in Hu'. cbn in Hu'.
    rewrite (load_items_other _ _ _ Hw) in Hu'. congruence.
  - apply Hsame; [| reflexivity]. cbn in Hu'. congruence.
Qed.

Lemma appended_cons (u : string) (op : store_op) (ops : list store_op) :
  appended u (op :: ops) = appended u [op] ++ appended u ops.
Proof. unfold appended. cbn [flat_map]. rewrite app_nil_r. reflexivity. Qed.

(** X4. Along any history of store operations during which the session of
    [u] stays in the store and is not given a new history (by a restart, an
    [update_session] carrying [message_history], or a [load_sessions] of a
    file with a member for [u]), the history only grows at its end, and the
    entries added that are not sweeper notices are exactly the messages
    handed to [add_message_to_history] for [u], in call order. *)
Theorem X4_history_append_only (ops : list store_op) :
  forall (w : SessionManager) (u : string) (s : session),
  sessions w !! u = Some s ->
  survives wall u ops w = true ->
  forallb (fun op => negb (rewrites_history u op)) ops = true ->
  exists s' extra,
    sessions (run wall ops w) !! u = Some s' /\
    message_history s' = message_history s ++ extra /\
    conversation extra = appended u ops.
Proof.
  induction ops as [| op ops IH]; intros w u s Hu Hlive Hclean.
  - exists s, []. cbn. rewrite app_nil_r. auto.
  - cbn [survives] in Hlive. apply andb_true_iff in Hlive as [_ Hlive].
    cbn [forallb] in Hclean. apply andb_true_iff in Hclean as [Hop Hclean].
    apply negb_true_iff in Hop.
    assert (Hnext : exists s1, sessions (exec wall w op) !! u = Some s1).
    { destruct ops; cbn [survives] in Hlive;
        apply andb_true_iff in Hlive as [Hhas _];
        unfold has_session in Hhas;
        destruct (sessions (exec wall w op) !! u); eauto; discriminate. }
    destruct Hnext as [s1 Hu1].
    destruct (exec_history w op u s s1 Hu Hu1 Hop) as (e1 & Hh1 & Hc1).
    destruct (IH (exec wall w op) u s1 Hu1 Hlive Hclean) as (s' & e2 & Hs' & Hh2 & Hc2).
    exists s', (e1 ++ e2). split; [exact Hs' |]. split.
    + rewrite Hh2, Hh1, app_assoc. reflexivity.
    + rewrite conversation_app, Hc1, Hc2, <- appended_cons. reflexivity.
Qed.

(** X5. For a user who has a session and a positive [limit],
    [get_message_history] returns the end of the history: the history is
    some older entries followed by the result, which has [limit] entries,
    or all of them when the history is shorter.  For a negative [limit] it
    returns the history without its first [- limit] entries. *)
Theorem X5_recent_history (w : SessionManager) (u : string) (s : session)
    (limit : Z) :
  sessions w !! u = Some s ->
  ((0 < limit)%Z ->
     exists older,
       message_history s = older ++ get_message_history u limit w /\
       length (get_message_history u limit w) =
         Nat.min (Z.to_nat limit) (length (message_history s))) /\
  ((limit < 0)%Z ->
     get_message_history u limit w = drop (Z.to_nat (- limit)) (message_history s)).
Proof.
  intros Hu. split.
  - intros Hpos. rewrite (get_message_history_positive w u limit s Hu Hpos).
    exists (take (length (message_history s) - Z.to_nat limit) (message_history s)).
    split; [symmetry; apply take_drop |].
    rewrite length_drop. lia.
  - intros Hneg. unfold get_message_history, py_slice_from. rewrite Hu.
    destruct (Z.ltb_spec (- limit) 0) as [Hlt | _]; [lia |].
    destruct (Z.min_spec (- limit) (Z.of_nat (length (message_history s))))
      as [[_ ->] | [Hle ->]]; [reflexivity |].
    rewrite Nat2Z.id, !drop_ge by lia. reflexivity.
Qed.

End HistoryMore.

Section ActivityMore.

Variable wall : nat -> datetime.

Lemma exec_clock_mono (w : SessionManager) (op : store_op) :
  clock_reads w <= clock_reads (exec wall w op).
Proof.
  destruct op as [v | v kwargs | v | v | v | v r c | v lim | | | file | func];
    cbn [exec].
  - unfold get_session. destruct (sessions w !! v); cbn; lia.
  - unfold update_session. destruct (sessions w !! v); cbn; lia.
  - unfold restart_session. destruct (sessions w !! v); cbn; lia.
  - unfold end_session. destruct (sessions w !! v); cbn; lia.
  - destruct (is_session_active_frame wall v w) as (_ & _ & _ & Hc).
    cbn zeta in Hc. lia.
  - unfold add_message_to_history. destruct (sessions w !! v); cbn; lia.
  - lia.
  - destruct (pass_spec wall w) as (_ & Hclk & _). lia.
  - lia.
  - cbn. lia.
  - cbn. lia.
Qed.

(** Where the [last_activity] of a session found after an operation comes
    from: the session before, or a reading of the clock made by the
    operation. *)
Lemma exec_origin (w : SessionManager) (op : store_op) (v : string) (s' : session) :
  is_load op = false ->
  sessions (exec wall w op) !! v = Some s' ->
  (exists s, sessions w !! v = Some s /\ last_activity s' = last_activity s) \/
  (exists k, clock_reads w <= k < clock_reads (exec wall w op) /\
     last_activity s' = wall k).
Proof.
  intros Hload Hv.
  destruct op as [x | x kwargs | x | x | x | x r c | x lim | | | file | func];
    cbn [exec is_load] in *; try discriminate.
  - unfold get_session in *. destruct (sessions w !! x) as [s |] eqn:Hx; cbn in *;
      apply lookup_insert_Some in Hv as [[-> <-] | [_ Hv]]; eauto;
      right; eexists; (split; [| reflexivity]); lia.
  - unfold update_session in *. destruct (sessions w !! x) as [s |] eqn:Hx; cbn in *;
      [| eauto].
    apply lookup_insert_Some in Hv as [[-> <-] | [_ Hv]]; eauto.
    right. eexists. split; [| reflexivity]. lia.
  - unfold restart_session in *. destruct (sessions w !! x) as [s |] eqn:Hx; cbn in *;
      [| eauto].
    apply lookup_insert_Some in Hv as [[-> <-] | [_ Hv]]; eauto.
    right. eexists. split; [| reflexivity]. lia.
  - unfold end_session in *. destruct (sessions w !! x) as [s |] eqn:Hx; cbn in *;
      [| eauto].
    apply lookup_delete_Some in Hv as [_ Hv]. eauto.
  - destruct (is_session_active_frame wall x w) as (Hs & _ & _ & Hc).
    cbn zeta in Hs. rewrite Hs in Hv. eauto.
  - unfold add_message_to_history in *.
    destruct (sessions w !! x) as [s |] eqn:Hx; cbn in *; [| eauto].
    apply lookup_insert_Some in Hv as [[-> <-] | [_ Hv]]; eauto.
    right. eexists. split; [| reflexivity]. lia.
  - eauto.
  - destruct (pass_spec wall w) as (_ & _ & _ & Hs). specialize (Hs v).
    destruct (sessions w !! v) as [s |] eqn:Hw; [| congruence].
    destruct (should_close w (wall (clock_reads w)) s) eqn:Hc; [congruence |].
    destruct Hs as (extra & Hlook & _). rewrite Hlook in Hv. injection Hv as <-.
    left. exists s. split; [reflexivity |]. unfold marked. rewrite Hc.
    destruct (should_warn w (wall (clock_reads w)) s); reflexivity.
  - eauto.
  - cbn in Hv. eauto.
Qed.

Lemma run_floor (ops : list store_op) :
  forall (w : SessionManager) (u : string) (floor : Z),
  clock_monotone wall ->
  forallb (fun op => negb (is_load op)) ops = true ->
  activity_in_past wall w ->
  (floor <= to_us (wall (clock_reads w)))%Z ->
  (forall s, sessions w !! u = Some s -> (floor <= to_us (last_activity s))%Z) ->
  forall s', sessions (run wall ops w) !! u = Some s' ->
    (floor <= to_us (last_activity s'))%Z.
Proof.
  induction ops as [| op ops IH]; intros w u floor Hmono Hops Hpast Hfloor Hu s' Hs'.
  - apply Hu, Hs'.
  - cbn [forallb] in Hops. apply andb_true_iff in Hops as [Hop Hops].
    apply negb_true_iff in Hop.
    pose proof (exec_clock_mono w op) as Hclk.
    apply (IH (exec wall w op) u floor Hmono Hops); [| | | exact Hs'].
    + intros v s1 Hv.
      destruct (exec_origin w op v s1 Hop Hv) as [(s & Hs & ->) | (k & Hk & ->)].
      * etransitivity; [apply (Hpast v s Hs) | apply Hmono, Hclk].
      * apply Hmono. lia.
    + etransitivity; [exact Hfloor | apply Hmono, Hclk].
    + intros s1 Hv.
      destruct (exec_origin w op u s1 Hop Hv) as [(s & Hs & ->) | (k & Hk & ->)].
      * apply (Hu s Hs).
      * etransitivity; [exact Hfloor | apply Hmono; lia].
Qed.

(** X6. With a clock that never goes back, and starting from a store in
    which no session was last active in the future, the [last_activity] of
    a user's session never decreases: after any history of store operations
    other than [load_sessions], the session found for the user, were it
    deleted and created again on the way, was last active no earlier than
    the session the user had at the start. *)
Theorem X6_last_activity_monotone (ops : list store_op) (w : SessionManager)
    (u : string) (s s' : session) :
  clock_monotone wall ->
  activity_in_past wall w ->
  forallb (fun op => negb (is_load op)) ops = true ->
  sessions w !! u = Some s ->
  sessions (run wall ops w) !! u = Some s' ->
  (to_us (last_activity s) <= to_us (last_activity s'))%Z.
Proof.
  intros Hmono Hpast Hops Hu Hs'.
  apply (run_floor ops w u (to_us (last_activity s)) Hmono Hops Hpast);
    [apply (Hpast u s Hu) | | exact Hs'].
  intros s0 Hs0. rewrite Hu in Hs0. injection Hs0 as <-. lia.
Qed.

(** X7. With both thresholds below [2^34] seconds, a pass of the sweeper
    does nothing to a session that is idle for less than both thresholds:
    the session stays in the store exactly as it was and its user is sent
    nothing. *)
Theorem X7_active_session_untouched (w : SessionManager) (u : string) (s : session) :
  (0 <= inactivity_warning w < 2 ^ 34)%Z ->
  (0 <= session_timeout w < 2 ^ 34)%Z ->
  sessions w !! u = Some s ->
  (inactive_us (wall (clock_reads w)) s < inactivity_warning w * 1000000)%Z ->
  (inactive_us (wall (clock_reads w)) s < session_timeout w * 1000000)%Z ->
  sessions (cleanup_pass wall w) !! u = Some s /\
  sent_to u (outbox (cleanup_pass wall w)) = sent_to u (outbox w).
Proof.
  intros Hbw Hbt Hu Hwarn Hclose.
  assert (Hc : should_close w (wall (clock_reads w)) s = false).
  { unfold should_close. rewrite (reached_exact _ _ _ Hbt).
    apply andb_false_iff. left. apply Z.leb_gt, Hclose. }
  apply (quiet_pass wall w u s Hu Hc).
  unfold should_warn. rewrite Hc, (reached_exact _ _ _ Hbw). cbn.
  apply andb_false_iff. left. apply Z.leb_gt, Hwarn.
Qed.

Lemma sent_to_notices_cases (w : SessionManager) (u text : string) (l : list string) :
  NoDup l ->
  ((u ∉ l) /\ sent_to u (notices w text l) = []) \/
  (u ∈ l /\ (sent_to u (notices w text l) = [] \/
             sent_to u (notices w text l) = [(u, text)])).
Proof.
  intros Hnd. destruct (decide (u ∈ l)) as [Hin | Hnotin].
  - right. split; [exact Hin |]. unfold notices.
    destruct (send_message_func w); [right | left; reflexivity].
    apply sent_to_map_in; assumption.
  - left. split; [exact Hnotin | apply sent_to_notices_notin, Hnotin].
Qed.

Lemma notices_recipients (w : SessionManager) (text : string) (l : list string) :
  forall p, p ∈ notices w text l -> fst p ∈ l.
Proof.
  intros p Hp. unfold notices in Hp. destruct (send_message_func w); [| inversion Hp].
  apply list_elem_of_In, in_map_iff in Hp as (v & <- & Hv).
  apply list_elem_of_In, Hv.
Qed.

(** X8. In one pass the sweeper sends a user at most one message, the
    warning or the closing notice and never both, and it sends messages
    only to users who had a session when the pass began; a user who is
    sent the closing notice has no session afterwards. *)
Theorem X8_one_notice_per_pass (w : SessionManager) (u : string) :
  exists new, outbox (cleanup_pass wall w) = outbox w ++ new /\
    (sent_to u new = [] \/
     sent_to u new = [(u, warning_message w)] \/
     (sent_to u new = [(u, closing_message)] /\
      sessions (cleanup_pass wall w) !! u = None)) /\
    (forall p, p ∈ new -> is_Some (sessions w !! fst p)).
Proof.
  destruct (pass_spec wall w) as (_ & _ & Ho & Hs).
  set (t := wall (clock_reads w)) in *.
  eexists. split; [exact Ho |]. split.
  - rewrite sent_to_app.
    destruct (sent_to_notices_cases w u (warning_message w) (users_to_warn w t)
                (NoDup_filter_fst _ _)) as [[Hnw ->] | [Hw Hsw]];
      destruct (sent_to_notices_cases w u closing_message (users_to_close w t)
                  (NoDup_filter_fst _ _)) as [[Hnc ->] | [Hc Hsc]].
    + left. reflexivity.
    + destruct Hsc as [-> | ->]; [left; reflexivity |].
      right. right. split; [reflexivity |].
      apply elem_users_to_close in Hc as (s & Hu & Hclose).
      specialize (Hs u). rewrite Hu, Hclose in Hs. exact Hs.
    + rewrite app_nil_r. destruct Hsw as [-> | ->]; auto.
    + exfalso. apply elem_users_to_warn in Hw as (s & Hu & Hwarn).
      apply elem_users_to_close in Hc as (s0 & Hu0 & Hclose).
      rewrite Hu in Hu0. injection Hu0 as <-.
      unfold should_warn in Hwarn. rewrite Hclose in Hwarn. discriminate.
  - intros p Hp. apply elem_of_app in Hp as [Hp | Hp];
      apply notices_recipients in Hp.
    + apply elem_users_to_warn in Hp as (s & -> & _). eauto.
    + apply elem_users_to_close in Hp as (s & -> & _). eauto.
Qed.

Lemma reached_marked (w : SessionManager) (t : datetime) (s : session)
    (extra : list history_entry) (threshold : Z) :
  reached threshold t (with_notices extra (marked w t s)) = reached threshold t s.
Proof.
  assert (Hla : last_activity (with_notices extra (marked w t s)) = last_activity s)
    by (unfold marked; destruct (should_close w t s), (should_warn w t s); reflexivity).
  unfold reached, inactive_us. rewrite Hla. reflexivity.
Qed.

(** X9. After a pass every session left in the store that is idle for at
    least the warning threshold has [inactivity_warning_sent] set, and
    every session left that is idle for at least the timeout has
    [closing_notice_sent] set: each session that was due for closing is
    gone. *)
Theorem X9_after_pass_flags (w : SessionManager) (u : string) (s' : session) :
  sessions (cleanup_pass wall w) !! u = Some s' ->
  let t := wall (clock_reads w) in
  (reached (inactivity_warning w) t s' = true -> inactivity_warning_sent s' = true) /\
  (reached (session_timeout w) t s' = true -> closing_notice_sent s' = true).
Proof.
  intros Hu' t. destruct (pass_spec wall w) as (_ & _ & _ & Hs).
  specialize (Hs u). fold t in Hs.
  destruct (sessions w !! u) as [s |] eqn:Hu; [| congruence].
  destruct (should_close w t s) eqn:Hc; [congruence |].
  destruct Hs as (extra & Hlook & _). rewrite Hlook in Hu'. injection Hu' as <-.
  rewrite !(reached_marked w t s extra).
  change (inactivity_warning_sent (with_notices extra ?y))
    with (inactivity_warning_sent y).
  change (closing_notice_sent (with_notices extra ?y)) with (closing_notice_sent y).
  unfold marked. rewrite Hc. unfold should_warn. rewrite Hc. cbn [negb andb].
  unfold should_close in Hc.
  destruct (reached (inactivity_warning w) t s),
           (inactivity_warning_sent s) eqn:Hws,
           (reached (session_timeout w) t s),
           (closing_notice_sent s) eqn:Hcs;
    cbn [negb andb] in *; try discriminate;
    cbn [set_inactivity_warning_sent inactivity_warning_sent closing_notice_sent];
    split; congruence.
Qed.

(** X10. The sweeper never deletes a session whose [closing_notice_sent]
    is already set when a pass begins: however many passes run and however
    long the session stays idle, it is still in the store, with the flag set
    and its [last_activity] unchanged. *)
Theorem X10_marked_session_never_swept (n : nat) (w : SessionManager) (u : string)
    (s : session) :
  sessions w !! u = Some s ->
  closing_notice_sent s = true ->
  exists s', sessions (_cleanup_expired_sessions wall n w) !! u = Some s' /\
    closing_notice_sent s' = true /\ last_activity s' = last_activity s.
Proof.
  intros Hu Hflag. unfold _cleanup_expired_sessions.
  induction n as [| n (s1 & Hs1 & Hf1 & Hl1)]; [exists s; auto |].
  change (Nat.iter (S n) (cleanup_pass wall) w)
    with (cleanup_pass wall (Nat.iter n (cleanup_pass wall) w)).
  set (wn := Nat.iter n (cleanup_pass wall) w) in *.
  destruct (pass_spec wall wn) as (_ & _ & _ & Hs). specialize (Hs u).
  rewrite Hs1 in Hs.
  assert (Hc : should_close wn (wall (clock_reads wn)) s1 = false).
  { unfold should_close. rewrite Hf1. apply andb_false_r. }
  rewrite Hc in Hs. destruct Hs as (extra & Hlook & _).
  eexists. split; [exact Hlook |]. unfold marked. rewrite Hc.
  destruct (should_warn wn (wall (clock_reads wn)) s1); cbn; auto.
Qed.

End ActivityMore.

(** ** Further properties of the snapshot persister *)

Lemma load_items_app_bad (good rest : list (string * json_session))
    (u : string) (bad : json_session) :
  forall m : gmap string session,
  Forall (fun item => is_Some (loaded_session item.2)) good ->
  loaded_session bad = None ->
  load_items (good ++ (u, bad) :: rest) m = load_items good m.
Proof.
  induction good as [| [v js] good IH]; intros m Hgood Hbad.
  - cbn. rewrite Hbad. reflexivity.
  - apply Forall_cons in Hgood as [[s Hs] Hgood]. cbn in Hs.
    cbn [app load_items]. rewrite Hs. apply IH; assumption.
Qed.

Lemma saved_sessions_load (w : SessionManager) :
  Forall (fun item => is_Some (loaded_session item.2)) (save_sessions w).
Proof.
  apply Forall_forall. intros [u js] Hin. unfold save_sessions in Hin.
  apply elem_of_map_to_list in Hin. rewrite lookup_fmap in Hin.
  destruct (sessions w !! u) as [s |]; [| discriminate].
  cbn in Hin. injection Hin as <-. cbn. rewrite loaded_serializable. eexists. reflexivity.
Qed.

Lemma letter_no_digit (c : ascii) : is_ascii_letter c = true -> digit_val c = None.
Proof. destruct c as [[] [] [] [] [] [] [] []]; vm_compute; congruence. Qed.

Lemma no_timestamp_parse (s : string) :
  no_timestamp s = true -> fromisoformat s = None.
Proof.
  destruct s as [| c s]; [reflexivity |]. cbn [no_timestamp]. intros Hc.
  unfold fromisoformat. cbn [take_digits]. rewrite (letter_no_digit c Hc). reflexivity.
Qed.

Lemma no_timestamp_loaded (bad : json_session) :
  no_timestamp (js_created_at bad) = true \/ no_timestamp (js_last_activity bad) = true ->
  loaded_session bad = None.
Proof.
  unfold loaded_session. intros [H | H].
  - rewrite (no_timestamp_parse _ H). reflexivity.
  - destruct (fromisoformat (js_created_at bad)); [| reflexivity].
    cbn [bind_opt]. rewrite (no_timestamp_parse _ H). reflexivity.
Qed.

(** X11. [load_sessions] gives up at the first member of the file whose
    [created_at] or [last_activity] is no timestamp (it is empty or begins
    with a letter, so that [fromisoformat] raises): the members before it
    are loaded, and that member and every member after it are dropped, as
    if the file ended there.  A user who only appears from that member on,
    and had no session, has none afterwards. *)
Theorem X11_load_stops_at_bad_record (good rest : list (string * json_session))
    (u : string) (bad : json_session) (w : SessionManager) :
  Forall (fun item => is_Some (loaded_session item.2)) good ->
  no_timestamp (js_created_at bad) = true \/ no_timestamp (js_last_activity bad) = true ->
  load_sessions (good ++ (u, bad) :: rest) w = load_sessions good w /\
  (forall v, v ∉ good.*1 -> sessions w !! v = None ->
     sessions (load_sessions (good ++ (u, bad) :: rest) w) !! v = None).
Proof.
  intros Hgood Hbad. apply no_timestamp_loaded in Hbad.
  assert (Heq : load_sessions (good ++ (u, bad) :: rest) w = load_sessions good w).
  { unfold load_sessions, with_sessions.
    rewrite (load_items_app_bad good rest u bad _ Hgood Hbad). reflexivity. }
  split; [exact Heq |]. intros v Hv Hnone. rewrite Heq.
  unfold load_sessions. cbn.
  rewrite load_items_other; [exact Hnone |].
  apply not_true_is_false. intros Hex. apply existsb_exists in Hex as ([x js] & Hin & Hx).
  cbn in Hx. apply String.eqb_eq in Hx as ->.
  apply Hv. apply list_elem_of_fmap. exists (v, js). split; [reflexivity |].
  apply list_elem_of_In, Hin.
Qed.

(** X12. A member of the sessions file written without the two flags and
    without [meta] loads with both flags clear, a message counter equal to
    the number of entries of its history and a restart counter of 0, and
    with the state, context, thread and history of the file; a member that
    has the three keys loads with the values it has. *)
Theorem X12_load_defaults (js : json_session) (c a : datetime) (u : string)
    (w : SessionManager) :
  fromisoformat (js_created_at js) = Some c ->
  fromisoformat (js_last_activity js) = Some a ->
  exists s, sessions (load_sessions [(u, js)] w) !! u = Some s /\
    created_at s = c /\ last_activity s = a /\
    state s = js_state js /\ context s = js_context js /\
    thread_id s = js_thread_id js /\
    message_history s = js_message_history js /\
    (js_inactivity_warning_sent js = None -> inactivity_warning_sent s = false) /\
    (js_closing_notice_sent js = None -> closing_notice_sent s = false) /\
    (js_meta js = None ->
       meta s = Meta (Some (Z.of_nat (length (js_message_history js)))) (Some 0%Z)) /\
    (forall b, js_inactivity_warning_sent js = Some b -> inactivity_warning_sent s = b) /\
    (forall b, js_closing_notice_sent js = Some b -> closing_notice_sent s = b) /\
    (forall m, js_meta js = Some m -> meta s = m).
Proof.
  intros Hc Ha. unfold load_sessions. cbn [sessions with_sessions load_items].
  unfold loaded_session. rewrite Hc, Ha. cbn [bind_opt].
  rewrite lookup_insert_eq. eexists. split; [reflexivity |]. cbn.
  repeat split; try (intros ->; reflexivity); intros ? ->; reflexivity.
Qed.

(** ** The periodic save *)

Lemma second_of_five_minutes (t : datetime) :
  ((to_us t / 1000000) mod 300 =
   60 * (minute (fields t) mod 5) + second (fields t))%Z.
Proof.
  destruct (valid_fields_bounds (fields t) (fields_valid t))
    as (_ & _ & _ & _ & Hmi & Hs & Hus).
  unfold to_us. cbn zeta.
  set (ord := toordinal (fields t)). set (h := hour (fields t)).
  set (mi := minute (fields t)) in *. set (s := second (fields t)) in *.
  set (us := microsecond (fields t)) in *.
  replace ((((ord * 24 + h) * 60 + mi) * 60 + s) * 1000000 + us)%Z
    with (us + (((ord * 24 + h) * 60 + mi) * 60 + s) * 1000000)%Z by lia.
  rewrite Z.div_add by lia. rewrite (Z.div_small us) by lia. cbn [Z.add].
  Z.div_mod_to_equations. lia.
Qed.

Lemma save_due_spec (t : datetime) :
  save_due t = true <-> ((to_us t / 1000000) mod 300 < 30)%Z.
Proof.
  rewrite second_of_five_minutes.
  destruct (valid_fields_bounds (fields t) (fields_valid t))
    as (_ & _ & _ & _ & Hmi & Hs & _).
  unfold save_due. rewrite andb_true_iff, Z.eqb_eq, Z.ltb_lt.
  pose proof (Z.mod_pos_bound (minute (fields t)) 5 ltac:(lia)). lia.
Qed.

Lemma filter_iff_Forall {A : Type} (P Q : A -> Prop)
    `{!forall x, Decision (P x)} `{!forall x, Decision (Q x)} (l : list A) :
  Forall (fun x => P x <-> Q x) l -> filter P l = filter Q l.
Proof.
  induction 1 as [| x l Hx _ IH]; [reflexivity |].
  destruct (decide (P x)) as [HP | HP].
  - rewrite !filter_cons_True by tauto. f_equal. exact IH.
  - rewrite !filter_cons_False by tauto. exact IH.
Qed.

Lemma one_in_ten (a : Z) :
  length (filter (fun k : nat => ((a + 30 * Z.of_nat k) mod 300 < 30)%Z) (seq 0 10)) = 1.
Proof.
  pose proof (Z.mod_pos_bound a 300 ltac:(lia)) as Hb.
  assert (Hcase : exists j, (0 <= j < 10 /\ 30 * j <= a mod 300 < 30 * j + 30)%Z).
  { exists (a mod 300 / 30)%Z. Z.div_mod_to_equations. lia. }
  destruct Hcase as (j & Hj & Hr).
  assert (Hdec : forall k : nat, k < 10 ->
            ((a + 30 * Z.of_nat k) mod 300 < 30)%Z <-> (Z.of_nat k = (10 - j) mod 10)%Z).
  { intros k Hk. Z.div_mod_to_equations. lia. }
  assert (Hj' : j = 0%Z \/ j = 1%Z \/ j = 2%Z \/ j = 3%Z \/ j = 4%Z \/ j = 5%Z \/
                j = 6%Z \/ j = 7%Z \/ j = 8%Z \/ j = 9%Z) by lia.
  cbn [seq].
  repeat (destruct Hj' as [-> | Hj']);
    try subst j;
    repeat (first
      [ rewrite filter_cons_True by (apply Hdec; [lia | reflexivity])
      | rewrite filter_cons_False by (rewrite Hdec by lia; discriminate) ]);
    reflexivity.
Qed.

(** X13. The sweeper saves the sessions when the clock value it read has
    a minute that is a multiple of five and a second below thirty, that is,
    during the first thirty seconds of each five minutes.  With passes that
    start exactly thirty seconds apart, exactly one of any ten consecutive
    passes saves. *)
Theorem X13_save_once_in_five_minutes (tick : nat -> datetime) :
  (forall k, k < 10 ->
     to_us (tick k) = (to_us (tick 0%nat) + 30000000 * Z.of_nat k)%Z) ->
  (forall t, save_due t = true <-> ((to_us t / 1000000) mod 300 < 30)%Z) /\
  length (filter (fun k => save_due (tick k) = true) (seq 0 10)) = 1.
Proof.
  intros Hticks. split; [exact save_due_spec |].
  etrans; [| exact (one_in_ten (to_us (tick 0%nat) / 1000000))].
  f_equal. apply filter_iff_Forall.
  apply Forall_forall. intros k Hk. apply elem_of_seq in Hk.
  rewrite save_due_spec, Hticks by lia.
  replace (to_us (tick 0%nat) + 30000000 * Z.of_nat k)%Z
    with (to_us (tick 0%nat) + (30 * Z.of_nat k) * 1000000)%Z by lia.
  rewrite Z.div_add by lia. reflexivity.
Qed.

(** X14. Two readings of the clock at least thirty seconds apart that
    both call for a save lie in different five-minute periods: since the
    sweeper sleeps thirty seconds before each pass, it never saves twice
    within one period. *)
Theorem X14_no_second_save_in_period (t1 t2 : datetime) :
  (to_us t1 + 30000000 <= to_us t2)%Z ->
  save_due t1 = true -> save_due t2 = true ->
  (to_us t1 / 300000000 < to_us t2 / 300000000)%Z.
Proof.
  intros Hgap H1 H2. apply save_due_spec in H1, H2.
  revert Hgap H1 H2. generalize (to_us t1) (to_us t2). intros a b Hgap H1 H2.
  change 300000000%Z with (1000000 * 300)%Z.
  rewrite <- !Z.div_div by lia.
  assert (Hsec : (a / 1000000 + 30 <= b / 1000000)%Z).
  { rewrite <- Z.div_add by lia. apply Z.div_le_mono; lia. }
  revert Hsec H1 H2. generalize (a / 1000000)%Z (b / 1000000)%Z. intros x y Hsec H1 H2.
  Z.div_mod_to_equations. lia.
Qed.

(** ** Further properties of the router *)

Lemma process_describe_reply : process_text_for_whatsapp describe_reply = describe_reply.
Proof. vm_compute. reflexivity. Qed.

Lemma process_ticket_created_reply :
  process_text_for_whatsapp ticket_created_reply = ticket_created_reply.
Proof. vm_compute. reflexivity. Qed.

Section RouterMore.

Variable wall : nat -> datetime.
Variable str_lower : string -> string.

(** The first two steps of the router: the session is fetched or created
    and the user's message is appended to it. *)
Lemma prelude_spec (w : SessionManager) (u body : string) :
  let w1 := add_message_to_history wall u "user" body (get_session wall u w) in
  exists s1 ts, sessions w1 !! u = Some s1 /\
    state s1 = state_of w u /\ context s1 = context_of w u /\
    message_history s1 = history_of w u ++ [HistoryEntry "user" body ts None] /\
    meta s1 = Meta (Some (meta_get (total_messages (meta_of w u)) + 1)%Z)
                   (session_restarts (meta_of w u)) /\
    outbox w1 = outbox w.
Proof.
  unfold state_of, context_of, history_of, meta_of, get_session, add_message_to_history.
  destruct (sessions w !! u) as [s |]; cbn; rewrite lookup_insert_eq; cbn;
    rewrite lookup_insert_eq; do 2 eexists; repeat split.
Qed.

(** The last two steps: the reply is appended to the history and
    delivered. *)
Lemma reply_spec (w : SessionManager) (u text : string) (s : session) :
  sessions w !! u = Some s ->
  let w' := deliver u text (add_message_to_history wall u "assistant" text w) in
  exists s' ts, sessions w' !! u = Some s' /\
    state s' = state s /\ context s' = context s /\
    message_history s' = message_history s ++ [HistoryEntry "assistant" text ts None] /\
    meta s' = Meta (Some (meta_get (total_messages (meta s)) + 1)%Z)
                   (session_restarts (meta s)) /\
    outbox w' = outbox w ++ [(u, text)].
Proof.
  intros Hu. unfold add_message_to_history. rewrite Hu. cbn.
  rewrite lookup_insert_eq. do 2 eexists. repeat split.
Qed.

Lemma update_spec (w : SessionManager) (u : string) (kwargs : list kwarg) (s : session) :
  sessions w !! u = Some s ->
  sessions (update_session wall u kwargs w) !! u
    = Some (touch (wall (clock_reads w)) (fold_left apply_kwarg kwargs s)) /\
  outbox (update_session wall u kwargs w) = outbox w.
Proof.
  intros Hu. unfold update_session. rewrite Hu. cbn.
  rewrite lookup_insert_eq. split; reflexivity.
Qed.

(** Every branch of the router that answers leaves the session in the
    store and does not deliver anything itself. *)
Lemma route_spec (m : inbound) (body : string) (s : session) (w : SessionManager)
    (response : string) (w2 : SessionManager) :
  sessions w !! wa_id m = Some s ->
  route wall str_lower m body s w = Some (response, w2) ->
  (exists s2, sessions w2 !! wa_id m = Some s2) /\ outbox w2 = outbox w.
Proof.
  intros Hu. unfold route.
  destruct (String.eqb (state s) "INITIAL" && str_in (str_lower body) _).
  { intros [= <- <-]. destruct (update_spec w (wa_id m) [Kstate "AWAITING_QUERY"] s Hu)
      as [H1 H2]. eauto. }
  destruct (String.eqb (state s) "TICKET_CREATION").
  { destruct (context s !! "ticket_subject").
    - intros [= <- <-].
      destruct (update_spec w (wa_id m) [Kstate "AWAITING_QUERY"; Kcontext ∅] s Hu)
        as [H1 H2]. eauto.
    - intros [= <- <-].
      set (ctx := <["ticket_subject" := body]> (context s)).
      set (w1 := with_sessions (insert (wa_id m) (set_context ctx s)) w).
      assert (H1 : sessions w1 !! wa_id m = Some (set_context ctx s))
        by (unfold w1; cbn; apply lookup_insert_eq).
      destruct (update_spec w1 (wa_id m) [Kcontext ctx] _ H1) as [H2 H3].
      split; [eauto | exact H3]. }
  destruct (detect_ticket_intent str_lower body && _); [| discriminate].
  intros [= <- <-].
  destruct (update_spec w (wa_id m) [Kstate "TICKET_CREATION"; Kcontext ∅] s Hu)
    as [H1 H2]. eauto.
Qed.

(** X15. Handling one inbound message delivers at most one message, and
    only to the sender.  When the inbound message is a text message, the
    text delivered is the last entry of the sender's history, recorded there
    with the role [assistant]: what the user is told is what the history
    says she was told. *)
Theorem X15_reply_recorded (w : SessionManager) (m : inbound) :
  let w' := process_whatsapp_message wall str_lower m w in
  outbox w' = outbox w \/
  exists text, outbox w' = outbox w ++ [(wa_id m, text)] /\
    (msg_type m = Some "text" ->
     exists s', sessions w' !! wa_id m = Some s' /\
       ends_with (message_history s') "assistant" text).
Proof.
  cbn zeta. unfold process_whatsapp_message.
  destruct (negb (opt_str_eqb (msg_type m) (Some "text"))) eqn:Hty.
  { right. eexists. split; [reflexivity |].
    intros Hm. rewrite Hm in Hty. vm_compute in Hty. discriminate. }
  destruct (text_body m) as [body |]; [| left; reflexivity].
  destruct (prelude_spec w (wa_id m) body) as (s1 & ts1 & Hs1 & _ & _ & _ & _ & Ho1).
  set (w1 := add_message_to_history wall (wa_id m) "user" body
               (get_session wall (wa_id m) w)) in *.
  destruct (str_in (str_lower body) ["/restart"; "/reiniciar"]).
  { right. exists restart_reply.
    assert (Hr : exists s2, sessions (restart_session wall (wa_id m) w1) !! wa_id m
                           = Some s2 /\
                   outbox (restart_session wall (wa_id m) w1) = outbox w1).
    { unfold restart_session. rewrite Hs1. cbn. rewrite lookup_insert_eq. eauto. }
    destruct Hr as (s2 & Hs2 & Ho2).
    destruct (reply_spec _ (wa_id m) restart_reply s2 Hs2)
      as (s3 & ts & Hs3 & _ & _ & Hh3 & _ & Ho3).
    split; [unfold restart_reply in Ho3; rewrite Ho3, Ho2, Ho1; reflexivity |].
    intros _. exists s3. split; [exact Hs3 |]. do 2 eexists. exact Hh3. }
  rewrite Hs1.
  destruct (route wall str_lower m body s1 w1) as [[response w2] |] eqn:Hroute.
  2: { left. exact Ho1. }
  destruct (route_spec m body s1 w1 response w2 Hs1 Hroute) as ((s2 & Hs2) & Ho2).
  destruct (reply_spec w2 (wa_id m) (process_text_for_whatsapp response) s2 Hs2)
    as (s3 & ts & Hs3 & _ & _ & Hh3 & _ & Ho3).
  right. eexists. split; [rewrite Ho3, Ho2, Ho1; reflexivity |].
  intros _. exists s3. split; [exact Hs3 |]. do 2 eexists. exact Hh3.
Qed.

(** X16. The command [/restart] or [/reiniciar] (in any case [str.lower]
    maps to these) starts the sender's session over: state [INITIAL],
    empty context, no thread, one more restart counted.  The history then
    holds the confirmation alone; the command itself, appended just before,
    is wiped with the rest, while the message counter has counted both.
    The confirmation is delivered as written. *)
Theorem X16_restart_command (w : SessionManager) (m : inbound) (body : string) :
  msg_type m = Some "text" ->
  text_body m = Some body ->
  In (str_lower body) ["/restart"; "/reiniciar"] ->
  let u := wa_id m in
  let w' := process_whatsapp_message wall str_lower m w in
  (exists s' ts, sessions w' !! u = Some s' /\
     state s' = "INITIAL" /\ context s' = ∅ /\ thread_id s' = None /\
     message_history s' = [HistoryEntry "assistant" restart_reply ts None] /\
     meta s' = Meta (Some (meta_get (total_messages (meta_of w u)) + 2)%Z)
                    (Some (meta_get (session_restarts (meta_of w u)) + 1)%Z)) /\
  outbox w' = outbox w ++ [(u, restart_reply)].
Proof.
  intros Htype Hbody Hcmd u w'. subst u w'.
  apply str_in_spec in Hcmd.
  unfold process_whatsapp_message. rewrite Htype, Hbody, Hcmd.
  cbn [opt_str_eqb String.eqb Ascii.eqb Bool.eqb negb].
  destruct (prelude_spec w (wa_id m) body)
    as (s1 & ts1 & Hs1 & _ & _ & _ & Hm1 & Ho1).
  set (w1 := add_message_to_history wall (wa_id m) "user" body
               (get_session wall (wa_id m) w)) in *.
  assert (Hr : exists s2, sessions (restart_session wall (wa_id m) w1) !! wa_id m
                         = Some s2 /\
                 state s2 = "INITIAL" /\ context s2 = ∅ /\ thread_id s2 = None /\
                 message_history s2 = [] /\
                 meta s2 = Meta (Some (meta_get (total_messages (meta s1))))
                                (Some (meta_get (session_restarts (meta s1)) + 1)%Z) /\
                 outbox (restart_session wall (wa_id m) w1) = outbox w1).
  { unfold restart_session. rewrite Hs1. cbn. rewrite lookup_insert_eq.
    eexists. repeat split. }
  destruct Hr as (s2 & Hs2 & Hst2 & Hc2 & Ht2 & Hh2 & Hm2 & Ho2).
  set (w2 := restart_session wall (wa_id m) w1) in *.
  assert (Hreply : exists s3 ts, 
            sessions (deliver (wa_id m) restart_reply
                        (add_message_to_history wall (wa_id m) "assistant"
                           restart_reply w2)) !! wa_id m = Some s3 /\
            state s3 = state s2 /\ context s3 = context s2 /\
            thread_id s3 = thread_id s2 /\
            message_history s3 =
              message_history s2 ++ [HistoryEntry "assistant" restart_reply ts None] /\
            meta s3 = Meta (Some (meta_get (total_messages (meta s2)) + 1)%Z)
                           (session_restarts (meta s2)) /\
            outbox (deliver (wa_id m) restart_reply
                      (add_message_to_history wall (wa_id m) "assistant"
                         restart_reply w2)) = outbox w2 ++ [(wa_id m, restart_reply)]).
  { unfold add_message_to_history. rewrite Hs2. cbn. rewrite lookup_insert_eq.
    do 2 eexists. repeat split. }
  destruct Hreply as (s3 & ts & Hs3 & Hst3 & Hc3 & Ht3 & Hh3 & Hm3 & Ho3).
  split.
  - exists s3, ts. split; [exact Hs3 |].
    split; [congruence |]. split; [congruence |]. split; [congruence |].
    split; [rewrite Hh3, Hh2; reflexivity |].
    rewrite Hm3, Hm2, Hm1. cbn. f_equal. f_equal. lia.
  - unfold restart_reply in Ho3. rewrite Ho3, Ho2, Ho1. reflexivity.
Qed.

Lemma text_branch (w : SessionManager) (m : inbound) (body : string) :
  msg_type m = Some "text" ->
  text_body m = Some body ->
  ~ In (str_lower body) ["/restart"; "/reiniciar"] ->
  forall s1,
  sessions (add_message_to_history wall (wa_id m) "user" body
              (get_session wall (wa_id m) w)) !! wa_id m = Some s1 ->
  process_whatsapp_message wall str_lower m w =
  (let w1 := add_message_to_history wall (wa_id m) "user" body
               (get_session wall (wa_id m) w) in
   match route wall str_lower m body s1 w1 with
   | None => w1
   | Some (response, w2) =>
       deliver (wa_id m) (process_text_for_whatsapp response)
         (add_message_to_history wall (wa_id m) "assistant"
            (process_text_for_whatsapp response) w2)
   end).
Proof.
  intros Htype Hbody Hcmd s1 Hs1.
  assert (Hno : str_in (str_lower body) ["/restart"; "/reiniciar"] = false).
  { destruct (str_in _ _) eqn:E; [| reflexivity]. apply str_in_spec in E. tauto. }
  unfold process_whatsapp_message. rewrite Htype, Hbody, Hno.
  cbn [opt_str_eqb String.eqb Ascii.eqb Bool.eqb negb].
  rewrite Hs1. cbn zeta.
  destruct (route wall str_lower m body s1 _) as [[response w2] |]; reflexivity.
Qed.

(** The router with a session in [TICKET_CREATION] that has no subject
    yet: the message becomes the subject. *)
Lemma ticket_subject_step (w : SessionManager) (m : inbound) (body : string)
    (s : session) :
  msg_type m = Some "text" ->
  text_body m = Some body ->
  ~ In (str_lower body) ["/restart"; "/reiniciar"] ->
  sessions w !! wa_id m = Some s ->
  state s = "TICKET_CREATION" ->
  context s !! "ticket_subject" = None ->
  let w' := process_whatsapp_message wall str_lower m w in
  (exists s', sessions w' !! wa_id m = Some s' /\
     state s' = "TICKET_CREATION" /\
     context s' = <["ticket_subject" := body]> (context s)) /\
  outbox w' = outbox w ++ [(wa_id m, describe_reply)].
Proof.
  intros Htype Hbody Hcmd Hu Hst Hctx w'. subst w'.
  destruct (prelude_spec w (wa_id m) body)
    as (s1 & ts1 & Hs1 & Hst1 & Hc1 & _ & _ & Ho1).
  rewrite (text_branch w m body Htype Hbody Hcmd s1 Hs1). cbn zeta.
  set (w1 := add_message_to_history wall (wa_id m) "user" body
               (get_session wall (wa_id m) w)) in *.
  unfold state_of in Hst1. unfold context_of in Hc1. rewrite Hu in Hst1, Hc1.
  cbn in Hst1, Hc1.
  unfold route. rewrite Hst1, Hst, Hc1, Hctx.
  change (String.eqb "TICKET_CREATION" "INITIAL") with false.
  change (String.eqb "TICKET_CREATION" "TICKET_CREATION") with true.
  cbn [andb]. cbv iota.
  set (ctx := <["ticket_subject" := body]> (context s)).
  set (w1' := with_sessions (insert (wa_id m) (set_context ctx s1)) w1).
  assert (H1 : sessions w1' !! wa_id m = Some (set_context ctx s1))
    by (unfold w1'; cbn; apply lookup_insert_eq).
  destruct (update_spec w1' (wa_id m) [Kcontext ctx] _ H1) as [H2 H3].
  fold describe_reply. rewrite process_describe_reply.
  destruct (reply_spec _ (wa_id m) describe_reply _ H2)
    as (s3 & ts & Hs3 & Hst3 & Hc3 & _ & _ & Ho3).
  split.
  - exists s3. split; [exact Hs3 |]. split.
    + rewrite Hst3. cbn. rewrite Hst1, Hst. reflexivity.
    + rewrite Hc3. reflexivity.
  - rewrite Ho3, H3. unfold w1'. cbn [outbox with_sessions].
    rewrite Ho1. reflexivity.
Qed.

(** The router with a session in [TICKET_CREATION] that has a subject:
    the message is the description and the ticket flow ends. *)
Lemma ticket_description_step (w : SessionManager) (m : inbound) (body : string)
    (s : session) (subject : string) :
  msg_type m = Some "text" ->
  text_body m = Some body ->
  ~ In (str_lower body) ["/restart"; "/reiniciar"] ->
  sessions w !! wa_id m = Some s ->
  state s = "TICKET_CREATION" ->
  context s !! "ticket_subject" = Some subject ->
  let w' := process_whatsapp_message wall str_lower m w in
  (exists s', sessions w' !! wa_id m = Some s' /\
     state s' = "AWAITING_QUERY" /\ context s' = ∅) /\
  outbox w' = outbox w ++ [(wa_id m, ticket_created_reply)].
Proof.
  intros Htype Hbody Hcmd Hu Hst Hctx w'. subst w'.
  destruct (prelude_spec w (wa_id m) body)
    as (s1 & ts1 & Hs1 & Hst1 & Hc1 & _ & _ & Ho1).
  rewrite (text_branch w m body Htype Hbody Hcmd s1 Hs1). cbn zeta.
  set (w1 := add_message_to_history wall (wa_id m) "user" body
               (get_session wall (wa_id m) w)) in *.
  unfold state_of in Hst1. unfold context_of in Hc1. rewrite Hu in Hst1, Hc1.
  cbn in Hst1, Hc1.
  unfold route. rewrite Hst1, Hst, Hc1, Hctx.
  change (String.eqb "TICKET_CREATION" "INITIAL") with false.
  change (String.eqb "TICKET_CREATION" "TICKET_CREATION") with true.
  cbn [andb]. cbv iota.
  destruct (update_spec w1 (wa_id m) [Kstate "AWAITING_QUERY"; Kcontext ∅] _ Hs1)
    as [H2 H3].
  fold ticket_created_reply. rewrite process_ticket_created_reply.
  destruct (reply_spec _ (wa_id m) ticket_created_reply _ H2)
    as (s3 & ts & Hs3 & Hst3 & Hc3 & _ & _ & Ho3).
  split.
  - exists s3. split; [exact Hs3 |]. split.
    + rewrite Hst3. reflexivity.
    + rewrite Hc3. reflexivity.
  - rewrite Ho3, H3, Ho1. reflexivity.
Qed.

(** X17. The ticket flow takes the next two messages of the user, whatever
    they say (a greeting or a support keyword included, the restart
    commands excepted).  From a session in [TICKET_CREATION] without a
    subject, the first message is stored as [ticket_subject] and answered
    with the request for a description; the second ends the flow: the
    state is [AWAITING_QUERY], the context is empty, and the user is told
    that the ticket was created. *)
Theorem X17_ticket_flow (w : SessionManager) (m1 m2 : inbound) (b1 b2 : string)
    (s : session) :
  msg_type m1 = Some "text" -> text_body m1 = Some b1 ->
  msg_type m2 = Some "text" -> text_body m2 = Some b2 ->
  wa_id m2 = wa_id m1 ->
  ~ In (str_lower b1) ["/restart"; "/reiniciar"] ->
  ~ In (str_lower b2) ["/restart"; "/reiniciar"] ->
  sessions w !! wa_id m1 = Some s ->
  state s = "TICKET_CREATION" ->
  context s !! "ticket_subject" = None ->
  let u := wa_id m1 in
  let w1 := process_whatsapp_message wall str_lower m1 w in
  let w2 := process_whatsapp_message wall str_lower m2 w1 in
  (exists s1, sessions w1 !! u = Some s1 /\
     state s1 = "TICKET_CREATION" /\
     context s1 = <["ticket_subject" := b1]> (context s)) /\
  (exists s2, sessions w2 !! u = Some s2 /\
     state s2 = "AWAITING_QUERY" /\ context s2 = ∅) /\
  outbox w2 = outbox w ++ [(u, describe_reply); (u, ticket_created_reply)].
Proof.
  intros Ht1 Hb1 Ht2 Hb2 Hid Hc1 Hc2 Hu Hst Hctx u w1 w2. subst u w1 w2.
  destruct (ticket_subject_step w m1 b1 s Ht1 Hb1 Hc1 Hu Hst Hctx)
    as ((s1 & Hs1 & Hst1 & Hctx1) & Ho1).
  set (w1 := process_whatsapp_message wall str_lower m1 w) in *.
  assert (Hsub : context s1 !! "ticket_subject" = Some b1)
    by (rewrite Hctx1; apply lookup_insert_eq).
  rewrite <- Hid in Hs1.
  destruct (ticket_description_step w1 m2 b2 s1 b1 Ht2 Hb2 Hc2 Hs1 Hst1 Hsub)
    as ((s2 & Hs2 & Hst2 & Hctx2) & Ho2).
  rewrite Hid in Hs1, Hs2, Ho2.
  split; [exists s1; auto |]. split; [exists s2; auto |].
  rewrite Ho2, Ho1, <- app_assoc. reflexivity.
Qed.

(** X18. A text message that is no command, no greeting to a session in
    [INITIAL], comes while no ticket is being created and shows no ticket
    intent reaches the last branch of the router, which calls the undefined
    name [generate_response]: the exception is caught and logged, nothing
    is delivered, and the store is left as the first two steps made it,
    with the user's message at the end of the history and no reply. *)
Theorem X18_unrouted_message_unanswered (w : SessionManager) (m : inbound)
    (body : string) :
  msg_type m = Some "text" ->
  text_body m = Some body ->
  ~ In (str_lower body) ["/restart"; "/reiniciar"] ->
  (state_of w (wa_id m) = "INITIAL" ->
   ~ In (str_lower body) ["hola"; "hi"; "hello"]) ->
  state_of w (wa_id m) <> "TICKET_CREATION" ->
  detect_ticket_intent str_lower body = false ->
  let u := wa_id m in
  let w' := process_whatsapp_message wall str_lower m w in
  outbox w' = outbox w /\
  exists s' ts, sessions w' !! u = Some s' /\
    state s' = state_of w u /\ context s' = context_of w u /\
    message_history s' = history_of w u ++ [HistoryEntry "user" body ts None].
Proof.
  intros Htype Hbody Hcmd Hgreet Hticket Hintent u w'. subst u w'.
  destruct (prelude_spec w (wa_id m) body)
    as (s1 & ts1 & Hs1 & Hst1 & Hc1 & Hh1 & _ & Ho1).
  rewrite (text_branch w m body Htype Hbody Hcmd s1 Hs1). cbn zeta.
  assert (Hroute : route wall str_lower m body s1
                     (add_message_to_history wall (wa_id m) "user" body
                        (get_session wall (wa_id m) w)) = None).
  { unfold route. rewrite Hst1, Hintent.
    destruct (String.eqb_spec (state_of w (wa_id m)) "TICKET_CREATION") as [E | _];
      [contradiction |].
    destruct (String.eqb_spec (state_of w (wa_id m)) "INITIAL") as [E | _].
    - destruct (str_in (str_lower body) ["hola"; "hi"; "hello"]) eqn:Hin.
      + apply str_in_spec in Hin. destruct (Hgreet E Hin).
      + reflexivity.
    - reflexivity. }
  rewrite Hroute. split; [exact Ho1 |].
  exists s1, ts1. auto.
Qed.

(** X19. A greeting ([hola], [hi] or [hello] after [str.lower]) from a
    user whose session is in [INITIAL], or who has none, moves the session
    to [AWAITING_QUERY] and is answered with the welcome that names the
    user, as [process_text_for_whatsapp] formats it; the history gains the
    greeting and the welcome, in this order, and the context is kept. *)
Theorem X19_greeting (w : SessionManager) (m : inbound) (body : string) :
  msg_type m = Some "text" ->
  text_body m = Some body ->
  In (str_lower body) ["hola"; "hi"; "hello"] ->
  state_of w (wa_id m) = "INITIAL" ->
  let u := wa_id m in
  let w' := process_whatsapp_message wall str_lower m w in
  let welcome := process_text_for_whatsapp (greeting_reply (name m)) in
  (exists s' ts1 ts2, sessions w' !! u = Some s' /\
     state s' = "AWAITING_QUERY" /\ context s' = context_of w u /\
     message_history s' =
       history_of w u ++ [HistoryEntry "user" body ts1 None;
                          HistoryEntry "assistant" welcome ts2 None]) /\
  outbox w' = outbox w ++ [(u, welcome)].
Proof.
  intros Htype Hbody Hgreet Hinit u w' welcome. subst u w' welcome.
  assert (Hcmd : ~ In (str_lower body) ["/restart"; "/reiniciar"]).
  { intros Hin. cbn in Hgreet, Hin.
    destruct Hgreet as [H | [H | [H | []]]]; rewrite <- H in Hin;
      destruct Hin as [E | [E | []]]; discriminate. }
  destruct (prelude_spec w (wa_id m) body)
    as (s1 & ts1 & Hs1 & Hst1 & Hc1 & Hh1 & _ & Ho1).
  rewrite (text_branch w m body Htype Hbody Hcmd s1 Hs1). cbn zeta.
  set (w1 := add_message_to_history wall (wa_id m) "user" body
               (get_session wall (wa_id m) w)) in *.
  apply str_in_spec in Hgreet.
  unfold route. rewrite Hst1, Hinit, Hgreet.
  change (String.eqb "INITIAL" "INITIAL") with true. cbn [andb]. cbv iota.
  destruct (update_spec w1 (wa_id m) [Kstate "AWAITING_QUERY"] _ Hs1) as [H2 H3].
  destruct (reply_spec _ (wa_id m)
              (process_text_for_whatsapp (greeting_reply (name m))) _ H2)
    as (s3 & ts & Hs3 & Hst3 & Hc3 & Hh3 & _ & Ho3).
  split.
  - exists s3, ts1, ts. split; [exact Hs3 |]. split; [rewrite Hst3; reflexivity |].
    split; [rewrite Hc3; exact Hc1 |].
    rewrite Hh3. cbn. rewrite Hh1, <- app_assoc. reflexivity.
  - unfold greeting_reply in *. rewrite Ho3, H3, Ho1. reflexivity.
Qed.

End RouterMore.

(** ** Further properties of the text formatter *)

Lemma all_bytes_app (P : ascii -> bool) (a b : string) :
  all_bytes P (a +:+ b) = all_bytes P a && all_bytes P b.
Proof.
  induction a as [| c a IH]; [reflexivity |].
  rewrite append_cons. cbn [all_bytes]. rewrite IH. apply andb_assoc.
Qed.

Lemma all_bytes_impl (P Q : ascii -> bool) (s : string) :
  (forall c, P c = true -> Q c = true) ->
  all_bytes P s = true -> all_bytes Q s = true.
Proof.
  intros HPQ. induction s as [| c s IH]; [reflexivity |].
  cbn [all_bytes]. rewrite !andb_true_iff. intros [Hc Hs]. auto.
Qed.

Lemma length_append (a b : string) :
  String.length (a +:+ b) = String.length a + String.length b.
Proof.
  induction a as [| c a IH]; [reflexivity |].
  rewrite append_cons. cbn [String.length]. rewrite IH. reflexivity.
Qed.

Lemma append_assoc (a b c : string) : (a +:+ b) +:+ c = a +:+ (b +:+ c).
Proof.
  induction a as [| x a IH]; [reflexivity |].
  rewrite !append_cons, IH. reflexivity.
Qed.

Section Substitution.

(** A pattern that can only match where a byte accepted by [trigger]
    stands. *)
Variable try : string -> option (string * string).
Variable trigger : ascii -> bool.
Hypothesis try_trigger : forall c r, trigger c = false -> try (String c r) = None.

Lemma sub_scan_quiet (s : string) : forall fuel,
  all_bytes (fun c => negb (trigger c)) s = true ->
  sub_scan fuel try s = s.
Proof.
  induction s as [| c s IH]; intros fuel Hs.
  - destruct fuel; reflexivity.
  - cbn [all_bytes] in Hs. apply andb_true_iff in Hs as [Hc Hs].
    apply negb_true_iff in Hc.
    destruct fuel as [| fuel]; [reflexivity |].
    cbn [sub_scan]. rewrite (try_trigger c s Hc), (IH fuel Hs). reflexivity.
Qed.

Lemma sub_scan_skip (a r : string) : forall fuel,
  all_bytes (fun c => negb (trigger c)) a = true ->
  sub_scan (String.length a + fuel) try (a +:+ r) = a +:+ sub_scan fuel try r.
Proof.
  induction a as [| c a IH]; intros fuel Ha.
  - reflexivity.
  - cbn [all_bytes] in Ha. apply andb_true_iff in Ha as [Hc Ha].
    apply negb_true_iff in Hc.
    rewrite !append_cons. cbn [String.length Nat.add sub_scan].
    rewrite (try_trigger c (a +:+ r) Hc), (IH fuel Ha). reflexivity.
Qed.

(** One match between two stretches without a trigger. *)
Lemma re_sub_one (a matched replacement b : string) (c : ascii) (rest : string) :
  all_bytes (fun c => negb (trigger c)) a = true ->
  all_bytes (fun c => negb (trigger c)) b = true ->
  matched = String c rest ->
  try (matched +:+ b) = Some (replacement, b) ->
  re_sub try (a +:+ matched +:+ b) = a +:+ replacement +:+ b.
Proof.
  intros Ha Hb Hm Htry. unfold re_sub.
  rewrite length_append.
  replace (S (String.length a + String.length (matched +:+ b)))
    with (String.length a + S (String.length (matched +:+ b))) by lia.
  rewrite (sub_scan_skip a _ _ Ha). f_equal.
  revert Htry. rewrite Hm, append_cons. intros Htry.
  cbn [sub_scan]. rewrite Htry. f_equal. apply sub_scan_quiet, Hb.
Qed.

End Substitution.

Lemma brackets_trigger (c : ascii) (r : string) :
  negb (not_byte (ascii_of_nat 227) c) = false -> match_brackets (String c r) = None.
Proof.
  unfold not_byte. rewrite negb_involutive. intros Hc.
  unfold match_brackets.
  change (strip_prefix "【" (String c r))
    with (if Ascii.eqb (ascii_of_nat 227) c
          then strip_prefix (String (ascii_of_nat 128) (String (ascii_of_nat 144) EmptyString)) r
          else None).
  rewrite Ascii.eqb_sym, Hc. reflexivity.
Qed.

Lemma bold_trigger (c : ascii) (r : string) :
  negb (not_byte "*" c) = false -> match_bold (String c r) = None.
Proof.
  unfold not_byte. rewrite negb_involutive. intros Hc.
  unfold match_bold. cbn [strip_prefix]. rewrite Ascii.eqb_sym, Hc. reflexivity.
Qed.

Lemma link_trigger (c : ascii) (r : string) :
  negb (not_byte "[" c) = false -> match_link (String c r) = None.
Proof.
  unfold not_byte. rewrite negb_involutive. intros Hc.
  unfold match_link. cbn [strip_prefix]. rewrite Ascii.eqb_sym, Hc. reflexivity.
Qed.

Lemma remove_control_printable (s : string) :
  all_bytes printable s = true -> remove_control s = s.
Proof.
  induction s as [| c s IH]; [reflexivity |].
  cbn [all_bytes remove_control]. unfold printable at 1.
  rewrite andb_true_iff, negb_true_iff. intros [Hc Hs].
  rewrite Hc, (IH Hs). reflexivity.
Qed.

Lemma remove_control_clean (s : string) :
  all_bytes printable (remove_control s) = true.
Proof.
  induction s as [| c s IH]; [reflexivity |].
  cbn [remove_control]. destruct (is_control c) eqn:Hc; [exact IH |].
  cbn [all_bytes]. unfold printable at 1. rewrite Hc, IH. reflexivity.
Qed.

Lemma process_text_unfold (text : string) :
  process_text_for_whatsapp text =
  remove_control
    (re_sub match_link (re_sub match_bold (str_strip (re_sub match_brackets text)))).
Proof. destruct text; [vm_compute; reflexivity | reflexivity]. Qed.

Lemma plain_parts (s : string) :
  plain s = true ->
  all_bytes printable s = true /\
  all_bytes (fun c => negb (negb (not_byte "*" c))) s = true /\
  all_bytes (fun c => negb (negb (not_byte "[" c))) s = true /\
  all_bytes (fun c => negb (negb (not_byte (ascii_of_nat 227) c))) s = true.
Proof.
  intros Hs. unfold plain in Hs.
  repeat split; revert Hs; apply all_bytes_impl; intros c; unfold plain_byte;
    rewrite !andb_true_iff, ?negb_involutive; tauto.
Qed.

(** The stages after the citations are removed, on a text that has
    nothing for them. *)
Lemma later_stages_plain (s : string) :
  plain s = true ->
  remove_control (re_sub match_link (re_sub match_bold s)) = s.
Proof.
  intros Hs. destruct (plain_parts s Hs) as (Hp & Hb & Hl & _).
  unfold re_sub.
  rewrite (sub_scan_quiet match_bold _ bold_trigger s _ Hb).
  rewrite (sub_scan_quiet match_link _ link_trigger s _ Hl).
  apply remove_control_printable, Hp.
Qed.

Lemma process_plain (text : string) :
  plain text = true -> str_strip text = text ->
  process_text_for_whatsapp text = text.
Proof.
  intros Hs Hstrip. destruct (plain_parts text Hs) as (_ & _ & _ & Hc).
  rewrite process_text_unfold. unfold re_sub at 3.
  rewrite (sub_scan_quiet match_brackets _ brackets_trigger text _ Hc), Hstrip.
  apply later_stages_plain, Hs.
Qed.

(** X20. The text [process_text_for_whatsapp] returns holds no control
    character (bytes 0 to 31 and 127): line breaks and tabs of the reply
    are deleted with the rest, so a reply of several lines is sent as one
    line.  A text that has no control character, no [*], no [[] and no
    byte 227, and no white space at either end, is returned as it is. *)
Theorem X20_formatted_text (text : string) :
  all_bytes printable (process_text_for_whatsapp text) = true /\
  all_bytes (not_byte newline) (process_text_for_whatsapp text) = true /\
  (plain text = true -> str_strip text = text ->
   process_text_for_whatsapp text = text).
Proof.
  assert (H : all_bytes printable (process_text_for_whatsapp text) = true)
    by (rewrite process_text_unfold; apply remove_control_clean).
  split; [exact H |]. split; [| apply process_plain].
  revert H. apply all_bytes_impl. intros c. unfold printable, not_byte.
  destruct (Ascii.eqb_spec c newline) as [-> | _]; [vm_compute; discriminate | reflexivity].
Qed.

Lemma lazy_until_skip (k : ascii) (close' x r : string) :
  all_bytes (not_byte newline) x = true ->
  all_bytes (not_byte k) x = true ->
  lazy_until (String k close') (x +:+ String k close' +:+ r) = Some (x, r).
Proof.
  intros Hnl Hk. induction x as [| c x IH].
  - rewrite append_nil_l.
    assert (Hp : strip_prefix (String k close') (String k close' +:+ r) = Some r)
      by (apply strip_prefix_spec; reflexivity).
    rewrite append_cons in *. cbn [lazy_until]. rewrite Hp. reflexivity.
  - cbn [all_bytes] in Hnl, Hk.
    apply andb_true_iff in Hnl as [Hc1 Hnl]. apply andb_true_iff in Hk as [Hc2 Hk].
    unfold not_byte in Hc1, Hc2. apply negb_true_iff in Hc1, Hc2.
    rewrite append_cons. cbn [lazy_until strip_prefix].
    rewrite Ascii.eqb_sym, Hc2, Hc1, (IH Hnl Hk). reflexivity.
Qed.

Lemma plain_no_newline (s : string) :
  plain s = true -> all_bytes (not_byte newline) s = true.
Proof.
  apply all_bytes_impl. intros c. unfold plain_byte, printable, not_byte.
  rewrite !andb_true_iff. intros [[[Hc _] _] _].
  destruct (Ascii.eqb_spec c newline) as [-> | _]; [vm_compute in Hc; discriminate | reflexivity].
Qed.

Lemma plain_app (a b : string) :
  plain (a +:+ b) = true <-> plain a = true /\ plain b = true.
Proof. unfold plain. rewrite all_bytes_app, andb_true_iff. tauto. Qed.

Lemma all_bytes_forallb (P : ascii -> bool) (s : string) :
  all_bytes P s = forallb P (list_ascii_of_string s).
Proof.
  induction s as [| c s IH]; [reflexivity |]. cbn. rewrite IH. reflexivity.
Qed.

Lemma all_bytes_rev (P : ascii -> bool) (s : string) :
  all_bytes P (str_rev s) = all_bytes P s.
Proof.
  unfold str_rev. rewrite !all_bytes_forallb, list_ascii_of_string_of_list_ascii.
  apply eq_iff_eq_true. rewrite !forallb_forall.
  split; intros H c Hc; apply H; [apply in_rev in Hc | apply in_rev]; exact Hc.
Qed.

Lemma strip_any_suffix (prefixes : list string) (s r : string) :
  strip_any prefixes s = Some r -> exists p, s = p +:+ r.
Proof.
  induction prefixes as [| p rest IH]; [discriminate |].
  cbn [strip_any]. destruct (strip_prefix p s) as [r' |] eqn:Hp.
  - intros [= <-]. exists p. apply strip_prefix_spec, Hp.
  - exact IH.
Qed.

Lemma lstrip_all_bytes (P : ascii -> bool) (prefixes : list string) (fuel : nat) :
  forall s, all_bytes P s = true -> all_bytes P (lstrip_fuel fuel prefixes s) = true.
Proof.
  induction fuel as [| fuel IH]; intros s Hs; [exact Hs |].
  cbn [lstrip_fuel]. destruct (strip_any prefixes s) as [r |] eqn:Hr; [| exact Hs].
  apply IH. apply strip_any_suffix in Hr as [p ->].
  rewrite all_bytes_app in Hs. apply andb_true_iff in Hs. tauto.
Qed.

Lemma str_strip_all_bytes (P : ascii -> bool) (s : string) :
  all_bytes P s = true -> all_bytes P (str_strip s) = true.
Proof.
  intros Hs. unfold str_strip. rewrite all_bytes_rev.
  apply lstrip_all_bytes. rewrite all_bytes_rev.
  apply lstrip_all_bytes, Hs.
Qed.

(** X21. What the three substitutions do to one occurrence of their
    pattern among plain text (no control character, no [*], no [[], no
    byte 227): a bold stretch of Markdown becomes a bold stretch of
    WhatsApp, one asterisk on each side; a Markdown link becomes the label,
    a colon and the address; a citation in lenticular brackets is dropped
    together with the white space its removal leaves at the ends of the
    text. *)
Theorem X21_formatting (a x y b : string) :
  plain a = true -> plain x = true -> plain y = true -> plain b = true ->
  (str_strip (a +:+ "**" +:+ x +:+ "**" +:+ b) = a +:+ "**" +:+ x +:+ "**" +:+ b ->
   process_text_for_whatsapp (a +:+ "**" +:+ x +:+ "**" +:+ b)
   = a +:+ "*" +:+ x +:+ "*" +:+ b) /\
  (all_bytes (not_byte "]") x = true -> all_bytes (not_byte ")") y = true ->
   str_strip (a +:+ "[" +:+ x +:+ "](" +:+ y +:+ ")" +:+ b)
   = a +:+ "[" +:+ x +:+ "](" +:+ y +:+ ")" +:+ b ->
   process_text_for_whatsapp (a +:+ "[" +:+ x +:+ "](" +:+ y +:+ ")" +:+ b)
   = a +:+ x +:+ ": " +:+ y +:+ b) /\
  process_text_for_whatsapp (a +:+ "【" +:+ x +:+ "】" +:+ b) = str_strip (a +:+ b).
Proof.
  intros Ha Hx Hy Hb.
  destruct (plain_parts a Ha) as (Hpa & Hba & Hla & Hca).
  destruct (plain_parts x Hx) as (Hpx & Hbx & Hlx & Hcx).
  destruct (plain_parts y Hy) as (Hpy & Hby & Hly & Hcy).
  destruct (plain_parts b Hb) as (Hpb & Hbb & Hlb & Hcb).
  split; [| split].
  - intros Hstrip. rewrite process_text_unfold.
    unfold re_sub at 3.
    rewrite (sub_scan_quiet match_brackets _ brackets_trigger);
      [| rewrite !all_bytes_app, Hca, Hcx, Hcb; reflexivity].
    rewrite Hstrip.
    assert (Hbold : re_sub match_bold (a +:+ ("**" +:+ x +:+ "**") +:+ b)
                    = a +:+ ("*" +:+ x +:+ "*") +:+ b).
    { apply (re_sub_one match_bold _ bold_trigger a _ _ b "*" ("*" +:+ x +:+ "**"));
        [exact Hba | exact Hbb | reflexivity |].
      unfold match_bold.
      assert (Hp : strip_prefix "**" (("**" +:+ x +:+ "**") +:+ b)
                   = Some (x +:+ "**" +:+ b)).
      { apply strip_prefix_spec. rewrite !append_assoc. reflexivity. }
      rewrite Hp. cbn [bind_opt].
      rewrite (lazy_until_skip "*" "*" x b (plain_no_newline x Hx)).
      - reflexivity.
      - revert Hbx. apply all_bytes_impl. intros c. rewrite negb_involutive. auto. }
    rewrite !append_assoc in Hbold. rewrite Hbold.
    unfold re_sub.
    rewrite (sub_scan_quiet match_link _ link_trigger);
      [| rewrite !all_bytes_app, Hla, Hlx, Hlb; reflexivity].
    apply remove_control_printable.
    rewrite !all_bytes_app, Hpa, Hpx, Hpb. reflexivity.
  - intros Hx' Hy' Hstrip. rewrite process_text_unfold.
    unfold re_sub at 3.
    rewrite (sub_scan_quiet match_brackets _ brackets_trigger);
      [| rewrite !all_bytes_app, Hca, Hcx, Hcy, Hcb; reflexivity].
    rewrite Hstrip.
    unfold re_sub at 2.
    rewrite (sub_scan_quiet match_bold _ bold_trigger);
      [| rewrite !all_bytes_app, Hba, Hbx, Hby, Hbb; reflexivity].
    assert (Hlink : re_sub match_link (a +:+ ("[" +:+ x +:+ "](" +:+ y +:+ ")") +:+ b)
                    = a +:+ (x +:+ ": " +:+ y) +:+ b).
    { apply (re_sub_one match_link _ link_trigger a _ _ b "["
               (x +:+ "](" +:+ y +:+ ")"));
        [exact Hla | exact Hlb | reflexivity |].
      unfold match_link.
      assert (Hp : strip_prefix "[" (("[" +:+ x +:+ "](" +:+ y +:+ ")") +:+ b)
                   = Some (x +:+ "](" +:+ (y +:+ ")" +:+ b))).
      { apply strip_prefix_spec. rewrite !append_assoc. reflexivity. }
      rewrite Hp. cbn [bind_opt].
      rewrite (lazy_until_skip "]" "(" x (y +:+ ")" +:+ b) (plain_no_newline x Hx) Hx').
      cbn [bind_opt].
      rewrite (lazy_until_skip ")" EmptyString y b (plain_no_newline y Hy) Hy').
      reflexivity. }
    rewrite !append_assoc in Hlink. rewrite Hlink.
    apply remove_control_printable.
    rewrite !all_bytes_app, Hpa, Hpx, Hpy, Hpb. reflexivity.
  - assert (Hplain : plain (str_strip (a +:+ b)) = true)
      by (apply str_strip_all_bytes, plain_app; auto).
    rewrite process_text_unfold.
    assert (Hcite : re_sub match_brackets (a +:+ ("【" +:+ x +:+ "】") +:+ b)
                    = a +:+ EmptyString +:+ b).
    { apply (re_sub_one match_brackets _ brackets_trigger a _ _ b (ascii_of_nat 227)
               (String (ascii_of_nat 128) (String (ascii_of_nat 144) EmptyString)
                  +:+ x +:+ "】"));
        [exact Hca | exact Hcb | reflexivity |].
      unfold match_brackets.
      assert (Hp : strip_prefix "【" (("【" +:+ x +:+ "】") +:+ b)
                   = Some (x +:+ "】" +:+ b)).
      { apply strip_prefix_spec. rewrite !append_assoc. reflexivity. }
      rewrite Hp. cbn [bind_opt].
      change "】" with (String (ascii_of_nat 227)
                         (String (ascii_of_nat 128) (String (ascii_of_nat 145) EmptyString))).
      rewrite (lazy_until_skip (ascii_of_nat 227) _ x b (plain_no_newline x Hx)).
      - reflexivity.
      - revert Hcx. apply all_bytes_impl. intros c. rewrite negb_involutive. auto. }
    rewrite !append_assoc in Hcite. rewrite Hcite, append_nil_l.
    apply later_stages_plain, Hplain.
Qed.

(** ** The input sanitizer *)

Lemma str_replace_char_app (char : ascii) (replacement a b : string) :
  str_replace_char char replacement (a +:+ b)
  = str_replace_char char replacement a +:+ str_replace_char char replacement b.
Proof.
  induction a as [| c a IH]; [reflexivity |].
  rewrite append_cons. cbn [str_replace_char].
  destruct (Ascii.eqb c char); rewrite IH;
    [rewrite append_assoc | rewrite append_cons]; reflexivity.
Qed.

Lemma replace_all_app (table : list (ascii * string)) : forall a b,
  replace_all table (a +:+ b) = replace_all table a +:+ replace_all table b.
Proof.
  unfold replace_all. induction table as [| item table IH]; intros a b.
  - reflexivity.
  - cbn [fold_left]. rewrite str_replace_char_app. apply IH.
Qed.

Lemma replace_all_single (c : ascii) :
  replace_all replacements (String c EmptyString) = escaped c.
Proof. destruct c as [[] [] [] [] [] [] [] []]; vm_compute; reflexivity. Qed.

Lemma replace_all_each (text : string) :
  replace_all replacements text = escape_each text.
Proof.
  induction text as [| c text IH]; [reflexivity |].
  change (String c text) with (String c EmptyString +:+ text).
  rewrite replace_all_app, replace_all_single, IH. reflexivity.
Qed.

Lemma sanitize_each (text : string) : sanitize_input text = escape_each text.
Proof.
  destruct text as [| c text]; [reflexivity |]. apply replace_all_each.
Qed.

Lemma escape_each_app (a b : string) :
  escape_each (a +:+ b) = escape_each a +:+ escape_each b.
Proof.
  induction a as [| c a IH]; [reflexivity |].
  rewrite append_cons. cbn [escape_each]. rewrite IH, append_assoc. reflexivity.
Qed.

Lemma escaped_harmless (c : ascii) : all_bytes harmless (escaped c) = true.
Proof. destruct c as [[] [] [] [] [] [] [] []]; vm_compute; reflexivity. Qed.

Lemma escaped_safe (c : ascii) :
  harmless c && not_byte "&" c = true -> escaped c = String c EmptyString.
Proof. destruct c as [[] [] [] [] [] [] [] []]; vm_compute; congruence. Qed.

(** X22. The eight replacements of [sanitize_input], made one after the
    other over the whole text, amount to one pass that replaces each
    character on its own.  In that pass [<] and [>] come out as [&amp;lt;]
    and [&amp;gt;]: the ampersand of their entity is replaced again,
    because the dictionary lists [&] after them. *)
Theorem X22_sanitize_one_pass (text a b : string) :
  sanitize_input text = escape_each text /\
  sanitize_input (a +:+ b) = sanitize_input a +:+ sanitize_input b /\
  sanitize_input (a +:+ "<" +:+ b) = sanitize_input a +:+ "&amp;lt;" +:+ sanitize_input b /\
  sanitize_input (a +:+ ">" +:+ b) = sanitize_input a +:+ "&amp;gt;" +:+ sanitize_input b.
Proof.
  rewrite !sanitize_each, !escape_each_app. repeat split; reflexivity.
Qed.

(** X23. Whatever the text, the result of [sanitize_input] holds none of
    the characters [<], [>], the double quote, ['], [/], the backslash and
    the backquote; and a text that holds none of these and no [&] is
    returned as it is. *)
Theorem X23_sanitize_safe (text : string) :
  all_bytes harmless (sanitize_input text) = true /\
  (all_bytes (fun c => harmless c && not_byte "&" c) text = true ->
   sanitize_input text = text).
Proof.
  rewrite sanitize_each. split.
  - induction text as [| c text IH]; [reflexivity |].
    cbn [escape_each]. rewrite all_bytes_app, escaped_harmless, IH. reflexivity.
  - induction text as [| c text IH]; [reflexivity |].
    cbn [all_bytes escape_each]. intros H. apply andb_true_iff in H as [Hc Ht].
    rewrite (escaped_safe c Hc), (IH Ht). reflexivity.
Qed.

(** ** The rate limiter *)

Lemma rate_first (t : Z) (ip : string) (limit window : Z)
    (store : gmap string rate_entry) :
  (forall e, store !! ip = Some e -> expired t window e = true) ->
  fst (rate_limit_check t ip limit window store) = true /\
  snd (rate_limit_check t ip limit window store) !! ip = Some (RateEntry 1 t).
Proof.
  intros Hold. unfold rate_limit_check. cbn zeta.
  destruct (filter _ store !! ip) as [e |] eqn:He.
  - apply map_lookup_filter_Some in He as [He Hfresh]. cbn in Hfresh.
    rewrite (Hold e He) in Hfresh. discriminate.
  - cbn. rewrite lookup_insert_eq. split; reflexivity.
Qed.

Lemma rate_again (t : Z) (ip : string) (limit window : Z)
    (store : gmap string rate_entry) (e : rate_entry) :
  store !! ip = Some e -> expired t window e = false ->
  fst (rate_limit_check t ip limit window store) = (rate_count e + 1 <=? limit)%Z /\
  snd (rate_limit_check t ip limit window store) !! ip
    = Some (RateEntry (rate_count e + 1) (rate_timestamp e)).
Proof.
  intros He Hfresh. unfold rate_limit_check. cbn zeta.
  assert (Hf : filter (fun item => expired t window (snd item) = false) store !! ip = Some e)
    by (apply map_lookup_filter_Some; split; [exact He | exact Hfresh]).
  rewrite Hf. cbn. rewrite lookup_insert_eq, Z.leb_antisym. split; reflexivity.
Qed.

Lemma rate_other (t : Z) (ip ip' : string) (limit window : Z)
    (store : gmap string rate_entry) :
  ip' <> ip ->
  snd (rate_limit_check t ip' limit window store) !! ip
  = filter (fun item => expired t window (snd item) = false) store !! ip.
Proof.
  intros Hne. unfold rate_limit_check. cbn zeta.
  destruct (filter _ store !! ip'); cbn; apply lookup_insert_ne, Hne.
Qed.

Lemma serve_cons (limit window t : Z) (ip : string) (rest : list (Z * string))
    (store : gmap string rate_entry) :
  fst (serve limit window ((t, ip) :: rest) store)
  = (ip, fst (rate_limit_check t ip limit window store))
    :: fst (serve limit window rest (snd (rate_limit_check t ip limit window store))).
Proof.
  cbn [serve]. destruct (rate_limit_check t ip limit window store) as [answer store1].
  cbn [fst snd]. destruct (serve limit window rest store1). reflexivity.
Qed.

(** The answers within one window, from an entry that counts [c]. *)
Lemma serve_counts (limit window t0 : Z) (ip : string) :
  forall (requests : list (Z * string)) (store : gmap string rate_entry) (c : Z),
  store !! ip = Some (RateEntry c t0) ->
  Forall (fun r => (fst r <= t0 + window)%Z) requests ->
  answers_to ip (fst (serve limit window requests store))
  = map (fun k => (c + Z.of_nat k + 1 <=? limit)%Z) (seq 0 (requests_of ip requests)).
Proof.
  induction requests as [| [t ip'] requests IH]; intros store c Hc Hall.
  - reflexivity.
  - apply Forall_cons in Hall as [Ht Hall]. cbn [fst] in Ht.
    assert (Hfresh : expired t window (RateEntry c t0) = false)
      by (unfold expired; cbn; lia).
    rewrite serve_cons. unfold answers_to, requests_of.
    destruct (decide (ip' = ip)) as [-> | Hne].
    + destruct (rate_again t ip limit window store _ Hc Hfresh) as [Ha Hs].
      cbn [rate_count rate_timestamp] in Ha, Hs.
      rewrite !filter_cons_True by reflexivity.
      cbn [map snd length seq]. rewrite Ha.
      f_equal; [f_equal; lia |].
      fold (answers_to ip (fst (serve limit window requests
                                  (snd (rate_limit_check t ip limit window store))))).
      rewrite (IH _ (c + 1)%Z Hs Hall).
      fold (requests_of ip requests).
      rewrite <- seq_shift, map_map. apply map_ext. intros k. f_equal. lia.
    + rewrite !filter_cons_False by (cbn; congruence).
      apply (IH _ c); [| exact Hall].
      rewrite (rate_other t ip ip' limit window store Hne).
      apply map_lookup_filter_Some. split; [exact Hc | exact Hfresh].
Qed.

(** X24. Within one window the limiter counts.  When an address that has
    no entry makes a request at [t0], that request is allowed, whatever the
    limit; of the requests that follow until [t0 + window], made by any
    addresses in any order, the [k]-th further request of the address
    (counting from 0) is allowed exactly when [k + 2 <= limit].  So an
    address gets [limit] requests per window, and one when the limit is
    below one. *)
Theorem X24_rate_limit_window (limit window t0 : Z) (ip : string)
    (requests : list (Z * string)) (store : gmap string rate_entry) :
  store !! ip = None ->
  Forall (fun r => (fst r <= t0 + window)%Z) requests ->
  answers_to ip (fst (serve limit window ((t0, ip) :: requests) store))
  = true :: map (fun k => (Z.of_nat k + 2 <=? limit)%Z)
                (seq 0 (requests_of ip requests)).
Proof.
  intros Hnone Hall. rewrite serve_cons.
  destruct (rate_first t0 ip limit window store) as [Ha Hs];
    [intros e He; congruence |].
  unfold answers_to. rewrite filter_cons_True by reflexivity.
  cbn [map snd]. rewrite Ha. f_equal.
  fold (answers_to ip (fst (serve limit window requests
                              (snd (rate_limit_check t0 ip limit window store))))).
  rewrite (serve_counts limit window t0 ip requests _ 1%Z Hs Hall).
  apply map_ext. intros k. f_equal. lia.
Qed.

(** X25. Each call clears the dictionary of the entries older than the
    window, for every address: with a window that is not negative, no
    entry left after a call is older than the window, the entries of the
    other addresses that are not older are kept as they were, and an
    address whose entry was older is allowed and starts a new window at the
    time of the call, whatever its count was. *)
Theorem X25_rate_limit_purge (t : Z) (ip : string) (limit window : Z)
    (store : gmap string rate_entry) :
  (0 <= window)%Z ->
  let store' := snd (rate_limit_check t ip limit window store) in
  (forall ip' e, store' !! ip' = Some e -> expired t window e = false) /\
  (forall ip' e, ip' <> ip -> store !! ip' = Some e -> expired t window e = false ->
     store' !! ip' = Some e) /\
  (forall e, store !! ip = Some e -> expired t window e = true ->
     fst (rate_limit_check t ip limit window store) = true /\
     store' !! ip = Some (RateEntry 1 t)).
Proof.
  intros Hwindow store'. subst store'. split; [| split].
  - intros ip' e. destruct (decide (ip' = ip)) as [-> | Hne].
    + destruct (store !! ip) as [e0 |] eqn:He0.
      * destruct (expired t window e0) eqn:Hfresh.
        -- destruct (rate_first t ip limit window store) as [_ Hs];
             [intros e1 He1; congruence |].
           rewrite Hs. intros [= <-]. unfold expired. cbn. lia.
        -- destruct (rate_again t ip limit window store e0 He0 Hfresh) as [_ Hs].
           rewrite Hs. intros [= <-]. exact Hfresh.
      * destruct (rate_first t ip limit window store) as [_ Hs];
          [intros e1 He1; congruence |].
        rewrite Hs. intros [= <-]. unfold expired. cbn. lia.
    + rewrite (rate_other t ip' ip limit window store) by congruence.
      intros He. apply map_lookup_filter_Some in He as [_ Hfresh]. exact Hfresh.
  - intros ip' e Hne He Hfresh.
    rewrite (rate_other t ip' ip limit window store) by congruence.
    apply map_lookup_filter_Some. split; [exact He | exact Hfresh].
  - intros e He Hold. apply rate_first. intros e1 He1.
    rewrite He in He1. injection He1 as <-. exact Hold.
Qed.

(** ** Delivery with retries *)

(** X26. [send_whatsapp_message_background] never posts more than three
    times and never sleeps more than three seconds in all: it sleeps one
    second after a first failed post and two after a second.  It returns
    the response of the first post that succeeds, provided every post
    before it failed with a [RequestException]; in every other case it
    returns [None], and no exception leaves it. *)
Theorem X26_bounded_retries (post : nat -> post_result) :
  let trace := send_whatsapp_message_background post in
  1 <= posts trace <= 3 /\
  sleeps trace = take (posts trace - 1) [1%Z; 2%Z] /\
  (forall response,
     returned trace = Some response <->
     exists k, k < 3 /\ post k = PostOk response /\
       forall j, j < k -> post j = PostRequestException) /\
  (forall k, k < posts trace - 1 -> post k = PostRequestException).
Proof.
  cbn zeta. unfold send_whatsapp_message_background. cbn [seq retry_loop].
  destruct (post 0) as [r0 | |] eqn:H0; cbn.
  - split; [lia |]. split; [reflexivity |]. split.
    + intros r. split.
      * intros [= <-]. exists 0. split; [lia |]. split; [exact H0 | intros j Hj; lia].
      * intros (k & Hk & Hok & Hbefore). destruct k as [| k]; [congruence |].
        specialize (Hbefore 0 ltac:(lia)). congruence.
    + intros k Hk. lia.
  - destruct (post 1) as [r1 | |] eqn:H1; cbn.
    + split; [lia |]. split; [reflexivity |]. split.
      * intros r. split.
        -- intros [= <-]. exists 1. split; [lia |]. split; [exact H1 |].
           intros j Hj. assert (j = 0) as -> by lia. exact H0.
        -- intros (k & Hk & Hok & Hbefore). destruct k as [| [| k]]; [congruence | congruence |].
           specialize (Hbefore 1 ltac:(lia)). congruence.
      * intros k Hk. assert (k = 0) as -> by lia. exact H0.
    + destruct (post 2) as [r2 | |] eqn:H2; cbn.
      * split; [lia |]. split; [reflexivity |]. split.
        -- intros r. split.
           ++ intros [= <-]. exists 2. split; [lia |]. split; [exact H2 |].
              intros j Hj. destruct j as [| [| j]]; [exact H0 | exact H1 | lia].
           ++ intros (k & Hk & Hok & Hbefore).
              destruct k as [| [| [| k]]]; [congruence | congruence | congruence | lia].
        -- intros k Hk. destruct k as [| [| k]]; [exact H0 | exact H1 | lia].
      * split; [lia |]. split; [reflexivity |]. split.
        -- intros r. split; [discriminate |].
           intros (k & Hk & Hok & Hbefore).
           destruct k as [| [| [| k]]]; [congruence | congruence | congruence | lia].
        -- intros k Hk. destruct k as [| [| k]]; [exact H0 | exact H1 | lia].
      * split; [lia |]. split; [reflexivity |]. split.
        -- intros r. split; [discriminate |].
           intros (k & Hk & Hok & Hbefore).
           destruct k as [| [| [| k]]]; [congruence | congruence | congruence | lia].
        -- intros k Hk. destruct k as [| [| k]]; [exact H0 | exact H1 | lia].
    + split; [lia |]. split; [reflexivity |]. split.
      * intros r. split; [discriminate |].
        intros (k & Hk & Hok & Hbefore). destruct k as [| [| k]]; [congruence | congruence |].
        specialize (Hbefore 1 ltac:(lia)). congruence.
      * intros k Hk. assert (k = 0) as -> by lia. exact H0.
  - split; [lia |]. split; [reflexivity |]. split.
    + intros r. split; [discriminate |].
      intros (k & Hk & Hok & Hbefore). destruct k as [| k]; [congruence |].
      specialize (Hbefore 0 ltac:(lia)). congruence.
    + intros k Hk. lia.
Qed.

(** ** The thread of a user *)

Lemma truthy_Some (o : option string) :
  truthy o = true <-> exists x, o = Some x /\ x <> EmptyString.
Proof.
  destruct o as [[| c rest] |]; cbn; split; try discriminate.
  - intros (x & [= <-] & Hx). congruence.
  - intros _. eexists. split; [reflexivity | discriminate].
  - reflexivity.
  - intros (x & H & _). discriminate.
Qed.

(** X27. As long as the file [threads.json] does not exist,
    [get_or_create_thread] raises for every user: a thread is created at
    the provider when that call succeeds, and then the assignment to the
    unbound [threads] raises, before the file is written, so the file is
    still absent afterwards.  [generate_assistant_response], which catches
    the exception, then answers the generic apology, whatever the
    message. *)
Theorem X27_missing_threads_file (env : assistant_env) (create : outcome string)
    (message user_id assistant_id : string) (user_name : option string) :
  env_client env = Ok tt ->
  env_assistant_id env = Some assistant_id ->
  assistant_id <> EmptyString ->
  env_thread env user_id
    = thread_outcome (get_or_create_thread (env_client env) create FileAbsent user_id) ->
  let result := get_or_create_thread (env_client env) create FileAbsent user_id in
  thread_outcome result = Raise /\
  threads_after result = FileAbsent /\
  (thread_created result = true <-> exists new_id, create = Ok new_id) /\
  generate_assistant_response env message user_id user_name = Some (Ok error_apology).
Proof.
  intros Hclient Hid Hne Hthread result.
  assert (Hraise : thread_outcome result = Raise).
  { subst result. unfold get_or_create_thread. rewrite Hclient. cbn.
    destruct create; reflexivity. }
  split; [exact Hraise |]. split; [| split].
  - subst result. unfold get_or_create_thread. rewrite Hclient. cbn.
    destruct create; reflexivity.
  - subst result. unfold get_or_create_thread. rewrite Hclient. cbn.
    destruct create as [new_id |]; cbn; split; eauto; try discriminate.
    intros (x & Hx). discriminate.
  - fold result in Hthread. rewrite Hraise in Hthread.
    unfold generate_assistant_response, assistant_response_body.
    rewrite Hclient, Hid, Hthread.
    destruct assistant_id; [congruence | reflexivity].
Qed.

(** X28. When the file can be written to (it holds an object, or it is
    replaced because reading it raised) and the provider answers a thread
    id that is not empty, the first call for a user returns a thread id and
    leaves a file from which every later call returns the same id, creates
    nothing and writes nothing, the provider being asked no more.  The
    thread ids of the other users in an object are kept; a file whose
    reading raised is replaced by one that holds the new id alone. *)
Theorem X28_thread_is_kept (create create' : outcome string)
    (file : threads_file) (user_id new_id : string) :
  file <> FileAbsent ->
  create = Ok new_id -> new_id <> EmptyString ->
  let first := get_or_create_thread (Ok tt) create file user_id in
  let again := get_or_create_thread (Ok tt) create' (threads_after first) user_id in
  (exists thread_id, thread_outcome first = Ok thread_id /\
     thread_outcome again = Ok thread_id /\ thread_id <> EmptyString) /\
  thread_created again = false /\
  threads_after again = threads_after first /\
  (forall threads, file = FileThreads threads ->
     exists threads', threads_after first = FileThreads threads' /\
       forall v, v <> user_id -> threads' !! v = threads !! v) /\
  (file = FileUnreadable ->
   threads_after first = FileThreads {[ user_id := new_id ]}).
Proof.
  intros Hfile -> Hnew first again.
  assert (Hfresh : forall threads : gmap string string,
            truthy (<[user_id := new_id]> threads !! user_id) = true).
  { intros threads. rewrite lookup_insert_eq. apply truthy_Some. eauto. }
  destruct file as [| | threads]; [congruence | |].
  - subst first again. cbn. rewrite lookup_insert_eq.
    destruct new_id as [| c new_id]; [congruence |]. cbn.
    split; [eexists; repeat split; discriminate |].
    split; [reflexivity |]. split; [reflexivity |].
    split; [discriminate | reflexivity].
  - subst first again. cbn.
    destruct (truthy (threads !! user_id)) eqn:Hold.
    + cbn. rewrite Hold. cbn.
      apply truthy_Some in Hold as (x & Hx & Hne). rewrite Hx. cbn.
      split; [exists x; auto |]. split; [reflexivity |]. split; [reflexivity |].
      split; [| discriminate].
      intros threads0 [= <-]. exists threads. auto.
    + cbn. rewrite (Hfresh threads). cbn. rewrite lookup_insert_eq. cbn.
      split; [exists new_id; auto |]. split; [reflexivity |]. split; [reflexivity |].
      split; [| discriminate].
      intros threads0 [= <-]. eexists. split; [reflexivity |].
      intros v Hv. apply lookup_insert_ne. congruence.
Qed.

(** ** The polling loop without a limit *)

Lemma client_wait_forever (retrieve : nat -> outcome string) (fuel : nat) :
  (forall k, keeps_waiting (retrieve k)) ->
  forall k status, status <> "completed" ->
  client_wait fuel retrieve k status = None.
Proof.
  intros Hall. induction fuel as [| fuel IH]; intros k status Hs.
  - cbn. apply String.eqb_neq in Hs. rewrite Hs. reflexivity.
  - cbn [client_wait]. apply String.eqb_neq in Hs. rewrite Hs.
    destruct (Hall k) as (s & -> & Hc & Hf).
    apply String.eqb_neq in Hf. rewrite Hf. apply IH, Hc.
Qed.

Lemma client_wait_ends (retrieve : nat -> outcome string) (n : nat) :
  forall fuel k status,
  (forall j, j < n -> keeps_waiting (retrieve (k + j))) ->
  ~ keeps_waiting (retrieve (k + n)) ->
  n < fuel ->
  exists r, client_wait fuel retrieve k status = Some r.
Proof.
  induction n as [| n IH]; intros fuel k status Hbefore Hend Hfuel.
  - destruct fuel as [| fuel]; [lia |]. cbn [client_wait].
    destruct (String.eqb status "completed"); [eauto |].
    rewrite Nat.add_0_r in Hend.
    destruct (retrieve k) as [s |] eqn:Hk; [| eauto].
    destruct (String.eqb_spec s "failed") as [-> | Hf]; [eauto |].
    destruct fuel as [| fuel]; cbn [client_wait];
      destruct (String.eqb_spec s "completed") as [-> | Hc]; eauto;
      destruct Hend; exists s; auto.
  - destruct fuel as [| fuel]; [lia |]. cbn [client_wait].
    destruct (String.eqb status "completed"); [eauto |].
    destruct (Hbefore 0 ltac:(lia)) as (s & Hk & Hc & Hf).
    rewrite Nat.add_0_r in Hk. rewrite Hk.
    apply String.eqb_neq in Hf. rewrite Hf.
    apply IH; [| | lia].
    + intros j Hj. replace (S k + j) with (k + S j) by lia. apply Hbefore. lia.
    + replace (S k + n) with (k + S n) by lia. exact Hend.
Qed.

(** X29. [OpenAIClient.get_assistant_response] waits for the run without
    a limit of time and without a pause: its loop ends only when a
    retrieval answers [completed] or [failed], or raises.  If the set-up
    calls succeed and every retrieval answers another status (a run that
    stays [queued], or one that was [cancelled] or has [expired]), the call
    does not return, however many turns the loop is given.  If after [n]
    such retrievals one answers [completed] or [failed] or raises, the
    call returns a reply within [n + 1] turns. *)
Theorem X29_client_waits_without_limit (env : client_env) (status : string) :
  cl_client env = Ok tt -> cl_thread env = Ok tt -> cl_post_message env = Ok tt ->
  cl_run env = Ok status -> status <> "completed" ->
  ((forall k, keeps_waiting (cl_retrieve env k)) ->
   forall fuel, get_assistant_response fuel env = None) /\
  (forall n,
     (forall j, j < n -> keeps_waiting (cl_retrieve env j)) ->
     ~ keeps_waiting (cl_retrieve env n) ->
     forall fuel, n < fuel -> exists reply, get_assistant_response fuel env = Some reply).
Proof.
  intros Hc Ht Hp Hr Hs. unfold get_assistant_response. rewrite Hc, Ht, Hp, Hr.
  split.
  - intros Hall fuel.
    rewrite (client_wait_forever _ fuel Hall 0 status Hs). reflexivity.
  - intros n Hbefore Hend fuel Hfuel.
    destruct (client_wait_ends (cl_retrieve env) n fuel 0 status Hbefore Hend Hfuel)
      as (r & ->).
    destruct r; eauto.
    destruct (cl_messages env) as [data |]; eauto.
    destruct (first_assistant_reply data); eauto.
Qed.

(** ** The further properties at sample inputs *)

Lemma X1_other_users_untouched_witness :
  "34600111222" <> "34600999888" /\
  sessions (process_whatsapp_message sample_wall ascii_lower sample_inbound
              sample_pair) !! "34600999888" = Some sample_session /\
  sessions (restart_session sample_wall "34600111222" sample_pair) !! "34600999888"
    = Some sample_session.
Proof.
  assert (H : "34600111222" <> "34600999888") by discriminate.
  split; [exact H |].
  destruct (X1_other_users_untouched sample_wall ascii_lower sample_pair
              "34600111222" "34600999888" H) as (_ & _ & Hr & _ & _ & Hp).
  split.
  - rewrite (Hp sample_inbound eq_refl). vm_compute. reflexivity.
  - rewrite Hr. vm_compute. reflexivity.
Defined.

Lemma X3_absent_user_noop_witness :
  sessions sample_manager !! "34600999888" = None /\
  add_message_to_history sample_wall "34600999888" "user" "hola" sample_manager
    = sample_manager /\
  restart_session sample_wall "34600999888" sample_manager = sample_manager.
Proof.
  assert (H : sessions sample_manager !! "34600999888" = None)
    by (vm_compute; reflexivity).
  split; [exact H |].
  destruct (X3_absent_user_noop sample_wall sample_manager "34600999888" H)
    as (_ & Hr & _ & Ha & _).
  split; [apply Ha | exact Hr].
Defined.

Lemma X4_history_append_only_witness :
  let u := "34600111222" in
  let ops := [ OpAddMessage u "user" "gracias"; OpCleanupPass; OpGetSession u;
               OpAddMessage "34600999888" "user" "hola";
               OpAddMessage u "assistant" "de nada"; OpSaveSessions ] in
  (sessions sample_manager !! u = Some sample_session /\
   survives sample_wall u ops sample_manager = true /\
   forallb (fun op => negb (rewrites_history u op)) ops = true) /\
  exists s' extra,
    sessions (run sample_wall ops sample_manager) !! u = Some s' /\
    message_history s' = sample_entries ++ extra /\
    conversation extra = [("user", "gracias"); ("assistant", "de nada")].
Proof.
  cbn zeta.
  set (ops := [ OpAddMessage "34600111222" "user" "gracias"; OpCleanupPass;
                OpGetSession "34600111222";
                OpAddMessage "34600999888" "user" "hola";
                OpAddMessage "34600111222" "assistant" "de nada"; OpSaveSessions ]).
  assert (H1 : sessions sample_manager !! "34600111222" = Some sample_session)
    by (vm_compute; reflexivity).
  assert (H2 : survives sample_wall "34600111222" ops sample_manager = true)
    by (vm_compute; reflexivity).
  assert (H3 : forallb (fun op => negb (rewrites_history "34600111222" op)) ops = true)
    by (vm_compute; reflexivity).
  split; [split; [exact H1 | split; [exact H2 | exact H3]] |].
  exact (X4_history_append_only sample_wall ops sample_manager "34600111222"
           sample_session H1 H2 H3).
Defined.

Lemma X5_recent_history_witness :
  sessions sample_manager !! "34600111222" = Some sample_session /\
  length (get_message_history "34600111222" 1 sample_manager) = 1 /\
  get_message_history "34600111222" (-1) sample_manager = drop 1 sample_entries.
Proof.
  assert (H : sessions sample_manager !! "34600111222" = Some sample_session)
    by (vm_compute; reflexivity).
  split; [exact H |].
  split.
  - destruct (X5_recent_history sample_manager "34600111222" sample_session 1 H)
      as (Hpos & _).
    destruct (Hpos ltac:(lia)) as (older & _ & Hlen). exact Hlen.
  - destruct (X5_recent_history sample_manager "34600111222" sample_session (-1) H)
      as (_ & Hneg).
    exact (Hneg ltac:(lia)).
Defined.

Lemma late_clock_monotone : clock_monotone late_clock.
Proof.
  intros i j Hij. unfold late_clock.
  destruct (Nat.ltb_spec i 3), (Nat.ltb_spec j 3); try lia.
  vm_compute. discriminate.
Qed.

Lemma X6_last_activity_monotone_witness :
  let u := "34600111222" in
  let ops := [ OpCleanupPass; OpAddMessage u "user" "hola"; OpEndSession u;
               OpGetSession u ] in
  (clock_monotone late_clock /\
   activity_in_past late_clock sample_manager /\
   forallb (fun op => negb (is_load op)) ops = true /\
   sessions sample_manager !! u = Some sample_session) /\
  exists s', sessions (run late_clock ops sample_manager) !! u = Some s' /\
    (to_us (last_activity sample_session) <= to_us (last_activity s'))%Z.
Proof.
  cbn zeta.
  set (ops := [ OpCleanupPass; OpAddMessage "34600111222" "user" "hola";
                OpEndSession "34600111222"; OpGetSession "34600111222" ]).
  assert (H2 : activity_in_past late_clock sample_manager).
  { intros u s Hs. unfold sample_manager in Hs. cbn [sessions] in Hs.
    apply lookup_singleton_Some in Hs as [_ <-]. vm_compute. discriminate. }
  assert (H3 : forallb (fun op => negb (is_load op)) ops = true) by reflexivity.
  assert (H4 : sessions sample_manager !! "34600111222" = Some sample_session)
    by (vm_compute; reflexivity).
  split; [split; [exact late_clock_monotone | split; [exact H2 | split; [exact H3 | exact H4]]] |].
  eexists. split; [vm_compute; reflexivity |].
  eapply (X6_last_activity_monotone late_clock ops sample_manager "34600111222");
    [exact late_clock_monotone | exact H2 | exact H3 | exact H4 |].
  vm_compute. reflexivity.
Defined.

Lemma X7_active_session_untouched_witness :
  let wall := stopped_clock (after_noon 1 0) in
  let u := "34600111222" in
  ((0 <= inactivity_warning sample_manager < 2 ^ 34)%Z /\
   (0 <= session_timeout sample_manager < 2 ^ 34)%Z /\
   sessions sample_manager !! u = Some sample_session /\
   (inactive_us (wall (clock_reads sample_manager)) sample_session
    < inactivity_warning sample_manager * 1000000)%Z /\
   (inactive_us (wall (clock_reads sample_manager)) sample_session
    < session_timeout sample_manager * 1000000)%Z) /\
  sessions (cleanup_pass wall sample_manager) !! u = Some sample_session /\
  sent_to u (outbox (cleanup_pass wall sample_manager)) = [].
Proof.
  cbn zeta.
  assert (Hw : (0 <= inactivity_warning sample_manager < 2 ^ 34)%Z)
    by (vm_compute; split; [discriminate | reflexivity]).
  assert (Ht : (0 <= session_timeout sample_manager < 2 ^ 34)%Z)
    by (vm_compute; split; [discriminate | reflexivity]).
  assert (H1 : sessions sample_manager !! "34600111222" = Some sample_session)
    by (vm_compute; reflexivity).
  assert (H2 : (inactive_us (stopped_clock (after_noon 1 0) (clock_reads sample_manager))
                  sample_session < inactivity_warning sample_manager * 1000000)%Z)
    by (vm_compute; reflexivity).
  assert (H3 : (inactive_us (stopped_clock (after_noon 1 0) (clock_reads sample_manager))
                  sample_session < session_timeout sample_manager * 1000000)%Z)
    by (vm_compute; reflexivity).
  split; [split; [exact Hw | split; [exact Ht | split;
            [exact H1 | split; [exact H2 | exact H3]]]] |].
  exact (X7_active_session_untouched (stopped_clock (after_noon 1 0)) sample_manager
           "34600111222" sample_session Hw Ht H1 H2 H3).
Defined.

Lemma X9_after_pass_flags_witness :
  let wall := stopped_clock (after_noon 6 0) in
  let u := "34600111222" in
  exists s', sessions (cleanup_pass wall sample_manager) !! u = Some s' /\
    reached (inactivity_warning sample_manager)
            (wall (clock_reads sample_manager)) s' = true /\
    inactivity_warning_sent s' = true.
Proof.
  cbn zeta. eexists.
  split; [vm_compute; reflexivity |].
  split; [vm_compute; reflexivity |].
  eapply (X9_after_pass_flags (stopped_clock (after_noon 6 0)) sample_manager
            "34600111222");
    [vm_compute; reflexivity | vm_compute; reflexivity].
Defined.

Lemma X10_marked_session_never_swept_witness :
  let wall := stopped_clock (after_noon 20 0) in
  let u := "34600111222" in
  (sessions sample_marked !! u = Some (set_closing_notice_sent true sample_session) /\
   closing_notice_sent (set_closing_notice_sent true sample_session) = true /\
   reached (session_timeout sample_marked) (wall 0)
           (set_closing_notice_sent true sample_session) = true) /\
  exists s', sessions (_cleanup_expired_sessions wall 3 sample_marked) !! u = Some s' /\
    closing_notice_sent s' = true /\ last_activity s' = noon.
Proof.
  cbn zeta.
  assert (H1 : sessions sample_marked !! "34600111222"
               = Some (set_closing_notice_sent true sample_session))
    by (vm_compute; reflexivity).
  split; [split; [exact H1 | split; [reflexivity | vm_compute; reflexivity]] |].
  exact (X10_marked_session_never_swept (stopped_clock (after_noon 20 0)) 3
           sample_marked "34600111222" _ H1 eq_refl).
Defined.

Lemma X11_load_stops_at_bad_record_witness :
  let bad := JsonSession "yesterday" "2025-02-28T12:00:00" "INITIAL" ∅ None []
                         None None None in
  (Forall (fun item => is_Some (loaded_session item.2)) sample_file /\
   (no_timestamp (js_created_at bad) = true \/
    no_timestamp (js_last_activity bad) = true)) /\
  load_sessions (sample_file ++ [("34600999888", bad);
                                 ("34600555444", serializable_session sample_session)])
                (init 600 300)
  = load_sessions sample_file (init 600 300).
Proof.
  cbn zeta.
  set (bad := JsonSession "yesterday" "2025-02-28T12:00:00" "INITIAL" ∅ None []
                          None None None).
  assert (H1 : Forall (fun item => is_Some (loaded_session item.2)) sample_file).
  { exact (saved_sessions_load sample_manager). }
  assert (H2 : no_timestamp (js_created_at bad) = true \/
               no_timestamp (js_last_activity bad) = true) by (left; reflexivity).
  split; [split; [exact H1 | exact H2] |].
  exact (proj1 (X11_load_stops_at_bad_record sample_file
                  [("34600555444", serializable_session sample_session)]
                  "34600999888" bad (init 600 300) H1 H2)).
Defined.

Lemma X12_load_defaults_witness :
  let js := JsonSession "2025-02-28T12:00:00" "2025-02-28T12:05:30" "AWAITING_QUERY"
                        ∅ None sample_entries None None None in
  (fromisoformat (js_created_at js) = Some noon /\
   fromisoformat (js_last_activity js) = Some (after_noon 5 30)) /\
  exists s, sessions (load_sessions [("34600111222", js)] (init 600 300))
              !! "34600111222" = Some s /\
    inactivity_warning_sent s = false /\ closing_notice_sent s = false /\
    meta s = Meta (Some 2%Z) (Some 0%Z).
Proof.
  cbn zeta.
  set (js := JsonSession "2025-02-28T12:00:00" "2025-02-28T12:05:30" "AWAITING_QUERY"
                         ∅ None sample_entries None None None).
  assert (H1 : fromisoformat (js_created_at js) = Some noon)
    by (vm_compute; reflexivity).
  assert (H2 : fromisoformat (js_last_activity js) = Some (after_noon 5 30))
    by (vm_compute; reflexivity).
  split; [split; [exact H1 | exact H2] |].
  destruct (X12_load_defaults js noon (after_noon 5 30) "34600111222" (init 600 300)
              H1 H2)
    as (s & Hs & _ & _ & _ & _ & _ & _ & Hw & Hc & Hm & _).
  exists s. split; [exact Hs |].
  split; [exact (Hw eq_refl) | split; [exact (Hc eq_refl) | exact (Hm eq_refl)]].
Defined.

Lemma X13_save_once_in_five_minutes_witness :
  (forall k, k < 10 ->
     to_us (sweeper_clock k) = (to_us (sweeper_clock 0) + 30000000 * Z.of_nat k)%Z) /\
  length (filter (fun k => save_due (sweeper_clock k) = true) (seq 0 10)) = 1.
Proof.
  assert (H : forall k, k < 10 ->
            to_us (sweeper_clock k) = (to_us (sweeper_clock 0) + 30000000 * Z.of_nat k)%Z).
  { intros k Hk.
    do 10 (destruct k as [| k]; [vm_compute; reflexivity |]). lia. }
  split; [exact H |].
  exact (proj2 (X13_save_once_in_five_minutes sweeper_clock H)).
Defined.

Lemma X14_no_second_save_in_period_witness :
  ((to_us (after_noon 5 29) + 30000000 <= to_us (after_noon 10 0))%Z /\
   save_due (after_noon 5 29) = true /\ save_due (after_noon 10 0) = true) /\
  (to_us (after_noon 5 29) / 300000000 < to_us (after_noon 10 0) / 300000000)%Z.
Proof.
  assert (H1 : (to_us (after_noon 5 29) + 30000000 <= to_us (after_noon 10 0))%Z)
    by (vm_compute; discriminate).
  assert (H2 : save_due (after_noon 5 29) = true) by (vm_compute; reflexivity).
  assert (H3 : save_due (after_noon 10 0) = true) by (vm_compute; reflexivity).
  split; [split; [exact H1 | split; [exact H2 | exact H3]] |].
  exact (X14_no_second_save_in_period _ _ H1 H2 H3).
Defined.


Lemma X16_restart_command_witness :
  let m := sample_text "34600111222" "Ana" "/Reiniciar" in
  let w' := process_whatsapp_message sample_wall ascii_lower m sample_manager in
  (msg_type m = Some "text" /\ text_body m = Some "/Reiniciar" /\
   In (ascii_lower "/Reiniciar") ["/restart"; "/reiniciar"]) /\
  (exists s' ts, sessions w' !! "34600111222" = Some s' /\
     state s' = "INITIAL" /\
     message_history s' = [HistoryEntry "assistant" restart_reply ts None] /\
     meta s' = Meta (Some 4%Z) (Some 1%Z)) /\
  outbox w' = [("34600111222", restart_reply)].
Proof.
  cbn zeta.
  assert (H3 : In (ascii_lower "/Reiniciar") ["/restart"; "/reiniciar"])
    by (right; left; reflexivity).
  split; [split; [reflexivity | split; [reflexivity | exact H3]] |].
  destruct (X16_restart_command sample_wall ascii_lower sample_manager
              (sample_text "34600111222" "Ana" "/Reiniciar") "/Reiniciar"
              eq_refl eq_refl H3)
    as ((s' & ts & Hs & Hst & _ & _ & Hh & Hm) & Ho).
  split; [| exact Ho].
  exists s', ts. split; [exact Hs |]. split; [exact Hst |]. split; [exact Hh |].
  exact Hm.
Defined.

Lemma X17_ticket_flow_witness :
  let u := "34600111222" in
  let m1 := sample_text u "Ana" "La factura no carga" in
  let m2 := sample_text u "Ana" "hola" in
  let w1 := process_whatsapp_message sample_wall ascii_lower m1 sample_ticket in
  let w2 := process_whatsapp_message sample_wall ascii_lower m2 w1 in
  (~ In (ascii_lower "La factura no carga") ["/restart"; "/reiniciar"] /\
   ~ In (ascii_lower "hola") ["/restart"; "/reiniciar"] /\
   sessions sample_ticket !! u = Some (set_state "TICKET_CREATION" sample_session) /\
   context (set_state "TICKET_CREATION" sample_session) !! "ticket_subject" = None) /\
  (exists s1, sessions w1 !! u = Some s1 /\
     context s1 !! "ticket_subject" = Some "La factura no carga") /\
  (exists s2, sessions w2 !! u = Some s2 /\ state s2 = "AWAITING_QUERY") /\
  outbox w2 = [(u, describe_reply); (u, ticket_created_reply)].
Proof.
  cbn zeta.
  assert (H1 : ~ In (ascii_lower "La factura no carga") ["/restart"; "/reiniciar"])
    by (intros [E | [E | []]]; vm_compute in E; discriminate).
  assert (H2 : ~ In (ascii_lower "hola") ["/restart"; "/reiniciar"])
    by (intros [E | [E | []]]; vm_compute in E; discriminate).
  assert (H3 : sessions sample_ticket !! "34600111222"
               = Some (set_state "TICKET_CREATION" sample_session))
    by (vm_compute; reflexivity).
  assert (H4 : context (set_state "TICKET_CREATION" sample_session)
                 !! "ticket_subject" = None) by reflexivity.
  split; [split; [exact H1 | split; [exact H2 | split; [exact H3 | exact H4]]] |].
  destruct (X17_ticket_flow sample_wall ascii_lower sample_ticket
              (sample_text "34600111222" "Ana" "La factura no carga")
              (sample_text "34600111222" "Ana" "hola")
              "La factura no carga" "hola" _
              eq_refl eq_refl eq_refl eq_refl eq_refl H1 H2 H3 eq_refl H4)
    as ((s1 & Hs1 & _ & Hc1) & (s2 & Hs2 & Hst2 & _) & Ho).
  split; [| split].
  - exists s1. split; [exact Hs1 |]. rewrite Hc1. apply lookup_insert_eq.
  - exists s2. split; [exact Hs2 | exact Hst2].
  - exact Ho.
Defined.

Lemma X18_unrouted_message_unanswered_witness :
  let u := "34600111222" in
  let m := sample_text u "Ana" "Buenos dias" in
  let w' := process_whatsapp_message sample_wall ascii_lower m sample_manager in
  (~ In (ascii_lower "Buenos dias") ["/restart"; "/reiniciar"] /\
   (state_of sample_manager u = "INITIAL" ->
    ~ In (ascii_lower "Buenos dias") ["hola"; "hi"; "hello"]) /\
   state_of sample_manager u <> "TICKET_CREATION" /\
   detect_ticket_intent ascii_lower "Buenos dias" = false) /\
  outbox w' = [] /\
  exists s' ts, sessions w' !! u = Some s' /\
    message_history s' = sample_entries ++ [HistoryEntry "user" "Buenos dias" ts None].
Proof.
  cbn zeta.
  assert (H1 : ~ In (ascii_lower "Buenos dias") ["/restart"; "/reiniciar"])
    by (intros [E | [E | []]]; vm_compute in E; discriminate).
  assert (H2 : state_of sample_manager "34600111222" = "INITIAL" ->
               ~ In (ascii_lower "Buenos dias") ["hola"; "hi"; "hello"])
    by (intros _ [E | [E | [E | []]]]; vm_compute in E; discriminate).
  assert (H3 : state_of sample_manager "34600111222" <> "TICKET_CREATION")
    by (vm_compute; discriminate).
  assert (H4 : detect_ticket_intent ascii_lower "Buenos dias" = false)
    by (vm_compute; reflexivity).
  split; [split; [exact H1 | split; [exact H2 | split; [exact H3 | exact H4]]] |].
  destruct (X18_unrouted_message_unanswered sample_wall ascii_lower sample_manager
              (sample_text "34600111222" "Ana" "Buenos dias") "Buenos dias"
              eq_refl eq_refl H1 H2 H3 H4)
    as (Ho & s' & ts & Hs & _ & _ & Hh).
  split; [exact Ho |]. exists s', ts. split; [exact Hs | exact Hh].
Defined.

Lemma X19_greeting_witness :
  let u := "34600999888" in
  let m := sample_text u "Eva" "Hola" in
  let w' := process_whatsapp_message sample_wall ascii_lower m sample_manager in
  (In (ascii_lower "Hola") ["hola"; "hi"; "hello"] /\
   state_of sample_manager u = "INITIAL") /\
  (exists s', sessions w' !! u = Some s' /\ state s' = "AWAITING_QUERY" /\
     length (message_history s') = 2) /\
  outbox w' = [(u, "¡Hola Eva! Bienvenido. ¿En qué puedo ayudarte hoy?")].
Proof.
  cbn zeta.
  assert (H1 : In (ascii_lower "Hola") ["hola"; "hi"; "hello"])
    by (left; reflexivity).
  assert (H2 : state_of sample_manager "34600999888" = "INITIAL")
    by (vm_compute; reflexivity).
  split; [split; [exact H1 | exact H2] |].
  destruct (X19_greeting sample_wall ascii_lower sample_manager
              (sample_text "34600999888" "Eva" "Hola") "Hola" eq_refl eq_refl H1 H2)
    as ((s' & ts1 & ts2 & Hs & Hst & _ & Hh) & Ho).
  split.
  - exists s'. split; [exact Hs |]. split; [exact Hst |]. rewrite Hh. reflexivity.
  - rewrite Ho. vm_compute. reflexivity.
Defined.


Lemma X21_formatting_witness :
  (plain "Ver " = true /\ plain "docs" = true /\ plain "https://x.io" = true /\
   plain " hoy" = true /\
   all_bytes (not_byte "]") "docs" = true /\
   all_bytes (not_byte ")") "https://x.io" = true /\
   str_strip "Ver **docs** hoy" = "Ver **docs** hoy" /\
   str_strip "Ver [docs](https://x.io) hoy" = "Ver [docs](https://x.io) hoy") /\
  process_text_for_whatsapp "Ver **docs** hoy" = "Ver *docs* hoy" /\
  process_text_for_whatsapp "Ver [docs](https://x.io) hoy" = "Ver docs: https://x.io hoy" /\
  process_text_for_whatsapp "Ver 【docs】 hoy" = "Ver  hoy".
Proof.
  assert (H1 : plain "Ver " = true) by reflexivity.
  assert (H2 : plain "docs" = true) by reflexivity.
  assert (H3 : plain "https://x.io" = true) by reflexivity.
  assert (H4 : plain " hoy" = true) by reflexivity.
  assert (H5 : all_bytes (not_byte "]") "docs" = true) by reflexivity.
  assert (H6 : all_bytes (not_byte ")") "https://x.io" = true) by reflexivity.
  assert (H7 : str_strip "Ver **docs** hoy" = "Ver **docs** hoy")
    by (vm_compute; reflexivity).
  assert (H8 : str_strip "Ver [docs](https://x.io) hoy" = "Ver [docs](https://x.io) hoy")
    by (vm_compute; reflexivity).
  split; [repeat (split; [assumption |]); assumption |].
  destruct (X21_formatting "Ver " "docs" "https://x.io" " hoy" H1 H2 H3 H4)
    as (Hbold & Hlink & Hcite).
  split; [exact (Hbold H7) |]. split; [exact (Hlink H5 H6 H8) |].
  exact Hcite.
Defined.


Lemma X24_rate_limit_window_witness :
  let requests := [(1001, "10.0.0.1"); (1002, "10.0.0.2"); (1003, "10.0.0.1");
                   (4600, "10.0.0.1")]%Z in
  ((∅ : gmap string rate_entry) !! "10.0.0.1" = None /\
   Forall (fun r => (fst r <= 1000 + 3600)%Z) requests) /\
  answers_to "10.0.0.1" (fst (serve 3 3600 ((1000%Z, "10.0.0.1") :: requests) ∅))
  = [true; true; true; false].
Proof.
  cbn zeta.
  assert (H1 : (∅ : gmap string rate_entry) !! "10.0.0.1" = None) by reflexivity.
  assert (H2 : Forall (fun r : Z * string => (fst r <= 1000 + 3600)%Z)
                 [(1001, "10.0.0.1"); (1002, "10.0.0.2"); (1003, "10.0.0.1");
                  (4600, "10.0.0.1")]%Z)
    by (repeat constructor; cbn; lia).
  split; [split; [exact H1 | exact H2] |].
  rewrite (X24_rate_limit_window 3 3600 1000 "10.0.0.1" _ ∅ H1 H2).
  reflexivity.
Defined.

Lemma X25_rate_limit_purge_witness :
  let store : gmap string rate_entry := {[ "10.0.0.1" := RateEntry 150 1000 ]} in
  (0 <= 3600)%Z /\
  fst (rate_limit_check 10000 "10.0.0.1" 100 3600 store) = true /\
  snd (rate_limit_check 10000 "10.0.0.1" 100 3600 store) !! "10.0.0.1"
    = Some (RateEntry 1 10000).
Proof.
  cbn zeta.
  assert (H : (0 <= 3600)%Z) by lia.
  split; [exact H |].
  destruct (X25_rate_limit_purge 10000 "10.0.0.1" 100 3600
              {[ "10.0.0.1" := RateEntry 150 1000 ]} H) as (_ & _ & Hnew).
  apply (Hnew (RateEntry 150 1000)); [apply lookup_singleton_eq | reflexivity].
Defined.

Lemma X27_missing_threads_file_witness :
  (env_client sample_env_no_file = Ok tt /\
   env_assistant_id sample_env_no_file = Some "asst_1" /\
   "asst_1" <> EmptyString) /\
  generate_assistant_response sample_env_no_file "hola" "34600111222" (Some "Ana")
  = Some (Ok error_apology).
Proof.
  assert (H3 : "asst_1" <> EmptyString) by discriminate.
  split; [split; [reflexivity | split; [reflexivity | exact H3]] |].
  destruct (X27_missing_threads_file sample_env_no_file (Ok "thread_9") "hola"
              "34600111222" "asst_1" (Some "Ana") eq_refl eq_refl H3 eq_refl)
    as (_ & _ & _ & H).
  exact H.
Defined.

Lemma X28_thread_is_kept_witness :
  let file := FileThreads {[ "34600999888" := "thread_1" ]} in
  let first := get_or_create_thread (Ok tt) (Ok "thread_2") file "34600111222" in
  (file <> FileAbsent /\ "thread_2" <> EmptyString) /\
  thread_outcome first = Ok "thread_2" /\
  thread_outcome (get_or_create_thread (Ok tt) Raise (threads_after first)
                    "34600111222") = Ok "thread_2" /\
  thread_outcome (get_or_create_thread (Ok tt) Raise (threads_after first)
                    "34600999888") = Ok "thread_1".
Proof.
  cbn zeta.
  assert (H1 : FileThreads {[ "34600999888" := "thread_1" ]} <> FileAbsent)
    by discriminate.
  assert (H2 : "thread_2" <> EmptyString) by discriminate.
  split; [split; [exact H1 | exact H2] |].
  destruct (X28_thread_is_kept (Ok "thread_2") Raise
              (FileThreads {[ "34600999888" := "thread_1" ]})
              "34600111222" "thread_2" H1 eq_refl H2)
    as ((thread_id & Hfirst & Hagain & _) & _ & _ & _ & _).
  split; [vm_compute; reflexivity |].
  split; [| vm_compute; reflexivity].
  rewrite Hagain, <- Hfirst. vm_compute. reflexivity.
Defined.


Lemma X29_client_waits_without_limit_witness :
  (cl_run sample_cancelled = Ok "queued" /\ "queued" <> "completed" /\
   (forall k, keeps_waiting (cl_retrieve sample_cancelled k)) /\
   (forall j, j < 2 -> keeps_waiting (cl_retrieve sample_completed j)) /\
   ~ keeps_waiting (cl_retrieve sample_completed 2)) /\
  (forall fuel, get_assistant_response fuel sample_cancelled = None) /\
  exists reply, get_assistant_response 3 sample_completed = Some reply.
Proof.
  assert (H1 : "queued" <> "completed") by discriminate.
  assert (H2 : forall k, keeps_waiting (cl_retrieve sample_cancelled k)).
  { intros k. exists "cancelled". split; [reflexivity |]. split; discriminate. }
  assert (H3 : forall j, j < 2 -> keeps_waiting (cl_retrieve sample_completed j)).
  { intros j Hj. exists "in_progress". split; [| split; discriminate].
    destruct j as [| [| j]]; [reflexivity | reflexivity | lia]. }
  assert (H4 : ~ keeps_waiting (cl_retrieve sample_completed 2)).
  { intros (s & Hs & Hc & _). cbn in Hs. congruence. }
  split; [split; [reflexivity | split; [exact H1 | split; [exact H2 | split; [exact H3 | exact H4]]]] |].
  split.
  - exact (proj1 (X29_client_waits_without_limit sample_cancelled "queued"
                    eq_refl eq_refl eq_refl eq_refl H1) H2).
  - exact (proj2 (X29_client_waits_without_limit sample_completed "queued"
                    eq_refl eq_refl eq_refl eq_refl H1) 2 H3 H4 3 ltac:(lia)).
Defined.


Lemma X2_active_iff_not_timed_out_witness :
  let u := "34600111222" in
  (sessions sample_manager !! u = Some sample_session /\
   is_Some (plus_seconds (last_activity sample_session)
                         (session_timeout sample_manager)) /\
   (0 <= session_timeout sample_manager < 2 ^ 34)%Z) /\
  (sessions sample_last_day !! u = Some (set_last_activity datetime_max sample_session) /\
   plus_seconds datetime_max (session_timeout sample_last_day) = None) /\
  fst (is_session_active (stopped_clock (after_noon 1 0)) u sample_manager) = Ok true /\
  fst (is_session_active (stopped_clock (after_noon 20 0)) u sample_manager) = Ok false /\
  is_session_active (stopped_clock noon) u sample_last_day = (Raise, sample_last_day).
Proof.
  cbn zeta.
  assert (H : sessions sample_manager !! "34600111222" = Some sample_session)
    by (vm_compute; reflexivity).
  assert (Hs : is_Some (plus_seconds (last_activity sample_session)
                                     (session_timeout sample_manager)))
    by (eexists; vm_compute; reflexivity).
  assert (Hb : (0 <= session_timeout sample_manager < 2 ^ 34)%Z)
    by (vm_compute; split; [discriminate | reflexivity]).
  assert (H' : sessions sample_last_day !! "34600111222" =
               Some (set_last_activity datetime_max sample_session))
    by (vm_compute; reflexivity).
  assert (Hn : plus_seconds datetime_max (session_timeout sample_last_day) = None)
    by (vm_compute; reflexivity).
  split; [split; [exact H | split; [exact Hs | exact Hb]] |].
  split; [split; [exact H' | exact Hn] |].
  split; [| split].
  - rewrite (proj2 (proj1 (X2_active_iff_not_timed_out (stopped_clock (after_noon 1 0))
                             sample_manager "34600111222") sample_session H) Hs Hb).
    vm_compute. reflexivity.
  - rewrite (proj2 (proj1 (X2_active_iff_not_timed_out (stopped_clock (after_noon 20 0))
                             sample_manager "34600111222") sample_session H) Hs Hb).
    vm_compute. reflexivity.
  - exact (proj1 (proj1 (X2_active_iff_not_timed_out (stopped_clock noon)
                           sample_last_day "34600111222") _ H') Hn).
Defined.

Lemma X20_formatted_text_witness :
  (plain "Hola Ana, son las 3" = true /\
   str_strip "Hola Ana, son las 3" = "Hola Ana, son las 3") /\
  process_text_for_whatsapp "Hola Ana, son las 3" = "Hola Ana, son las 3".
Proof.
  assert (H1 : plain "Hola Ana, son las 3" = true) by reflexivity.
  assert (H2 : str_strip "Hola Ana, son las 3" = "Hola Ana, son las 3")
    by (vm_compute; reflexivity).
  split; [split; [exact H1 | exact H2] |].
  destruct (X20_formatted_text "Hola Ana, son las 3") as (_ & _ & H).
  exact (H H1 H2).
Defined.

Lemma X23_sanitize_safe_witness :
  all_bytes (fun c => harmless c && not_byte "&" c) "Hola Ana, son las 3" = true /\
  sanitize_input "Hola Ana, son las 3" = "Hola Ana, son las 3".
Proof.
  assert (H1 : all_bytes (fun c => harmless c && not_byte "&" c)
                 "Hola Ana, son las 3" = true) by reflexivity.
  split; [exact H1 |].
  exact (proj2 (X23_sanitize_safe "Hola Ana, son las 3") H1).
Defined.
